(** * Suumo scraper: a shallow embedding of [suumo_scraper.py]

    The development follows the layout of the Python module: the text
    normalisers, the record store behind the Airtable helpers, the field
    extractors over a parsed page, and the assembly of the outbound payload
    in [get_suumo_data].

    Python values are modelled as follows.
    - [str] is a sequence of Unicode code points ([list Z]); literals are
      written [py "..."] and decoded from the UTF-8 bytes of the literal.
    - An exception is a value of [exn]; a call that may raise returns a
      [result].
    - A [float] is an IEEE-754 binary64 number, kept as an exact dyadic
      [m * 2^e] together with the rounding of every operation. *)

From Stdlib Require Import ZArith List String Ascii Bool Lia.
Import ListNotations.
Local Open Scope Z_scope.

(* ===================================================================== *)
(** ** Python strings *)
(* ===================================================================== *)

Module PyStr.

Definition str := list Z.

(** UTF-8 decoding of the bytes of a literal (well-formed input only). *)
Fixpoint utf8 (bs : list Z) : str :=
  match bs with
  | [] => []
  | b0 :: t0 =>
      if b0 <? 128 then b0 :: utf8 t0
      else
        match t0 with
        | [] => []
        | b1 :: t1 =>
            if b0 <? 224 then ((b0 - 192) * 64 + (b1 - 128)) :: utf8 t1
            else
              match t1 with
              | [] => []
              | b2 :: t2 =>
                  if b0 <? 240
                  then ((b0 - 224) * 4096 + (b1 - 128) * 64 + (b2 - 128)) :: utf8 t2
                  else
                    match t2 with
                    | [] => []
                    | b3 :: t3 =>
                        ((b0 - 240) * 262144 + (b1 - 128) * 4096
                         + (b2 - 128) * 64 + (b3 - 128)) :: utf8 t3
                    end
              end
        end
  end.

Definition py (s : string) : str :=
  utf8 (map (fun a => Z.of_N (N_of_ascii a)) (list_ascii_of_string s)).

Fixpoint str_eqb (a b : str) : bool :=
  match a, b with
  | [], [] => true
  | x :: a', y :: b' => (x =? y) && str_eqb a' b'
  | _, _ => false
  end.

(** [not s] for a string: the empty string is falsy. *)
Definition is_empty (s : str) : bool :=
  match s with [] => true | _ :: _ => false end.

Fixpoint take_while (p : Z -> bool) (s : str) : str :=
  match s with
  | [] => []
  | c :: t => if p c then c :: take_while p t else []
  end.

Fixpoint drop_while (p : Z -> bool) (s : str) : str :=
  match s with
  | [] => []
  | c :: t => if p c then drop_while p t else s
  end.

Fixpoint starts_with (pre s : str) : bool :=
  match pre, s with
  | [], _ => true
  | _ :: _, [] => false
  | a :: pre', b :: s' => (a =? b) && starts_with pre' s'
  end.

(** [sub in s] *)
Fixpoint contains (sub s : str) : bool :=
  starts_with sub s ||
  match s with
  | [] => false
  | _ :: t => contains sub t
  end.

(** [s.replace(old, new)], every non-overlapping occurrence from the left;
    [old] is a non-empty literal at every call site.  [skip] counts the
    characters of a matched occurrence that are still to be dropped. *)
Fixpoint replace_from (old new : str) (skip : nat) (s : str) : str :=
  match s with
  | [] => []
  | c :: t =>
      match skip with
      | S k => replace_from old new k t
      | O =>
          if starts_with old s
          then new ++ replace_from old new (Nat.pred (List.length old)) t
          else c :: replace_from old new O t
      end
  end.

Definition replace (old new s : str) : str := replace_from old new O s.

(** [s.replace(old, new, 1)]: the first occurrence only. *)
Fixpoint replace_first (old new s : str) : str :=
  match s with
  | [] => []
  | c :: t =>
      if starts_with old s
      then new ++ skipn (List.length old) s
      else c :: replace_first old new t
  end.

(** Characters for which [str.isspace] holds; the same set is matched by
    [\s] in a [str] pattern and removed by [str.strip]. *)
Definition whitespace : list Z :=
  [9; 10; 11; 12; 13; 28; 29; 30; 31; 32; 133; 160; 5760;
   8192; 8193; 8194; 8195; 8196; 8197; 8198; 8199; 8200; 8201; 8202;
   8232; 8233; 8239; 8287; 12288].

Definition is_space (c : Z) : bool := existsb (Z.eqb c) whitespace.

(** First code point of every run [0..9] of Unicode decimal digits
    (category Nd, Unicode 14), the characters matched by [\d] in a [str]
    pattern and accepted by [int] and [float]. *)
Definition decimal_zeros : list Z :=
  [48; 1632; 1776; 1984; 2406; 2534; 2662; 2790; 2918; 3046; 3174; 3302;
   3430; 3558; 3664; 3792; 3872; 4160; 4240; 6112; 6160; 6470; 6608; 6784;
   6800; 6992; 7088; 7232; 7248; 42528; 43216; 43264; 43472; 43504; 43600;
   44016; 65296; 66720; 68912; 69734; 69872; 69942; 70096; 70384; 70736;
   70864; 71248; 71360; 71472; 71904; 72016; 72784; 73040; 73120; 92768;
   92864; 93008; 120782; 120792; 120802; 120812; 120822; 123200; 123632;
   125264; 130032].

Definition digit_value (c : Z) : option Z :=
  match find (fun z => (z <=? c) && (c <? z + 10)) decimal_zeros with
  | Some z => Some (c - z)
  | None => None
  end.

Definition is_digit (c : Z) : bool :=
  match digit_value c with Some _ => true | None => false end.

(** [s.strip()] *)
Definition lstrip (s : str) : str := drop_while is_space s.
Definition rstrip (s : str) : str := rev (drop_while is_space (rev s)).
Definition strip (s : str) : str := rstrip (lstrip s).

(** [re.sub(r"\s+", " ", s)]: [in_run] tells that the previous character
    belonged to the run of whitespace already replaced. *)
Fixpoint collapse_spaces (in_run : bool) (s : str) : str :=
  match s with
  | [] => []
  | c :: t =>
      if is_space c
      then (if in_run then collapse_spaces true t
            else 32 :: collapse_spaces true t)
      else c :: collapse_spaces false t
  end.

(** The case tables of Unicode 14.0, the version [str.title] works with.
    [cased_ranges] lists the code points with the property Cased and
    [case_ignorable_ranges] those with the property Case_Ignorable, as
    closed intervals. *)
Definition cased_ranges : list (Z * Z) :=
  [ (65, 90); (97, 122); (170, 170); (181, 181); (186, 186); (192, 214);
    (216, 246); (248, 442); (444, 447); (452, 659); (661, 696); (704, 705);
    (736, 740); (837, 837); (880, 883); (886, 887); (890, 893); (895, 895);
    (902, 902); (904, 906); (908, 908); (910, 929); (931, 1013); (1015, 1153);
    (1162, 1327); (1329, 1366); (1376, 1416); (4256, 4293); (4295, 4295);
    (4301, 4301); (4304, 4346); (4349, 4351); (5024, 5109); (5112, 5117);
    (7296, 7304); (7312, 7354); (7357, 7359); (7424, 7615); (7680, 7957);
    (7960, 7965); (7968, 8005); (8008, 8013); (8016, 8023); (8025, 8025);
    (8027, 8027); (8029, 8029); (8031, 8061); (8064, 8116); (8118, 8124);
    (8126, 8126); (8130, 8132); (8134, 8140); (8144, 8147); (8150, 8155);
    (8160, 8172); (8178, 8180); (8182, 8188); (8305, 8305); (8319, 8319);
    (8336, 8348); (8450, 8450); (8455, 8455); (8458, 8467); (8469, 8469);
    (8473, 8477); (8484, 8484); (8486, 8486); (8488, 8488); (8490, 8493);
    (8495, 8500); (8505, 8505); (8508, 8511); (8517, 8521); (8526, 8526);
    (8544, 8575); (8579, 8580); (9398, 9449); (11264, 11492); (11499, 11502);
    (11506, 11507); (11520, 11557); (11559, 11559); (11565, 11565);
    (42560, 42605); (42624, 42653); (42786, 42887); (42891, 42894);
    (42896, 42954); (42960, 42961); (42963, 42963); (42965, 42969);
    (42997, 42998); (43000, 43002); (43824, 43866); (43868, 43880);
    (43888, 43967); (64256, 64262); (64275, 64279); (65313, 65338);
    (65345, 65370); (66560, 66639); (66736, 66771); (66776, 66811);
    (66928, 66938); (66940, 66954); (66956, 66962); (66964, 66965);
    (66967, 66977); (66979, 66993); (66995, 67001); (67003, 67004);
    (67456, 67456); (67459, 67461); (67463, 67504); (67506, 67514);
    (68736, 68786); (68800, 68850); (71840, 71903); (93760, 93823);
    (119808, 119892); (119894, 119964); (119966, 119967); (119970, 119970);
    (119973, 119974); (119977, 119980); (119982, 119993); (119995, 119995);
    (119997, 120003); (120005, 120069); (120071, 120074); (120077, 120084);
    (120086, 120092); (120094, 120121); (120123, 120126); (120128, 120132);
    (120134, 120134); (120138, 120144); (120146, 120485); (120488, 120512);
    (120514, 120538); (120540, 120570); (120572, 120596); (120598, 120628);
    (120630, 120654); (120656, 120686); (120688, 120712); (120714, 120744);
    (120746, 120770); (120772, 120779); (122624, 122633); (122635, 122654);
    (125184, 125251); (127280, 127305); (127312, 127337); (127344, 127369) ].

Definition case_ignorable_ranges : list (Z * Z) :=
  [ (39, 39); (46, 46); (58, 58); (94, 94); (96, 96); (168, 168); (173, 173);
    (175, 175); (180, 180); (183, 184); (688, 879); (884, 885); (890, 890);
    (900, 901); (903, 903); (1155, 1161); (1369, 1369); (1375, 1375);
    (1425, 1469); (1471, 1471); (1473, 1474); (1476, 1477); (1479, 1479);
    (1524, 1524); (1536, 1541); (1552, 1562); (1564, 1564); (1600, 1600);
    (1611, 1631); (1648, 1648); (1750, 1757); (1759, 1768); (1770, 1773);
    (1807, 1807); (1809, 1809); (1840, 1866); (1958, 1968); (2027, 2037);
    (2042, 2042); (2045, 2045); (2070, 2093); (2137, 2139); (2184, 2184);
    (2192, 2193); (2200, 2207); (2249, 2306); (2362, 2362); (2364, 2364);
    (2369, 2376); (2381, 2381); (2385, 2391); (2402, 2403); (2417, 2417);
    (2433, 2433); (2492, 2492); (2497, 2500); (2509, 2509); (2530, 2531);
    (2558, 2558); (2561, 2562); (2620, 2620); (2625, 2626); (2631, 2632);
    (2635, 2637); (2641, 2641); (2672, 2673); (2677, 2677); (2689, 2690);
    (2748, 2748); (2753, 2757); (2759, 2760); (2765, 2765); (2786, 2787);
    (2810, 2815); (2817, 2817); (2876, 2876); (2879, 2879); (2881, 2884);
    (2893, 2893); (2901, 2902); (2914, 2915); (2946, 2946); (3008, 3008);
    (3021, 3021); (3072, 3072); (3076, 3076); (3132, 3132); (3134, 3136);
    (3142, 3144); (3146, 3149); (3157, 3158); (3170, 3171); (3201, 3201);
    (3260, 3260); (3263, 3263); (3270, 3270); (3276, 3277); (3298, 3299);
    (3328, 3329); (3387, 3388); (3393, 3396); (3405, 3405); (3426, 3427);
    (3457, 3457); (3530, 3530); (3538, 3540); (3542, 3542); (3633, 3633);
    (3636, 3642); (3654, 3662); (3761, 3761); (3764, 3772); (3782, 3782);
    (3784, 3789); (3864, 3865); (3893, 3893); (3895, 3895); (3897, 3897);
    (3953, 3966); (3968, 3972); (3974, 3975); (3981, 3991); (3993, 4028);
    (4038, 4038); (4141, 4144); (4146, 4151); (4153, 4154); (4157, 4158);
    (4184, 4185); (4190, 4192); (4209, 4212); (4226, 4226); (4229, 4230);
    (4237, 4237); (4253, 4253); (4348, 4348); (4957, 4959); (5906, 5908);
    (5938, 5939); (5970, 5971); (6002, 6003); (6068, 6069); (6071, 6077);
    (6086, 6086); (6089, 6099); (6103, 6103); (6109, 6109); (6155, 6159);
    (6211, 6211); (6277, 6278); (6313, 6313); (6432, 6434); (6439, 6440);
    (6450, 6450); (6457, 6459); (6679, 6680); (6683, 6683); (6742, 6742);
    (6744, 6750); (6752, 6752); (6754, 6754); (6757, 6764); (6771, 6780);
    (6783, 6783); (6823, 6823); (6832, 6862); (6912, 6915); (6964, 6964);
    (6966, 6970); (6972, 6972); (6978, 6978); (7019, 7027); (7040, 7041);
    (7074, 7077); (7080, 7081); (7083, 7085); (7142, 7142); (7144, 7145);
    (7149, 7149); (7151, 7153); (7212, 7219); (7222, 7223); (7288, 7293);
    (7376, 7378); (7380, 7392); (7394, 7400); (7405, 7405); (7412, 7412);
    (7416, 7417); (7468, 7530); (7544, 7544); (7579, 7679); (8125, 8125);
    (8127, 8129); (8141, 8143); (8157, 8159); (8173, 8175); (8189, 8190);
    (8203, 8207); (8216, 8217); (8228, 8228); (8231, 8231); (8234, 8238);
    (8288, 8292); (8294, 8303); (8305, 8305); (8319, 8319); (8336, 8348);
    (8400, 8432); (11388, 11389); (11503, 11505); (11631, 11631);
    (11647, 11647); (11744, 11775); (11823, 11823); (12293, 12293);
    (12330, 12333); (12337, 12341); (12347, 12347); (12441, 12446);
    (12540, 12542); (40981, 40981); (42232, 42237); (42508, 42508);
    (42607, 42610); (42612, 42621); (42623, 42623); (42652, 42655);
    (42736, 42737); (42752, 42785); (42864, 42864); (42888, 42890);
    (42994, 42996); (43000, 43001); (43010, 43010); (43014, 43014);
    (43019, 43019); (43045, 43046); (43052, 43052); (43204, 43205);
    (43232, 43249); (43263, 43263); (43302, 43309); (43335, 43345);
    (43392, 43394); (43443, 43443); (43446, 43449); (43452, 43453);
    (43471, 43471); (43493, 43494); (43561, 43566); (43569, 43570);
    (43573, 43574); (43587, 43587); (43596, 43596); (43632, 43632);
    (43644, 43644); (43696, 43696); (43698, 43700); (43703, 43704);
    (43710, 43711); (43713, 43713); (43741, 43741); (43756, 43757);
    (43763, 43764); (43766, 43766); (43867, 43871); (43881, 43883);
    (44005, 44005); (44008, 44008); (44013, 44013); (64286, 64286);
    (64434, 64450); (65024, 65039); (65043, 65043); (65056, 65071);
    (65106, 65106); (65109, 65109); (65279, 65279); (65287, 65287);
    (65294, 65294); (65306, 65306); (65342, 65342); (65344, 65344);
    (65392, 65392); (65438, 65439); (65507, 65507); (65529, 65531);
    (66045, 66045); (66272, 66272); (66422, 66426); (67456, 67461);
    (67463, 67504); (67506, 67514); (68097, 68099); (68101, 68102);
    (68108, 68111); (68152, 68154); (68159, 68159); (68325, 68326);
    (68900, 68903); (69291, 69292); (69446, 69456); (69506, 69509);
    (69633, 69633); (69688, 69702); (69744, 69744); (69747, 69748);
    (69759, 69761); (69811, 69814); (69817, 69818); (69821, 69821);
    (69826, 69826); (69837, 69837); (69888, 69890); (69927, 69931);
    (69933, 69940); (70003, 70003); (70016, 70017); (70070, 70078);
    (70089, 70092); (70095, 70095); (70191, 70193); (70196, 70196);
    (70198, 70199); (70206, 70206); (70367, 70367); (70371, 70378);
    (70400, 70401); (70459, 70460); (70464, 70464); (70502, 70508);
    (70512, 70516); (70712, 70719); (70722, 70724); (70726, 70726);
    (70750, 70750); (70835, 70840); (70842, 70842); (70847, 70848);
    (70850, 70851); (71090, 71093); (71100, 71101); (71103, 71104);
    (71132, 71133); (71219, 71226); (71229, 71229); (71231, 71232);
    (71339, 71339); (71341, 71341); (71344, 71349); (71351, 71351);
    (71453, 71455); (71458, 71461); (71463, 71467); (71727, 71735);
    (71737, 71738); (71995, 71996); (71998, 71998); (72003, 72003);
    (72148, 72151); (72154, 72155); (72160, 72160); (72193, 72202);
    (72243, 72248); (72251, 72254); (72263, 72263); (72273, 72278);
    (72281, 72283); (72330, 72342); (72344, 72345); (72752, 72758);
    (72760, 72765); (72767, 72767); (72850, 72871); (72874, 72880);
    (72882, 72883); (72885, 72886); (73009, 73014); (73018, 73018);
    (73020, 73021); (73023, 73029); (73031, 73031); (73104, 73105);
    (73109, 73109); (73111, 73111); (73459, 73460); (78896, 78904);
    (92912, 92916); (92976, 92982); (92992, 92995); (94031, 94031);
    (94095, 94111); (94176, 94177); (94179, 94180); (110576, 110579);
    (110581, 110587); (110589, 110590); (113821, 113822); (113824, 113827);
    (118528, 118573); (118576, 118598); (119143, 119145); (119155, 119170);
    (119173, 119179); (119210, 119213); (119362, 119364); (121344, 121398);
    (121403, 121452); (121461, 121461); (121476, 121476); (121499, 121503);
    (121505, 121519); (122880, 122886); (122888, 122904); (122907, 122913);
    (122915, 122916); (122918, 122922); (123184, 123197); (123566, 123566);
    (123628, 123631); (125136, 125142); (125252, 125259); (127995, 127999);
    (917505, 917505); (917536, 917631); (917760, 917999) ].

(** The simple case mappings, in runs: [(first, last, step, delta)] maps
    each of [first], [first + step], ..., [last] to itself plus [delta].
    A code point in no run is mapped to itself. *)
Definition lower_runs : list (Z * Z * Z * Z) :=
  [ (65, 90, 1, 32); (192, 214, 1, 32); (216, 222, 1, 32); (256, 302, 2, 1);
    (306, 310, 2, 1); (313, 327, 2, 1); (330, 374, 2, 1); (376, 376, 1, -121);
    (377, 381, 2, 1); (385, 385, 1, 210); (386, 388, 2, 1); (390, 390, 1, 206);
    (391, 391, 1, 1); (393, 394, 1, 205); (395, 395, 1, 1); (398, 398, 1, 79);
    (399, 399, 1, 202); (400, 400, 1, 203); (401, 401, 1, 1);
    (403, 403, 1, 205); (404, 404, 1, 207); (406, 406, 1, 211);
    (407, 407, 1, 209); (408, 408, 1, 1); (412, 412, 1, 211);
    (413, 413, 1, 213); (415, 415, 1, 214); (416, 420, 2, 1);
    (422, 422, 1, 218); (423, 423, 1, 1); (425, 425, 1, 218); (428, 428, 1, 1);
    (430, 430, 1, 218); (431, 431, 1, 1); (433, 434, 1, 217); (435, 437, 2, 1);
    (439, 439, 1, 219); (440, 440, 1, 1); (444, 444, 1, 1); (452, 452, 1, 2);
    (453, 453, 1, 1); (455, 455, 1, 2); (456, 456, 1, 1); (458, 458, 1, 2);
    (459, 475, 2, 1); (478, 494, 2, 1); (497, 497, 1, 2); (498, 500, 2, 1);
    (502, 502, 1, -97); (503, 503, 1, -56); (504, 542, 2, 1);
    (544, 544, 1, -130); (546, 562, 2, 1); (570, 570, 1, 10795);
    (571, 571, 1, 1); (573, 573, 1, -163); (574, 574, 1, 10792);
    (577, 577, 1, 1); (579, 579, 1, -195); (580, 580, 1, 69); (581, 581, 1, 71);
    (582, 590, 2, 1); (880, 882, 2, 1); (886, 886, 1, 1); (895, 895, 1, 116);
    (902, 902, 1, 38); (904, 906, 1, 37); (908, 908, 1, 64); (910, 911, 1, 63);
    (913, 929, 1, 32); (931, 939, 1, 32); (975, 975, 1, 8); (984, 1006, 2, 1);
    (1012, 1012, 1, -60); (1015, 1015, 1, 1); (1017, 1017, 1, -7);
    (1018, 1018, 1, 1); (1021, 1023, 1, -130); (1024, 1039, 1, 80);
    (1040, 1071, 1, 32); (1120, 1152, 2, 1); (1162, 1214, 2, 1);
    (1216, 1216, 1, 15); (1217, 1229, 2, 1); (1232, 1326, 2, 1);
    (1329, 1366, 1, 48); (4256, 4293, 1, 7264); (4295, 4295, 1, 7264);
    (4301, 4301, 1, 7264); (5024, 5103, 1, 38864); (5104, 5109, 1, 8);
    (7312, 7354, 1, -3008); (7357, 7359, 1, -3008); (7680, 7828, 2, 1);
    (7838, 7838, 1, -7615); (7840, 7934, 2, 1); (7944, 7951, 1, -8);
    (7960, 7965, 1, -8); (7976, 7983, 1, -8); (7992, 7999, 1, -8);
    (8008, 8013, 1, -8); (8025, 8031, 2, -8); (8040, 8047, 1, -8);
    (8072, 8079, 1, -8); (8088, 8095, 1, -8); (8104, 8111, 1, -8);
    (8120, 8121, 1, -8); (8122, 8123, 1, -74); (8124, 8124, 1, -9);
    (8136, 8139, 1, -86); (8140, 8140, 1, -9); (8152, 8153, 1, -8);
    (8154, 8155, 1, -100); (8168, 8169, 1, -8); (8170, 8171, 1, -112);
    (8172, 8172, 1, -7); (8184, 8185, 1, -128); (8186, 8187, 1, -126);
    (8188, 8188, 1, -9); (8486, 8486, 1, -7517); (8490, 8490, 1, -8383);
    (8491, 8491, 1, -8262); (8498, 8498, 1, 28); (8544, 8559, 1, 16);
    (8579, 8579, 1, 1); (9398, 9423, 1, 26); (11264, 11311, 1, 48);
    (11360, 11360, 1, 1); (11362, 11362, 1, -10743); (11363, 11363, 1, -3814);
    (11364, 11364, 1, -10727); (11367, 11371, 2, 1); (11373, 11373, 1, -10780);
    (11374, 11374, 1, -10749); (11375, 11375, 1, -10783);
    (11376, 11376, 1, -10782); (11378, 11378, 1, 1); (11381, 11381, 1, 1);
    (11390, 11391, 1, -10815); (11392, 11490, 2, 1); (11499, 11501, 2, 1);
    (11506, 11506, 1, 1); (42560, 42604, 2, 1); (42624, 42650, 2, 1);
    (42786, 42798, 2, 1); (42802, 42862, 2, 1); (42873, 42875, 2, 1);
    (42877, 42877, 1, -35332); (42878, 42886, 2, 1); (42891, 42891, 1, 1);
    (42893, 42893, 1, -42280); (42896, 42898, 2, 1); (42902, 42920, 2, 1);
    (42922, 42922, 1, -42308); (42923, 42923, 1, -42319);
    (42924, 42924, 1, -42315); (42925, 42925, 1, -42305);
    (42926, 42926, 1, -42308); (42928, 42928, 1, -42258);
    (42929, 42929, 1, -42282); (42930, 42930, 1, -42261);
    (42931, 42931, 1, 928); (42932, 42946, 2, 1); (42948, 42948, 1, -48);
    (42949, 42949, 1, -42307); (42950, 42950, 1, -35384); (42951, 42953, 2, 1);
    (42960, 42960, 1, 1); (42966, 42968, 2, 1); (42997, 42997, 1, 1);
    (65313, 65338, 1, 32); (66560, 66599, 1, 40); (66736, 66771, 1, 40);
    (66928, 66964, 2, 39); (66929, 66937, 2, 39); (66941, 66953, 2, 39);
    (66957, 66961, 2, 39); (66965, 66965, 1, 39); (68736, 68786, 1, 64);
    (71840, 71871, 1, 32); (93760, 93791, 1, 32); (125184, 125217, 1, 34) ].

Definition title_runs : list (Z * Z * Z * Z) :=
  [ (97, 122, 1, -32); (181, 181, 1, 743); (224, 246, 1, -32);
    (248, 254, 1, -32); (255, 255, 1, 121); (257, 303, 2, -1);
    (305, 305, 1, -232); (307, 311, 2, -1); (314, 328, 2, -1);
    (331, 375, 2, -1); (378, 382, 2, -1); (383, 383, 1, -300);
    (384, 384, 1, 195); (387, 389, 2, -1); (392, 392, 1, -1); (396, 396, 1, -1);
    (402, 402, 1, -1); (405, 405, 1, 97); (409, 409, 1, -1); (410, 410, 1, 163);
    (414, 414, 1, 130); (417, 421, 2, -1); (424, 424, 1, -1); (429, 429, 1, -1);
    (432, 432, 1, -1); (436, 438, 2, -1); (441, 441, 1, -1); (445, 445, 1, -1);
    (447, 447, 1, 56); (452, 452, 1, 1); (454, 454, 1, -1); (455, 455, 1, 1);
    (457, 457, 1, -1); (458, 458, 1, 1); (460, 476, 2, -1); (477, 477, 1, -79);
    (479, 495, 2, -1); (497, 497, 1, 1); (499, 501, 2, -1); (505, 543, 2, -1);
    (547, 563, 2, -1); (572, 572, 1, -1); (575, 576, 1, 10815);
    (578, 578, 1, -1); (583, 591, 2, -1); (592, 592, 1, 10783);
    (593, 593, 1, 10780); (594, 594, 1, 10782); (595, 595, 1, -210);
    (596, 596, 1, -206); (598, 599, 1, -205); (601, 601, 1, -202);
    (603, 603, 1, -203); (604, 604, 1, 42319); (608, 608, 1, -205);
    (609, 609, 1, 42315); (611, 611, 1, -207); (613, 613, 1, 42280);
    (614, 614, 1, 42308); (616, 616, 1, -209); (617, 617, 1, -211);
    (618, 618, 1, 42308); (619, 619, 1, 10743); (620, 620, 1, 42305);
    (623, 623, 1, -211); (625, 625, 1, 10749); (626, 626, 1, -213);
    (629, 629, 1, -214); (637, 637, 1, 10727); (640, 640, 1, -218);
    (642, 642, 1, 42307); (643, 643, 1, -218); (647, 647, 1, 42282);
    (648, 648, 1, -218); (649, 649, 1, -69); (650, 651, 1, -217);
    (652, 652, 1, -71); (658, 658, 1, -219); (669, 669, 1, 42261);
    (670, 670, 1, 42258); (837, 837, 1, 84); (881, 883, 2, -1);
    (887, 887, 1, -1); (891, 893, 1, 130); (940, 940, 1, -38);
    (941, 943, 1, -37); (945, 961, 1, -32); (962, 962, 1, -31);
    (963, 971, 1, -32); (972, 972, 1, -64); (973, 974, 1, -63);
    (976, 976, 1, -62); (977, 977, 1, -57); (981, 981, 1, -47);
    (982, 982, 1, -54); (983, 983, 1, -8); (985, 1007, 2, -1);
    (1008, 1008, 1, -86); (1009, 1009, 1, -80); (1010, 1010, 1, 7);
    (1011, 1011, 1, -116); (1013, 1013, 1, -96); (1016, 1016, 1, -1);
    (1019, 1019, 1, -1); (1072, 1103, 1, -32); (1104, 1119, 1, -80);
    (1121, 1153, 2, -1); (1163, 1215, 2, -1); (1218, 1230, 2, -1);
    (1231, 1231, 1, -15); (1233, 1327, 2, -1); (1377, 1414, 1, -48);
    (5112, 5117, 1, -8); (7296, 7296, 1, -6254); (7297, 7297, 1, -6253);
    (7298, 7298, 1, -6244); (7299, 7300, 1, -6242); (7301, 7301, 1, -6243);
    (7302, 7302, 1, -6236); (7303, 7303, 1, -6181); (7304, 7304, 1, 35266);
    (7545, 7545, 1, 35332); (7549, 7549, 1, 3814); (7566, 7566, 1, 35384);
    (7681, 7829, 2, -1); (7835, 7835, 1, -59); (7841, 7935, 2, -1);
    (7936, 7943, 1, 8); (7952, 7957, 1, 8); (7968, 7975, 1, 8);
    (7984, 7991, 1, 8); (8000, 8005, 1, 8); (8017, 8023, 2, 8);
    (8032, 8039, 1, 8); (8048, 8049, 1, 74); (8050, 8053, 1, 86);
    (8054, 8055, 1, 100); (8056, 8057, 1, 128); (8058, 8059, 1, 112);
    (8060, 8061, 1, 126); (8064, 8071, 1, 8); (8080, 8087, 1, 8);
    (8096, 8103, 1, 8); (8112, 8113, 1, 8); (8115, 8115, 1, 9);
    (8126, 8126, 1, -7205); (8131, 8131, 1, 9); (8144, 8145, 1, 8);
    (8160, 8161, 1, 8); (8165, 8165, 1, 7); (8179, 8179, 1, 9);
    (8526, 8526, 1, -28); (8560, 8575, 1, -16); (8580, 8580, 1, -1);
    (9424, 9449, 1, -26); (11312, 11359, 1, -48); (11361, 11361, 1, -1);
    (11365, 11365, 1, -10795); (11366, 11366, 1, -10792); (11368, 11372, 2, -1);
    (11379, 11379, 1, -1); (11382, 11382, 1, -1); (11393, 11491, 2, -1);
    (11500, 11502, 2, -1); (11507, 11507, 1, -1); (11520, 11557, 1, -7264);
    (11559, 11559, 1, -7264); (11565, 11565, 1, -7264); (42561, 42605, 2, -1);
    (42625, 42651, 2, -1); (42787, 42799, 2, -1); (42803, 42863, 2, -1);
    (42874, 42876, 2, -1); (42879, 42887, 2, -1); (42892, 42892, 1, -1);
    (42897, 42899, 2, -1); (42900, 42900, 1, 48); (42903, 42921, 2, -1);
    (42933, 42947, 2, -1); (42952, 42954, 2, -1); (42961, 42961, 1, -1);
    (42967, 42969, 2, -1); (42998, 42998, 1, -1); (43859, 43859, 1, -928);
    (43888, 43967, 1, -38864); (65345, 65370, 1, -32); (66600, 66639, 1, -40);
    (66776, 66811, 1, -40); (66967, 67003, 2, -39); (66968, 66976, 2, -39);
    (66980, 66992, 2, -39); (66996, 67000, 2, -39); (67004, 67004, 1, -39);
    (68800, 68850, 1, -64); (71872, 71903, 1, -32); (93792, 93823, 1, -32);
    (125218, 125251, 1, -34) ].

(** The code points whose full mapping is not a single code point. *)
Definition lower_special : list (Z * str) :=
  [ (304, [105; 775]) ].

Definition title_special : list (Z * str) :=
  [ (223, [83; 115]); (329, [700; 78]); (496, [74; 780]);
    (912, [921; 776; 769]); (944, [933; 776; 769]); (1415, [1333; 1410]);
    (7830, [72; 817]); (7831, [84; 776]); (7832, [87; 778]); (7833, [89; 778]);
    (7834, [65; 702]); (8016, [933; 787]); (8018, [933; 787; 768]);
    (8020, [933; 787; 769]); (8022, [933; 787; 834]); (8114, [8122; 837]);
    (8116, [902; 837]); (8118, [913; 834]); (8119, [913; 834; 837]);
    (8130, [8138; 837]); (8132, [905; 837]); (8134, [919; 834]);
    (8135, [919; 834; 837]); (8146, [921; 776; 768]); (8147, [921; 776; 769]);
    (8150, [921; 834]); (8151, [921; 776; 834]); (8162, [933; 776; 768]);
    (8163, [933; 776; 769]); (8164, [929; 787]); (8166, [933; 834]);
    (8167, [933; 776; 834]); (8178, [8186; 837]); (8180, [911; 837]);
    (8182, [937; 834]); (8183, [937; 834; 837]); (64256, [70; 102]);
    (64257, [70; 105]); (64258, [70; 108]); (64259, [70; 102; 105]);
    (64260, [70; 102; 108]); (64261, [83; 116]); (64262, [83; 116]);
    (64275, [1348; 1398]); (64276, [1348; 1381]); (64277, [1348; 1387]);
    (64278, [1358; 1398]); (64279, [1348; 1389]) ].

Definition in_ranges (rs : list (Z * Z)) (c : Z) : bool :=
  existsb (fun r => (fst r <=? c) && (c <=? snd r)) rs.

Definition is_cased (c : Z) : bool := in_ranges cased_ranges c.
Definition is_case_ignorable (c : Z) : bool := in_ranges case_ignorable_ranges c.

(** The run [r] maps the code point [c]. *)
Definition run_hits (r : Z * Z * Z * Z) (c : Z) : bool :=
  let '(first, last, step, _) := r in
  (first <=? c) && (c <=? last) && ((c - first) mod step =? 0).

Definition run_delta (runs : list (Z * Z * Z * Z)) (c : Z) : Z :=
  match find (fun r => run_hits r c) runs with
  | Some (_, _, _, delta) => delta
  | None => 0
  end.

Definition special (table : list (Z * str)) (c : Z) : option str :=
  match find (fun e => fst e =? c) table with
  | Some e => Some (snd e)
  | None => None
  end.

(** The full lower-case and title-case mappings of one code point. *)
Definition to_lower_full (c : Z) : str :=
  match special lower_special c with
  | Some l => l
  | None => [c + run_delta lower_runs c]
  end.

Definition to_title_full (c : Z) : str :=
  match special title_special c with
  | Some l => l
  | None => [c + run_delta title_runs c]
  end.

(** The capital sigma is in final position when a cased character comes
    before it and none comes after it, case-ignorable characters being
    skipped on both sides.  [before] holds the characters in front of the
    sigma, the nearest first. *)
Definition final_sigma (before after : str) : bool :=
  match drop_while is_case_ignorable before with
  | [] => false
  | b :: _ =>
      is_cased b &&
      match drop_while is_case_ignorable after with
      | [] => true
      | a :: _ => negb (is_cased a)
      end
  end.

(** Lower-casing of [c] inside a string: the capital sigma becomes the
    final or the medial small sigma. *)
Definition lower_at (before : str) (c : Z) (after : str) : str :=
  if c =? 931 then [if final_sigma before after then 962 else 963]
  else to_lower_full c.

(** [s.title()]: a character that follows a cased character is lower-cased,
    any other character is title-cased.  [before] holds the characters
    already read, the nearest first. *)
Fixpoint title_from (before : str) (prev_cased : bool) (s : str) : str :=
  match s with
  | [] => []
  | c :: t =>
      (if prev_cased then lower_at before c t else to_title_full c)
        ++ title_from (c :: before) (is_cased c) t
  end.

Definition title (s : str) : str := title_from [] false s.

(** [s.split(sep)[-1]] for a one-character separator: the text after the
    last separator, the whole string when there is none. *)
Fixpoint after_last (sep : Z) (s : str) : str :=
  match s with
  | [] => []
  | c :: t =>
      if (c =? sep) then after_last sep t
      else if existsb (Z.eqb sep) t then after_last sep t
      else s
  end.

(** Decimal digits of a non-negative integer, most significant first. *)
Fixpoint digits_from (fuel : nat) (n : Z) (acc : str) : str :=
  match fuel with
  | O => acc
  | S f =>
      let acc' := (48 + n mod 10) :: acc in
      if n <? 10 then acc' else digits_from f (n / 10) acc'
  end.

(** [str(n)] for an integer within the cap on printed digits. *)
Definition str_of_int (n : Z) : str :=
  if n <? 0
  then 45 :: digits_from (S (Z.to_nat (Z.log2 (- n)))) (- n) []
  else digits_from (S (Z.to_nat (Z.log2 n))) n [].

(** Reversed digits with a comma after every third one. *)
Fixpoint commas_rev (k : nat) (rev_digits : str) : str :=
  match rev_digits with
  | [] => []
  | c :: t =>
      match k with
      | 3%nat => 44 :: c :: commas_rev 1 t
      | _ => c :: commas_rev (S k) t
      end
  end.

(** [f"{n:,}"].  The interpreter caps the digits of an integer that is
    printed as it caps those that [int] reads; the integers that this
    program prints stay within the cap ([parse_price_value] and
    [size_within_cap] below), so printing never raises. *)
Definition format_commas (n : Z) : str :=
  if n <? 0
  then 45 :: rev (commas_rev 0 (rev (digits_from (S (Z.to_nat (Z.log2 (- n)))) (- n) [])))
  else rev (commas_rev 0 (rev (digits_from (S (Z.to_nat (Z.log2 n))) n []))).

(** The number that a run of decimal digits writes, as [int] and [float]
    read it. *)
Definition int_of_digits (s : str) : Z :=
  fold_left (fun acc c =>
               match digit_value c with
               | Some d => 10 * acc + d
               | None => acc
               end) s 0.

End PyStr.
Export PyStr.

(* ===================================================================== *)
(** ** Exceptions *)
(* ===================================================================== *)

Inductive exn : Type :=
| ValueError
| OverflowError
| IndexError
| AttributeError.

Inductive result (A : Type) : Type :=
| Ok (a : A)
| Raise (e : exn).

Arguments Ok {A} a.
Arguments Raise {A} e.

Definition rbind {A B : Type} (r : result A) (k : A -> result B) : result B :=
  match r with
  | Ok a => k a
  | Raise e => Raise e
  end.

(** The interpreter's cap on the digits of a string that [int] converts
    ([sys.int_max_str_digits], 4300 unless it is reconfigured). *)
Definition int_max_str_digits : nat := 4300.

(** [int(s)] for a non-empty run of decimal digits: a run longer than the
    cap is a [ValueError]. *)
Definition int_of_str (s : str) : result Z :=
  if (int_max_str_digits <? List.length s)%nat then Raise ValueError
  else Ok (int_of_digits s).

(* ===================================================================== *)
(** ** Python floats (IEEE-754 binary64, non-negative values) *)
(* ===================================================================== *)

Module PyFloat.

(** [Finite m e] is the number [m * 2^e] with [0 <= m <= 2^53] and
    [-1074 <= e <= 971]; [Inf] is positive infinity. *)
Inductive float : Type :=
| Finite (m e : Z)
| Inf.

(** Nearest integer to [n / d], ties to even ([0 <= n], [0 < d]). *)
Definition round_half_even (n d : Z) : Z :=
  let q := n / d in
  let r := n mod d in
  if 2 * r <? d then q
  else if 2 * r =? d then (if Z.even q then q else q + 1)
  else q + 1.

(** The fraction [(n / d) / 2^k] as a numerator and a denominator. *)
Definition scaled (n d k : Z) : Z * Z :=
  if 0 <=? k then (n, d * 2 ^ k) else (n * 2 ^ (- k), d).

(** Round-to-nearest-even of the exact rational [n / d] to binary64,
    with gradual underflow and overflow to infinity. *)
Definition of_ratio (n d : Z) : float :=
  if n =? 0 then Finite 0 0
  else
    let lg := Z.log2 n - Z.log2 d in
    let '(n1, d1) := scaled n d lg in
    let ex := if n1 <? d1 then lg - 1 else lg in   (* floor (log2 (n/d)) *)
    let e := Z.max (ex - 52) (-1074) in
    let '(n2, d2) := scaled n d e in
    let m := round_half_even n2 d2 in
    if (971 <? e) || ((e =? 971) && (m =? 2 ^ 53)) then Inf else Finite m e.

(** [float(s)] for [s] made of decimal digits and dots, as every call site
    passes: at most one dot and at least one digit, anything else is a
    [ValueError].  The conversion is correctly rounded. *)
Definition of_str (s : str) : result float :=
  let ip := take_while is_digit s in
  let rest := drop_while is_digit s in
  let fp := match rest with
            | [] => Some []
            | c :: r => if (c =? 46) && forallb is_digit r then Some r else None
            end in
  match fp with
  | None => Raise ValueError
  | Some fp =>
      if is_empty ip && is_empty fp then Raise ValueError
      else Ok (of_ratio (int_of_digits (ip ++ fp))
                        (10 ^ Z.of_nat (List.length fp)))
  end.

(** [x * k] for a positive integer constant [k] that is exact in binary64. *)
Definition mul_int (x : float) (k : Z) : float :=
  match x with
  | Inf => Inf
  | Finite m e =>
      if 0 <=? e then of_ratio (m * k * 2 ^ e) 1
      else of_ratio (m * k) (2 ^ (- e))
  end.

(** [int(x)]: truncation; infinity raises [OverflowError]. *)
Definition to_int (x : float) : result Z :=
  match x with
  | Inf => Raise OverflowError
  | Finite m e => Ok (if 0 <=? e then m * 2 ^ e else m / 2 ^ (- e))
  end.

(** [round(x)]: nearest integer, ties to even. *)
Definition round (x : float) : result Z :=
  match x with
  | Inf => Raise OverflowError
  | Finite m e =>
      Ok (if 0 <=? e then m * 2 ^ e else round_half_even m (2 ^ (- e)))
  end.

End PyFloat.

(* ===================================================================== *)
(** ** Text normalisers *)
(* ===================================================================== *)

(** [re.search] for a pattern that is one character class repeated
    ([cls+]): the first maximal run of characters of the class. *)
Definition search_class (cls : Z -> bool) (t : str) : option str :=
  match take_while cls (drop_while (fun c => negb (cls c)) t) with
  | [] => None
  | m => Some m
  end.

Definition normalize_spaces (s : str) : str :=
  strip (collapse_spaces false s).

Definition normalize_station_en (name_en : str) : str :=
  let base := title (normalize_spaces name_en) in
  let base := replace (py " Station") [] base in
  replace (py " ") (py "-") base.

Definition parse_price (text : str) : result str :=
  if is_empty text then Ok (py "0")
  else
    let t := replace (py ",") [] text in
    if contains (py "万") t then
      match search_class (fun c => is_digit c || (c =? 46)) t with
      | None => Ok (py "0")
      | Some m =>
          rbind (PyFloat.of_str m) (fun f =>
          rbind (PyFloat.to_int (PyFloat.mul_int f 10000)) (fun value =>
          Ok (format_commas value)))
      end
    else
      match search_class is_digit t with
      | Some m => rbind (int_of_str m) (fun value => Ok (format_commas value))
      | None => Ok (py "0")
      end.

(** The pattern [(?:歩|徒歩)\s*(\d+)\s*分] tried at the start of [s]: the
    digits of the group and the text after the match.  The three classes
    are disjoint, so the greedy match is the only one. *)
Definition match_walk_at (s : str) : option (str * str) :=
  let after_walk :=
    if starts_with (py "歩") s then Some (skipn 1 s)
    else if starts_with (py "徒歩") s then Some (skipn 2 s)
    else None in
  match after_walk with
  | None => None
  | Some r =>
      let r1 := drop_while is_space r in
      let ds := take_while is_digit r1 in
      match ds, drop_while is_space (drop_while is_digit r1) with
      | _ :: _, c :: r3 =>
          if starts_with (py "分") [c] then Some (ds, r3) else None
      | _, _ => None
      end
  end.

(** [re.search] of the same pattern: the leftmost match. *)
Fixpoint search_walk (s : str) : option str :=
  match match_walk_at s with
  | Some (ds, _) => Some ds
  | None =>
      match s with
      | [] => None
      | _ :: t => search_walk t
      end
  end.

Definition parse_minutes (fragment : str) : result (option Z) :=
  match search_walk fragment with
  | Some ds => rbind (int_of_str ds) (fun n => Ok (Some n))
  | None => Ok None
  end.

Definition price_range_label (rent_int : Z) : str :=
  if rent_int <=? 0 then py "¥100~199K"
  else
    let k := rent_int / 1000 in
    if k <? 200 then py "¥100~199K"
    else if (200 <=? k) && (k <=? 299) then py "¥200~299K"
    else if (300 <=? k) && (k <=? 399) then py "¥300~399K"
    else if (400 <=? k) && (k <=? 499) then py "¥400~499K"
    else if (500 <=? k) && (k <=? 599) then py "¥500~599K"
    else if (600 <=? k) && (k <=? 699) then py "¥600~699K"
    else if (700 <=? k) && (k <=? 799) then py "¥700~799K"
    else if (800 <=? k) && (k <=? 899) then py "¥800~899K"
    else if (900 <=? k) && (k <=? 999) then py "¥900~999K"
    else py "¥1M~".

Definition map_property_category_jp_to_en (jp : str) : option str :=
  let key := strip jp in
  if str_eqb key (py "マンション") then Some (py "Apartment")
  else if str_eqb key (py "一戸建て") then Some (py "Detached house")
  else None.

Definition map_property_kind_from_url (url : str) : option str :=
  if contains (py "chintai") url then Some (py "For Rent")
  else if contains (py "/ms/chuko/") url || contains (py "/ms/shinchiku/") url
       then Some (py "For Buy")
  else None.

(* ===================================================================== *)
(** ** The outside world: translation service and record store *)
(* ===================================================================== *)

(** Record identifiers are opaque tokens handed out by the store (the
    non-empty strings [rec...] of Airtable), so an identifier is always
    truthy and [if rec_id] only tests for [None]. *)
Definition rec_id := positive.

Record record : Type := { id : rec_id; Name : str }.

(** The base: the rows of every table, looked up by table identifier, and
    the next identifier the store will hand out. *)
Record store : Type := { rows : str -> list record; next_id : rec_id }.

Definition empty_store : store := {| rows := fun _ => []; next_id := 1%positive |}.

(** [tbl.all(formula="{Name}='...'")]: the rows whose Name equals [name],
    in table order. *)
Definition table_all_by_name (st : store) (table_id name : str) : list record :=
  filter (fun r => str_eqb (Name r) name) (rows st table_id).

(** [tbl.create({"Name": name})]: a new row at the end of the table. *)
Definition table_create (st : store) (table_id name : str) : rec_id * store :=
  (next_id st,
   {| rows := fun t => if str_eqb t table_id
                       then rows st t ++ [{| id := next_id st; Name := name |}]
                       else rows st t;
      next_id := Pos.succ (next_id st) |}).

(** The table identifiers read from the environment at import time. *)
Record config : Type := {
  STATIONS_TABLE_ID : str;
  LAYOUTS_TABLE_ID : str;
  PROP_TYPES_TABLE_ID : str;
  AREAS_TABLE_ID : str;
  PRICE_RANGE_TABLE_ID : str;
  PROPERTY_KIND_TABLE_ID : str
}.

Definition STATION_ALIASES : list (str * str) :=
  [ (py "駒沢大学", py "Komazawa-Daigaku");
    (py "南新宿", py "Minami-Shinjuku");
    (py "代々木", py "Yoyogi") ].

Definition AREA_ALIASES : list (str * str) :=
  [ (py "世田谷", py "Setagaya"); (py "渋谷", py "Shibuya");
    (py "港", py "Minato"); (py "新宿", py "Shinjuku");
    (py "目黒", py "Meguro"); (py "品川", py "Shinagawa");
    (py "中野", py "Nakano"); (py "杉並", py "Suginami");
    (py "大田", py "Ota"); (py "中央", py "Chuo");
    (py "千代田", py "Chiyoda"); (py "文京", py "Bunkyo");
    (py "台東", py "Taito"); (py "豊島", py "Toshima");
    (py "北", py "Kita"); (py "荒川", py "Arakawa");
    (py "板橋", py "Itabashi"); (py "練馬", py "Nerima");
    (py "足立", py "Adachi"); (py "葛飾", py "Katsushika");
    (py "江戸川", py "Edogawa") ].

(** [d.get(key)] on a dictionary literal. *)
Fixpoint dict_get {V : Type} (d : list (str * V)) (key : str) : option V :=
  match d with
  | [] => None
  | (k, v) :: rest => if str_eqb k key then Some v else dict_get rest key
  end.

(* ===================================================================== *)
(** ** The parsed page *)
(* ===================================================================== *)

(** A tag is seen through its text nodes, in document order. *)
Definition element := list str.

(** [tag.get_text()] *)
Definition get_text (e : element) : str := List.concat e.

(** [tag.get_text(strip=True)]: every text node stripped, the empty ones
    dropped. *)
Definition get_text_strip (e : element) : str :=
  List.concat (filter (fun s => negb (is_empty s)) (map strip e)).

(** The attributes [data-src] and [src] of an [img] tag. *)
Record img : Type := { data_src : option str; src : option str }.

(** What the selectors of the extractors find in the page.  A header cell
    found by [soup.find("th", string=...)] comes with the result of
    [find_next("td")] on it. *)
Record page : Type := {
  (* soup.select_one("h1.section_h1-header-title") *)
  h1_title : option element;
  (* soup.select_one("span.property_view_note-emphasis") *)
  rent_emphasis : option element;
  (* soup.select("div.property_view_note-info > div.property_view_note-list > span") *)
  note_info_spans : list element;
  (* soup.select("div.property_view_note-list span") *)
  note_list_spans : list element;
  (* th containing 間取り, and the td after it *)
  th_layout : option (option element);
  (* th containing 専有面積, and the td after it *)
  th_size : option (option element);
  (* th containing 建物種別, and the td after it *)
  th_category : option (option element);
  (* soup.select("table.property_view_table tr"): tr.find("th"), tr.find("td") *)
  view_table_rows : list (option element * option element);
  (* th containing 駅徒歩, the td after it, td.select("div.property_view_table-read") *)
  th_station : option (option (list element));
  (* soup.select("ul#js-view_gallery-list img") *)
  gallery_imgs : list img
}.


(** The values of the outbound record; an image is the dictionary
    [{"url": src}], kept as its URL. *)
Inductive value : Type :=
| VStr (s : str)
| VNone
| VInt (n : Z)
| VRefs (ids : list rec_id)
| VImages (urls : list str).

Definition payload := list (str * value).

Section Scraper.

(** The translation service: one call either returns the translated text
    or raises an [Exception], and may change the service's own state. *)
Variable tstate : Type.
Variable translate : tstate -> str -> option str * tstate.

Variable env : config.

Record world : Type := { service : tstate; base : store }.

(** A computation reads and updates the world and returns or raises; what
    it did to the world stays done when it raises. *)
Definition M (A : Type) : Type := world -> result A * world.

Definition ret {A : Type} (a : A) : M A := fun w => (Ok a, w).

Definition raise {A : Type} (e : exn) : M A := fun w => (Raise e, w).

Definition bind {A B : Type} (c : M A) (k : A -> M B) : M B :=
  fun w =>
    match c w with
    | (Ok a, w') => k a w'
    | (Raise e, w') => (Raise e, w')
    end.

Definition lift {A : Type} (r : result A) : M A := fun w => (r, w).

Notation "x <- c ;; k" := (bind c (fun x => k))
  (at level 61, c at next level, right associativity).
Notation "' pat <- c ;; k" := (bind c (fun x => match x with pat => k end))
  (at level 61, pat pattern, c at next level, right associativity).

(* --------------------------------------------------------------------- *)
(** *** Helpers *)
(* --------------------------------------------------------------------- *)

Definition safe_translate (text : str) : M str :=
  fun w =>
    if is_empty text then (Ok text, w)
    else
      match translate (service w) text with
      | (Some translated, s') => (Ok translated, {| service := s'; base := base w |})
      | (None, s') => (Ok text, {| service := s'; base := base w |})
      end.

Definition airtable_find_by_name (table_id name : str) : M (option rec_id) :=
  fun w =>
    if is_empty name then (Ok None, w)
    else
      match table_all_by_name (base w) table_id name with
      | r :: _ => (Ok (Some (id r)), w)
      | [] => (Ok None, w)
      end.

Definition airtable_create (table_id name : str) : M rec_id :=
  fun w =>
    let '(i, st') := table_create (base w) table_id name in
    (Ok i, {| service := service w; base := st' |}).

Definition airtable_get_or_create_by_name (table_id name : str) : M rec_id :=
  found <- airtable_find_by_name table_id name ;;
  match found with
  | Some i => ret i
  | None => airtable_create table_id name
  end.

(* --------------------------------------------------------------------- *)
(** *** Airtable-specific lookups *)
(* --------------------------------------------------------------------- *)

Definition get_layout_record_id (layout_name_jp : str) : M (option rec_id) :=
  if is_empty layout_name_jp then ret None
  else
    let name := if str_eqb (strip layout_name_jp) (py "ワンルーム")
                then py "Studio" else strip layout_name_jp in
    airtable_find_by_name (LAYOUTS_TABLE_ID env) name.

Definition get_or_create_station_id (station_ja_or_en : str) : M (option rec_id) :=
  if is_empty station_ja_or_en then ret None
  else
    norm <- match dict_get STATION_ALIASES station_ja_or_en with
            | Some alias => ret alias
            | None =>
                en <- safe_translate station_ja_or_en ;;
                ret (normalize_station_en en)
            end ;;
    rec <- airtable_find_by_name (STATIONS_TABLE_ID env) norm ;;
    match rec with
    | Some i => ret (Some i)
    | None =>
        let alt := replace (py "-") (py " ") norm in
        rec_alt <- airtable_find_by_name (STATIONS_TABLE_ID env) alt ;;
        match rec_alt with
        | Some i => ret (Some i)
        | None =>
            i <- airtable_get_or_create_by_name (STATIONS_TABLE_ID env) norm ;;
            ret (Some i)
        end
    end.

Definition get_or_create_area_id (ward_jp : str) : M (option rec_id) :=
  if is_empty ward_jp then ret None
  else
    en <- match dict_get AREA_ALIASES ward_jp with
          | Some alias => ret alias
          | None =>
              t <- safe_translate ward_jp ;;
              ret (title t)
          end ;;
    i <- airtable_get_or_create_by_name (AREAS_TABLE_ID env) en ;;
    ret (Some i).

Definition get_property_category_id (type_en : str) : M (option rec_id) :=
  if is_empty type_en then ret None
  else airtable_find_by_name (PROP_TYPES_TABLE_ID env) type_en.

Definition get_property_kind_id (kind_en : str) : M (option rec_id) :=
  if is_empty kind_en then ret None
  else airtable_find_by_name (PROPERTY_KIND_TABLE_ID env) kind_en.

Definition get_price_range_id (label : str) : M (option rec_id) :=
  if is_empty label then ret None
  else airtable_find_by_name (PRICE_RANGE_TABLE_ID env) label.

(* --------------------------------------------------------------------- *)
(** *** SUUMO parsing helpers *)
(* --------------------------------------------------------------------- *)

Definition extract_name (soup : page) : M str :=
  let ja := match h1_title soup with
            | Some tag => get_text_strip tag
            | None => []
            end in
  if is_empty ja then ret (py "N/A") else safe_translate ja.

(** The loop over the fee spans: the first span that mentions 管理費 or
    共益費 decides, and ends the loop. *)
Fixpoint find_mgmt (spans : list element) : result str :=
  match spans with
  | [] => Ok (py "0")
  | sp :: rest =>
      if contains (py "管理費") (get_text sp) || contains (py "共益費") (get_text sp)
      then parse_price (get_text_strip sp)
      else find_mgmt rest
  end.

Definition extract_rent_and_fee (soup : page) : result (str * str) :=
  rbind (match rent_emphasis soup with
         | Some rent_tag => parse_price (get_text_strip rent_tag)
         | None => Ok (py "0")
         end) (fun rent =>
  rbind (find_mgmt (note_info_spans soup)) (fun mgmt =>
  Ok (rent, mgmt))).

Definition extract_layout_and_size (soup : page) : result (str * str) :=
  let layout := match th_layout soup with
                | Some (Some td) => get_text_strip td
                | _ => py "N/A"
                end in
  rbind (match th_size soup with
         | Some (Some td) =>
             let raw := get_text_strip td in
             (* num: raw with every character other than a digit or a dot removed *)
             let num := filter (fun c => is_digit c || (c =? 46)) raw in
             if is_empty num then Ok (py "N/A")
             else rbind (PyFloat.of_str num) (fun f =>
                  rbind (PyFloat.round f) (fun n => Ok (str_of_int n)))
         | _ => Ok (py "N/A")
         end) (fun size =>
  Ok (layout, size)).

Definition extract_property_category_jp (soup : page) : option str :=
  match th_category soup with
  | None => None
  | Some None => None
  | Some (Some td) => Some (get_text_strip td)
  end.

Fixpoint find_address (trs : list (option element * option element))
  : result (option str) :=
  match trs with
  | [] => Ok None
  | (th, td) :: rest =>
      match th with
      | Some h =>
          if contains (py "所在地") (get_text_strip h)
          then match td with
               | Some d => Ok (Some (get_text_strip d))
               | None => Raise AttributeError
               end
          else find_address rest
      | None => find_address rest
      end
  end.

Definition extract_address_jp (soup : page) : result (option str) :=
  find_address (view_table_rows soup).

(** [re.match] of the ward pattern on [t]: a lazy group [ward] of one or
    more characters, then 区, then a greedy group [rest].  A dot matches
    every character but the newline, so [ward] is the shortest non-empty,
    newline-free prefix that is followed by 区, and [rest] runs to the end
    of the line.  [ward_scan t] looks for 区 from the second character on
    and returns the characters before it. *)
Fixpoint ward_scan (t : str) : option (str * str) :=
  match t with
  | [] => None
  | c :: r =>
      if starts_with (py "区") t
      then Some ([], take_while (fun x => negb (x =? 10)) r)
      else if c =? 10 then None
      else match ward_scan r with
           | Some (w, rest) => Some (c :: w, rest)
           | None => None
           end
  end.

Definition match_ward (t : str) : option (str * str) :=
  match t with
  | [] => None
  | c :: r =>
      if c =? 10 then None
      else match ward_scan r with
           | Some (w, rest) => Some (c :: w, rest)
           | None => None
           end
  end.

Definition split_address_to_area_and_street (address_jp : str)
  : M (option str * option str) :=
  if is_empty address_jp then ret (None, None)
  else
    let t := replace_first (py "東京都") [] address_jp in
    match match_ward t with
    | None => ret (None, Some address_jp)
    | Some (w, r) =>
        let ward := strip w in
        let rest := strip r in
        street_en <- safe_translate rest ;;
        ret (Some ward, Some (normalize_spaces street_en))
    end.

(** [re.sub] of the walk pattern followed by [.*] with the empty string: every match is removed
    together with the rest of its line.  [skip] counts the characters of
    the current match still to be dropped. *)
Fixpoint sub_walk (skip : nat) (s : str) : str :=
  match s with
  | [] => []
  | c :: t =>
      match skip with
      | S k => sub_walk k t
      | O =>
          match match_walk_at s with
          | Some (_, r) =>
              let kept := drop_while (fun x => negb (x =? 10)) r in
              sub_walk (Nat.pred (List.length s - List.length kept)) t
          | None => c :: sub_walk O t
          end
      end
  end.

(** The loop over the access lines; [items] is the list built so far. *)
Fixpoint stations_loop (divs : list element) (items : list (str * option Z))
  : M (list (str * option Z)) :=
  match divs with
  | [] => ret items
  | div :: rest =>
      let raw := get_text_strip div in
      if is_empty raw then stations_loop rest items
      else
        let st_part := if contains (py "/") raw then after_last 47 raw else raw in
        let st_part := normalize_spaces st_part in
        minutes <- lift (parse_minutes st_part) ;;
        let st_clean := sub_walk O st_part in
        let st_clean := strip (replace (py "駅") [] st_clean) in
        if is_empty st_clean then stations_loop rest items
        else
          station_en <- match dict_get STATION_ALIASES st_clean with
                        | Some alias => ret alias
                        | None =>
                            en <- safe_translate st_clean ;;
                            ret (normalize_station_en en)
                        end ;;
          let items := items ++ [(station_en, minutes)] in
          if (2 <=? List.length items)%nat then ret items
          else stations_loop rest items
  end.

Definition extract_stations_and_minutes (soup : page)
  : M (list (str * option Z)) :=
  match th_station soup with
  | None => ret []
  | Some None => ret []
  | Some (Some divs) => stations_loop divs []
  end.

(** [img.get("data-src") or img.get("src")], kept when it is a non-empty
    string that starts with [http]. *)
Definition img_url (i : img) : option str :=
  let s := match data_src i with
           | Some d => if is_empty d then src i else Some d
           | None => src i
           end in
  match s with
  | Some u => if negb (is_empty u) && starts_with (py "http") u then Some u else None
  | None => None
  end.

Definition extract_images (soup : page) : option str * option str * list str :=
  let imgs := flat_map (fun i => match img_url i with
                                 | Some u => [u]
                                 | None => []
                                 end) (gallery_imgs soup) in
  (nth_error imgs 0, nth_error imgs 1, skipn 2 imgs).

(* --------------------------------------------------------------------- *)
(** *** Public API *)
(* --------------------------------------------------------------------- *)

(** The loop over the note spans: a later span overrides an earlier one. *)
Fixpoint deposit_loop (spans : list element) (deposit key_money : str)
  : result (str * str) :=
  match spans with
  | [] => Ok (deposit, key_money)
  | sp :: rest =>
      let t := get_text_strip sp in
      if contains (py "敷金") t
      then rbind (parse_price t) (fun d => deposit_loop rest d key_money)
      else if contains (py "礼金") t
      then rbind (parse_price t) (fun k => deposit_loop rest deposit k)
      else deposit_loop rest deposit key_money
  end.

(** The loop over the extracted stations. *)
Fixpoint resolve_stations (stations : list (str * option Z))
    (station_ids : list (option rec_id)) (minutes_list : list (option Z))
  : M (list (option rec_id) * list (option Z)) :=
  match stations with
  | [] => ret (station_ids, minutes_list)
  | (st_en, mins) :: rest =>
      st_id <- airtable_get_or_create_by_name (STATIONS_TABLE_ID env) st_en ;;
      resolve_stations rest (station_ids ++ [Some st_id]) (minutes_list ++ [mins])
  end.

(** [while len(l) < 2: l.append(None)]; two rounds are enough for every
    list. *)
Fixpoint pad_while {A : Type} (fuel : nat) (l : list (option A)) : list (option A) :=
  match fuel with
  | O => l
  | S f => if (List.length l <? 2)%nat then pad_while f (l ++ [None]) else l
  end.

Definition pad_to_two {A : Type} (l : list (option A)) : list (option A) :=
  pad_while 2 l.

(** [l[i]] *)
Definition index {A : Type} (l : list A) (i : nat) : result A :=
  match nth_error l i with
  | Some x => Ok x
  | None => Raise IndexError
  end.

(** [int(s)] inside [try], with 0 when it raises; [s] is a run of digits
    with an optional sign. *)
Definition int_or_zero (s : str) : Z :=
  match s with
  | [] => 0
  | c :: t =>
      if (c =? 45) && negb (is_empty t) && forallb is_digit t
      then match int_of_str t with Ok n => - n | Raise _ => 0 end
      else if forallb is_digit s
      then match int_of_str s with Ok n => n | Raise _ => 0 end
      else 0
  end.

(** The local variables of [get_suumo_data] that the payload is built from. *)
Record locals : Type := {
  name : str;
  rent : str;
  mgmt : str;
  layout_id : option rec_id;
  size : str;
  area_id : option rec_id;
  street_en : option str;
  deposit : str;
  key_money : str;
  cover_img : option str;
  plan_img : option str;
  gallery : list str;
  station_ids : list (option rec_id);
  minutes_list : list (option Z);
  prop_cat_id : option rec_id;
  kind_id : option rec_id;
  pr_id : option rec_id
}.

(** [[x] if x else []] for a record identifier. *)
Definition link (x : option rec_id) : value :=
  match x with
  | Some i => VRefs [i]
  | None => VRefs []
  end.

Definition image_link (x : option str) : value :=
  match x with
  | Some u => VImages [u]
  | None => VImages []
  end.

Definition minutes_value (m : option Z) : value :=
  match m with
  | Some n => VInt n
  | None => VNone
  end.

(** The dictionary literal at the end of [get_suumo_data]. *)
Definition build_payload (l : locals) : result payload :=
  rbind (index (station_ids l) 0) (fun station0 =>
  rbind (index (minutes_list l) 0) (fun minutes0 =>
  rbind (index (station_ids l) 1) (fun station1 =>
  rbind (index (minutes_list l) 1) (fun minutes1 =>
  Ok [ (py "Name", VStr (name l));
       (py "Property Price", VStr (rent l));
       (py "Property Management Fee", VStr (mgmt l));
       (py "Property Layout", link (layout_id l));
       (py "Property Size", VStr (size l));
       (py "Property Locations", link (area_id l));
       (py "Location", VStr (match street_en l with Some s => s | None => [] end));
       (py "Property Deposit", VStr (deposit l));
       (py "Property Key Money", VStr (key_money l));
       (py "Property Cover Image", image_link (cover_img l));
       (py "Property Plan Image", image_link (plan_img l));
       (py "Property Images", VImages (gallery l));
       (py "Access One: Train Station", link station0);
       (py "Access One: Minutes to Walk", minutes_value minutes0);
       (py "Access Two: Train Station", link station1);
       (py "Access Two: Minutes to Walk", minutes_value minutes1);
       (py "Property Categories", link (prop_cat_id l));
       (py "Property Type", link (kind_id l));
       (py "Property Price Range", link (pr_id l)) ])))).

(** Everything [get_suumo_data] does with the parsed page before the
    payload is built. *)
Definition gather (url : str) (soup : page) : M locals :=
  name <- extract_name soup ;;
  ' (rent, mgmt) <- lift (extract_rent_and_fee soup) ;;
  ' (layout_jp, size) <- lift (extract_layout_and_size soup) ;;
  layout_id <- get_layout_record_id layout_jp ;;
  address_jp <- lift (extract_address_jp soup) ;;
  ' (ward_jp, street_en) <-
      split_address_to_area_and_street
        (match address_jp with Some a => a | None => [] end) ;;
  area_id <- match ward_jp with
             | Some w => if is_empty w then ret None else get_or_create_area_id w
             | None => ret None
             end ;;
  ' (deposit, key_money) <-
      lift (deposit_loop (note_list_spans soup) (py "0") (py "0")) ;;
  let '(cover_img, plan_img, gallery_imgs) := extract_images soup in
  stations <- extract_stations_and_minutes soup ;;
  ' (station_ids, minutes_list) <- resolve_stations stations [] [] ;;
  let station_ids := pad_to_two station_ids in
  let minutes_list := pad_to_two minutes_list in
  let jp_kind := extract_property_category_jp soup in
  let en_cat := match jp_kind with
                | Some k => if is_empty k then None
                            else map_property_category_jp_to_en k
                | None => None
                end in
  prop_cat_id <- match en_cat with
                 | Some c => if is_empty c then ret None
                             else get_property_category_id c
                 | None => ret None
                 end ;;
  let kind := map_property_kind_from_url url in
  kind_id <- match kind with
             | Some k => if is_empty k then ret None else get_property_kind_id k
             | None => ret None
             end ;;
  let rent_int := int_or_zero (replace (py ",") [] rent) in
  let pr_label := price_range_label rent_int in
  pr_id <- get_price_range_id pr_label ;;
  ret {| name := name; rent := rent; mgmt := mgmt; layout_id := layout_id;
         size := size; area_id := area_id; street_en := street_en;
         deposit := deposit; key_money := key_money;
         cover_img := cover_img; plan_img := plan_img;
         gallery := gallery_imgs;
         station_ids := station_ids; minutes_list := minutes_list;
         prop_cat_id := prop_cat_id; kind_id := kind_id; pr_id := pr_id |}.

(** [get_suumo_data(url)], given the page that the fetch returned. *)
Definition get_suumo_data (url : str) (soup : page) : M payload :=
  l <- gather url soup ;;
  lift (build_payload l).

End Scraper.

Arguments service {tstate} w.
Arguments base {tstate} w.
Arguments ret {tstate A} a w.
Arguments raise {tstate A} e w.
Arguments bind {tstate A B} c k w.
Arguments lift {tstate A} r w.
Arguments safe_translate {tstate} translate text w.
Arguments airtable_find_by_name {tstate} table_id name w.
Arguments airtable_create {tstate} table_id name w.
Arguments airtable_get_or_create_by_name {tstate} table_id name w.
Arguments get_layout_record_id {tstate} env layout_name_jp w.
Arguments get_or_create_station_id {tstate} translate env station_ja_or_en w.
Arguments get_or_create_area_id {tstate} translate env ward_jp w.
Arguments get_property_category_id {tstate} env type_en w.
Arguments get_property_kind_id {tstate} env kind_en w.
Arguments get_price_range_id {tstate} env label w.
Arguments extract_name {tstate} translate soup w.
Arguments split_address_to_area_and_street {tstate} translate address_jp w.
Arguments stations_loop {tstate} translate divs items w.
Arguments extract_stations_and_minutes {tstate} translate soup w.
Arguments resolve_stations {tstate} env stations station_ids minutes_list w.
Arguments gather {tstate} translate env url soup w.
Arguments get_suumo_data {tstate} translate env url soup w.

(* ===================================================================== *)
(** ** Concrete surroundings for the examples *)
(* ===================================================================== *)

Definition example_env : config :=
  {| STATIONS_TABLE_ID := py "tblStations";
     LAYOUTS_TABLE_ID := py "tblLayouts";
     PROP_TYPES_TABLE_ID := py "tblCategories";
     AREAS_TABLE_ID := py "tblAreas";
     PRICE_RANGE_TABLE_ID := py "tblPriceRanges";
     PROPERTY_KIND_TABLE_ID := py "tblKinds" |}.

(** A translation service that is down: every call raises. *)
Definition offline (s : unit) (text : str) : option str * unit := (None, tt).

Definition fresh_world : world unit := {| service := tt; base := empty_store |}.

(** A base whose Train Stations table already holds the station under its
    space-separated name. *)
Definition spaced_station_store : store :=
  {| rows := fun t => if str_eqb t (py "tblStations")
                      then [ {| id := 1%positive; Name := py "Minami Shinjuku" |} ]
                      else [];
     next_id := 2%positive |}.

Definition spaced_station_world : world unit :=
  {| service := tt; base := spaced_station_store |}.

(** A listing page with one access line, for 南新宿 station. *)
Definition one_station_page : page :=
  {| h1_title := None; rent_emphasis := Some [py "16.4万円"];
     note_info_spans := []; note_list_spans := [];
     th_layout := None; th_size := None; th_category := None;
     view_table_rows := [];
     th_station := Some (Some [[py "小田急線/南新宿駅 歩5分"]]);
     gallery_imgs := [] |}.

(** A listing page with every field present. *)
Definition full_page : page :=
  {| h1_title := Some [py " メゾン玉堤 "];
     rent_emphasis := Some [py "16.4万円"];
     note_info_spans := [[py "管理費 5,000円"]];
     note_list_spans := [[py "敷金 16.4万円"]; [py "礼金 -"]];
     th_layout := Some (Some [py "1LDK"]);
     th_size := Some (Some [py "25.5m"]);
     th_category := Some (Some [py "マンション"]);
     view_table_rows := [(Some [py "所在地"], Some [py "東京都世田谷区玉堤２"])];
     th_station :=
       Some (Some [[py "小田急線/南新宿駅 歩5分"]; [py "JR山手線/代々木駅 歩7分"]]);
     gallery_imgs := [ {| data_src := Some (py "http://img/1"); src := None |} ] |}.

Definition example_url : str := py "https://suumo.jp/chintai/jnc_000000000/".


(** The ten price-range labels, lowest band first. *)
Definition price_labels : list str :=
  [ py "¥100~199K"; py "¥200~299K"; py "¥300~399K"; py "¥400~499K";
    py "¥500~599K"; py "¥600~699K"; py "¥700~799K"; py "¥800~899K";
    py "¥900~999K"; py "¥1M~" ].

(** The band of a monthly amount as the specification words it: the
    amount in thousands, in hundreds, kept between the band below 200 and
    the band from 1000 on; an amount that is not positive falls in the
    lowest band. *)
Definition price_band (rent_int : Z) : nat :=
  if rent_int <=? 0 then 0%nat
  else Z.to_nat (Z.min 10 (Z.max 1 (rent_int / 1000 / 100)) - 1).

(** A character other than the newline, the ones a dot of a pattern
    matches. *)
Definition not_newline (c : Z) : bool := negb (c =? 10).

(** The convention of a link field: a list with the resolved identifier
    alone, or the empty list when there is none; never [None]. *)
Definition single_or_empty (resolved : option rec_id) (v : value) : Prop :=
  match resolved with
  | Some i => v = VRefs [i]
  | None => v = VRefs []
  end.

Definition has_link (d : payload) (key : str) (resolved : option rec_id) : Prop :=
  exists v, dict_get d key = Some v /\ single_or_empty resolved v.

(** [x or ""] for an optional string. *)
Definition or_empty (x : option str) : str :=
  match x with Some s => s | None => [] end.

(** The category that the page gives, in English, when it gives a known
    one. *)
Definition category_of_page (soup : page) : option str :=
  match extract_property_category_jp soup with
  | Some jp => map_property_category_jp_to_en jp
  | None => None
  end.

(** The stations of a page resolved one after the other: each name goes
    through [airtable_get_or_create_by_name] on the Train Stations table,
    in the world that the resolution before it left; [ids] are the
    identifiers that come back, in order, and [w'] is the world after the
    last one. *)
Fixpoint resolved_in_turn {tstate : Type} (env : config) (names : list str)
    (w : world tstate) (ids : list rec_id) (w' : world tstate) : Prop :=
  match names, ids with
  | [], [] => w' = w
  | nm :: names', i :: ids' =>
      exists w1,
        airtable_get_or_create_by_name (STATIONS_TABLE_ID env) nm w = (Ok i, w1) /\
        resolved_in_turn env names' w1 ids' w'
  | _, _ => False
  end.

(** The walking minutes of the station in slot [k], [None] when the page
    gave fewer stations or no minutes for it. *)
Definition minutes_of_slot (stations : list (str * option Z)) (k : nat) : option Z :=
  match nth_error stations k with
  | Some (_, m) => m
  | None => None
  end.

(* --------------------------------------------------------------------- *)
(** *** Notions used by the further properties *)
(* --------------------------------------------------------------------- *)

(** One of the ten ASCII digits. *)
Definition ascii_digit (c : Z) : bool := (48 <=? c) && (c <=? 57).

(** One step of [int_of_digits]. *)
Definition int_step (acc c : Z) : Z :=
  match digit_value c with Some d => 10 * acc + d | None => acc end.

(** The decimal digits of [n], as [str(n)] and [format_commas] print them. *)
Definition digits (n : Z) : str := digits_from (S (Z.to_nat (Z.log2 n))) n [].

(** The integers below [int_cap] are those written with no more digits
    than [int] accepts. *)
Definition int_cap : Z := 10 ^ Z.of_nat int_max_str_digits.

(** A price written with one digit more than [int] accepts. *)
Definition long_digit_run : str := repeat 49 (S int_max_str_digits) ++ py "円".

(** A text that holds more digits than [int] accepts. *)
Definition many_digits (s : str) : Prop :=
  (int_max_str_digits < List.length (filter is_digit s))%nat.

(** Any character but the comma. *)
Definition no_comma (x : Z) : bool := negb (44 =? x).

(** A float that is not negative. *)
Definition fnonneg (x : PyFloat.float) : Prop :=
  match x with PyFloat.Finite m _ => 0 <= m | PyFloat.Inf => True end.

(** Whitespace in normal form: every whitespace character is a space, and
    no whitespace character follows another ([in_run] tells that the
    previous character was one). *)
Fixpoint tidy (in_run : bool) (s : str) : bool :=
  match s with
  | [] => true
  | c :: t =>
      if is_space c then (c =? 32) && negb in_run && tidy true t
      else tidy false t
  end.

(** Every row of [st] is still in [st'], at its place; tables may have
    grown at the end. *)
Definition store_extends (st st' : store) : Prop :=
  forall t, exists added, rows st' t = rows st t ++ added.

(** The tables that are not listed are the same in [st] and [st']. *)
Definition untouched_outside (tables : list str) (st st' : store) : Prop :=
  forall t, ~ In t tables -> rows st' t = rows st t.

(** What a computation may do to the store: keep every row, and add rows
    to the listed tables only. *)
Definition run_frame {tstate : Type} (tables : list str) (w w' : world tstate) : Prop :=
  store_extends (base w) (base w') /\ untouched_outside tables (base w) (base w').

(** The computation [c] respects that frame from every world, whether it
    returns or raises. *)
Definition frames {tstate A : Type} (tables : list str) (c : M tstate A) : Prop :=
  forall w r w', c w = (r, w') -> run_frame tables w w'.

(** A name without whitespace. *)
Definition spaceless (s : str) : Prop := forall c, In c s -> is_space c = false.

(** The URLs of the gallery that [extract_images] keeps, in page order. *)
Definition accepted_urls (soup : page) : list str :=
  flat_map (fun i => match img_url i with Some u => [u] | None => [] end)
           (gallery_imgs soup).

(** An optional value as a list of at most one element. *)
Definition opt_list {A : Type} (x : option A) : list A :=
  match x with Some a => [a] | None => [] end.

(** A row of the property table whose header cell does not mention 所在地. *)
Definition unlabelled_row (row : option element * option element) : Prop :=
  match fst row with
  | Some h => contains (py "所在地") (get_text_strip h) = false
  | None => True
  end.

(** A fee span that mentions neither 管理費 nor 共益費. *)
Definition not_fee_span (sp : element) : Prop :=
  contains (py "管理費") (get_text sp) || contains (py "共益費") (get_text sp) = false.

(** A listing page whose building type is none of the known ones. *)
Definition unknown_category_page : page :=
  {| h1_title := None; rent_emphasis := Some [py "9.8万円"];
     note_info_spans := []; note_list_spans := [];
     th_layout := None; th_size := None;
     th_category := Some (Some [py "テラスハウス"]);
     view_table_rows := []; th_station := None; gallery_imgs := [] |}.

(** The float [x] is exactly the integer [k]. *)
Definition fvalue (x : PyFloat.float) (k : Z) : Prop :=
  match x with
  | PyFloat.Finite m e => if 0 <=? e then m * 2 ^ e = k else m = k * 2 ^ (- e)
  | PyFloat.Inf => False
  end.

(** The identifier, when there is one, is the identifier of a row of the
    table. *)
Definition linked (st : store) (table : str) (o : option rec_id) : Prop :=
  match o with
  | Some i => exists r, In r (rows st table) /\ id r = i
  | None => True
  end.

(** The field [key] of the payload is a link whose identifier, when there
    is one, is the identifier of a row of [table] in [st]. *)
Definition field_links_to (d : payload) (key : str) (st : store) (table : str) : Prop :=
  exists o, dict_get d key = Some (link o) /\ linked st table o.

(** The digits and dots of a text, what [extract_layout_and_size] keeps of
    the floor-size cell. *)
Definition digits_and_dots (raw : str) : str :=
  filter (fun c => is_digit c || (c =? 46)) raw.

(** A listing page whose floor size is a whole number with its unit. *)
Definition whole_size_page : page :=
  {| h1_title := None; rent_emphasis := None; note_info_spans := [];
     note_list_spans := []; th_layout := None;
     th_size := Some (Some [py "30m2"]); th_category := None;
     view_table_rows := []; th_station := None; gallery_imgs := [] |}.

(** A listing page that holds nothing but the rows of the property
    table. *)
Definition page_with_rows (rows : list (option element * option element)) : page :=
  {| h1_title := None; rent_emphasis := None; note_info_spans := [];
     note_list_spans := []; th_layout := None; th_size := None;
     th_category := None; view_table_rows := rows; th_station := None;
     gallery_imgs := [] |}.

(** Rows of the property table in front of the address: one about the
    age of the building, one without a header cell. *)
Definition rows_before_address : list (option element * option element) :=
  [ (Some [py "築年数"], Some [py "新築"]); (None, Some [py "所在地ではない"]) ].

(** A listing page that holds the rent and the spans of the fee list. *)
Definition page_with_fee_spans (spans : list element) : page :=
  {| h1_title := None; rent_emphasis := Some [py "16.4万円"];
     note_info_spans := spans; note_list_spans := []; th_layout := None;
     th_size := None; th_category := None; view_table_rows := [];
     th_station := None; gallery_imgs := [] |}.

(** A listing page that holds nothing but the lines of the access cell. *)
Definition page_with_access_lines (lines : list element) : page :=
  {| h1_title := None; rent_emphasis := None; note_info_spans := [];
     note_list_spans := []; th_layout := None; th_size := None;
     th_category := None; view_table_rows := [];
     th_station := Some (Some lines); gallery_imgs := [] |}.

(** A translation service that answers every call with the same text and
    counts the calls it gets. *)
Definition counting (calls : nat) (text : str) : option str * nat :=
  (Some (py "Tamazutsumi 2"), S calls).

Definition counting_world (calls : nat) : world nat :=
  {| service := calls; base := empty_store |}.

(** A character of a station name as the access line writes it: no
    whitespace, no slash, none of 歩, 徒 and 駅. *)
Definition plain_name_char (c : Z) : bool :=
  negb (is_space c) && negb (c =? 47) && negb (c =? 27497)
  && negb (c =? 24466) && negb (c =? 39365).

(* ===================================================================== *)
(** ** Properties of the text normalisers *)
(* ===================================================================== *)

Lemma str_eqb_refl (a : str) : str_eqb a a = true.
Proof.
  induction a as [|x a IH]; simpl; [reflexivity|].
  rewrite Z.eqb_refl. exact IH.
Qed.

Lemma str_eqb_eq (a b : str) : str_eqb a b = true <-> a = b.
Proof.
  split.
  - revert b. induction a as [|x a IH]; intros [|y b]; simpl; try discriminate.
    + reflexivity.
    + intros H. apply andb_prop in H. destruct H as [Hx Hr].
      apply Z.eqb_eq in Hx. apply IH in Hr. congruence.
  - intros ->. apply str_eqb_refl.
Qed.

(** The three price fragments quoted with the specification. *)
Example parse_price_man : parse_price (py "16.4万円") = Ok (py "164,000").
Proof. vm_compute. reflexivity. Qed.

Example parse_price_yen : parse_price (py "10000円") = Ok (py "10,000").
Proof. vm_compute. reflexivity. Qed.

Example parse_price_empty : parse_price (py "") = Ok (py "0").
Proof. vm_compute. reflexivity. Qed.

Example parse_price_commas : parse_price (py "1,234,567円") = Ok (py "1,234,567").
Proof. vm_compute. reflexivity. Qed.

(** C1: [parse_price] does not return the textual zero for every fragment
    without digits, and does not always give the amount times 10,000.  With
    the 万 marker the number is searched with the class of digits and dots,
    so a lone dot is taken for the number and [float] raises [ValueError];
    and the product is formed in binary floating point and truncated, so
    1.13万円 comes out as 11,299. *)
Theorem parse_price_dot_and_truncation :
  parse_price (py ".万") = Raise ValueError /\
  parse_price (py "1.2.3万円") = Raise ValueError /\
  parse_price (py "1.13万円") = Ok (py "11,299").
Proof. vm_compute. repeat split; reflexivity. Qed.

Example parse_minutes_walk : parse_minutes (py "徒歩12分") = Ok (Some 12).
Proof. vm_compute. reflexivity. Qed.

Example parse_minutes_none : parse_minutes (py "no distance info") = Ok None.
Proof. vm_compute. reflexivity. Qed.

Lemma price_labels_attained :
  Forall (fun l => exists n, price_range_label n = l) price_labels.
Proof.
  unfold price_labels.
  repeat apply Forall_cons; try apply Forall_nil.
  - exists 150000. vm_compute. reflexivity.
  - exists 250000. vm_compute. reflexivity.
  - exists 350000. vm_compute. reflexivity.
  - exists 450000. vm_compute. reflexivity.
  - exists 550000. vm_compute. reflexivity.
  - exists 650000. vm_compute. reflexivity.
  - exists 750000. vm_compute. reflexivity.
  - exists 850000. vm_compute. reflexivity.
  - exists 950000. vm_compute. reflexivity.
  - exists 1000000. vm_compute. reflexivity.
Qed.

Lemma price_labels_distinct : NoDup price_labels.
Proof.
  unfold price_labels.
  repeat (apply NoDup_cons;
          [ let H := fresh in
            intro H; vm_compute in H;
            repeat (destruct H as [H|H]; [discriminate H|]); exact H
          | ]).
  apply NoDup_nil.
Qed.

Lemma price_band_lt (n : Z) : (price_band n < 10)%nat.
Proof.
  unfold price_band. destruct (n <=? 0); lia.
Qed.

Lemma price_range_label_band (n : Z) :
  price_range_label n = nth (price_band n) price_labels [].
Proof.
  unfold price_range_label, price_band.
  destruct (Z.leb_spec n 0) as [Hn|Hn]; [reflexivity|].
  set (k := n / 1000).
  assert (Hk : 0 <= k) by (apply Z.div_pos; lia).
  pose proof (Z.div_mod k 100 ltac:(lia)) as Hq.
  pose proof (Z.mod_pos_bound k 100 ltac:(lia)) as Hr.
  repeat (match goal with
          | |- context [?a <? ?b] => destruct (Z.ltb_spec a b)
          | |- context [?a <=? ?b] => destruct (Z.leb_spec a b)
          end; cbn [andb]; cbv beta iota; try lia);
  match goal with
  | |- _ = nth (Z.to_nat ?e) _ _ =>
      first [ replace e with 0 by lia | replace e with 1 by lia
            | replace e with 2 by lia | replace e with 3 by lia
            | replace e with 4 by lia | replace e with 5 by lia
            | replace e with 6 by lia | replace e with 7 by lia
            | replace e with 8 by lia | replace e with 9 by lia ]
  end; reflexivity.
Qed.

(** C2: for every integer amount [price_range_label] returns one of ten
    fixed, pairwise different labels, each of which is reached; the label
    is the one of the band of the amount (thousands by integer division,
    100-wide bands from below 200 up to 1000 and above, an amount that is
    not positive in the lowest band); 360000, 0 and 1200000 get the labels
    of the bands 300-399, 100-199 and 1M. *)
Theorem price_range_label_ten_bands :
  forall n : Z,
    price_range_label n = nth (price_band n) price_labels [] /\
    (price_band n < 10)%nat /\
    In (price_range_label n) price_labels /\
    List.length price_labels = 10%nat /\
    NoDup price_labels /\
    Forall (fun l => exists m, price_range_label m = l) price_labels /\
    price_range_label (Z.min n 0) = py "¥100~199K" /\
    price_range_label 360000 = py "¥300~399K" /\
    price_range_label 0 = py "¥100~199K" /\
    price_range_label 1200000 = py "¥1M~".
Proof.
  intros n.
  pose proof (price_range_label_band n) as Hb.
  pose proof (price_band_lt n) as Hl.
  split; [exact Hb|]. split; [exact Hl|].
  split; [rewrite Hb; apply nth_In; exact Hl|].
  split; [reflexivity|].
  split; [apply price_labels_distinct|].
  split; [apply price_labels_attained|].
  split.
  - unfold price_range_label.
    destruct (Z.leb_spec (Z.min n 0) 0); [reflexivity | lia].
  - repeat split; vm_compute; reflexivity.
Qed.

Example normalize_station_en_minami :
  normalize_station_en (py "minami shinjuku station") = py "Minami-Shinjuku".
Proof. vm_compute. reflexivity. Qed.

(** C6: [normalize_station_en] removes the word Station, with the space
    before it, wherever it stands in the title-cased name and not only as
    a trailing suffix: Tokyo Station Hotel loses it in the middle, and
    Tokyo Stationery is cut inside a word. *)
Theorem normalize_station_en_inner_station :
  normalize_station_en (py "tokyo station hotel") = py "Tokyo-Hotel" /\
  normalize_station_en (py "tokyo stationery") = py "Tokyoery" /\
  normalize_station_en (py "minami shinjuku station") = py "Minami-Shinjuku".
Proof. vm_compute. repeat split; reflexivity. Qed.

(** C10: [normalize_station_en] is not idempotent.  Removing Station from
    the middle of Terminal 2 Stations joins a digit and a lower-case
    letter, and the second pass title-cases that letter. *)
Theorem normalize_station_en_second_pass :
  normalize_station_en (py "terminal 2 stations") = py "Terminal-2s" /\
  normalize_station_en (normalize_station_en (py "terminal 2 stations"))
    = py "Terminal-2S" /\
  normalize_station_en (normalize_station_en (py "terminal 2 stations"))
    <> normalize_station_en (py "terminal 2 stations").
Proof. vm_compute. repeat split; try reflexivity. discriminate. Qed.

(* ===================================================================== *)
(** ** Properties of the helpers that talk to the outside world *)
(* ===================================================================== *)

Lemma safe_translate_returns {tstate : Type}
    (translate : tstate -> str -> option str * tstate) (text : str)
    (w : world tstate) :
  exists s w', safe_translate translate text w = (Ok s, w').
Proof.
  unfold safe_translate. destruct (is_empty text); [eauto|].
  destruct (translate (service w) text) as [[translated|] s']; eauto.
Qed.

(** C8: [safe_translate] never raises, whatever the translation service
    does.  Empty text is returned as it is and the world, service included,
    is left untouched; otherwise the service is called once, the store is
    left alone, and the result is the translation when the call returns
    and the original text when the call raises. *)
Theorem safe_translate_never_raises :
  forall (tstate : Type) (translate : tstate -> str -> option str * tstate)
         (text : str) (w : world tstate),
  exists s w',
    safe_translate translate text w = (Ok s, w') /\
    base w' = base w /\
    ((text = [] /\ s = [] /\ w' = w) \/
     (text <> [] /\
      service w' = snd (translate (service w) text) /\
      s = match fst (translate (service w) text) with
          | Some translated => translated
          | None => text
          end)).
Proof.
  intros tstate translate text w. unfold safe_translate.
  destruct text as [|c t]; simpl.
  - exists [], w. split; [reflexivity|]. split; [reflexivity|].
    left. repeat split.
  - destruct (translate (service w) (c :: t)) as [[translated|] s'] eqn:E; simpl.
    + eexists _, _. split; [reflexivity|]. split; [reflexivity|].
      right. split; [discriminate|]. split; reflexivity.
    + eexists _, _. split; [reflexivity|]. split; [reflexivity|].
      right. split; [discriminate|]. split; reflexivity.
Qed.

Lemma is_empty_false (s : str) : s <> [] -> is_empty s = false.
Proof. destruct s; [congruence | reflexivity]. Qed.

Lemma table_all_after_create (st : store) (table_id name : str) :
  table_all_by_name st table_id name = [] ->
  table_all_by_name (snd (table_create st table_id name)) table_id name
  = [ {| id := next_id st; Name := name |} ].
Proof.
  unfold table_all_by_name, table_create. simpl. intros H.
  rewrite str_eqb_refl, filter_app, H. simpl.
  rewrite str_eqb_refl. reflexivity.
Qed.

(** C5: for a non-empty name and any state of the store, resolving the
    name twice in a row gives the same identifier both times, and the
    second call leaves the world as the first one left it: the lookup
    that precedes the create now finds the record, so no second record is
    created. *)
Theorem get_or_create_twice :
  forall (tstate : Type) (table_id name : str) (w : world tstate),
    name <> [] ->
    exists i w1,
      airtable_get_or_create_by_name table_id name w = (Ok i, w1) /\
      airtable_find_by_name table_id name w1 = (Ok (Some i), w1) /\
      airtable_get_or_create_by_name table_id name w1 = (Ok i, w1).
Proof.
  intros tstate table_id name w Hname.
  unfold airtable_get_or_create_by_name, bind, airtable_find_by_name.
  rewrite (is_empty_false name Hname).
  destruct (table_all_by_name (base w) table_id name) as [|r rest] eqn:E.
  - unfold ret, airtable_create.
    pose proof (table_all_after_create (base w) table_id name E) as Hc.
    destruct (table_create (base w) table_id name) as [i st'] eqn:Ec.
    simpl in Hc.
    assert (Hi : i = next_id (base w)) by (unfold table_create in Ec; congruence).
    eexists _, _. split; [reflexivity|]. simpl.
    rewrite Hc. simpl. subst i. split; reflexivity.
  - exists (id r), w. unfold ret. rewrite E. repeat split.
Qed.

Lemma get_or_create_twice_witness :
  py "Yoyogi" <> [] /\
  exists i w1,
    airtable_get_or_create_by_name (py "tblStations") (py "Yoyogi") fresh_world
      = (Ok i, w1) /\
    airtable_find_by_name (py "tblStations") (py "Yoyogi") w1 = (Ok (Some i), w1) /\
    airtable_get_or_create_by_name (py "tblStations") (py "Yoyogi") w1 = (Ok i, w1).
Proof.
  assert (H : py "Yoyogi" <> []) by (vm_compute; discriminate).
  split; [exact H|].
  exact (get_or_create_twice unit (py "tblStations") (py "Yoyogi") fresh_world H).
Defined.

(** The stand-alone station resolver does try both surface forms. *)
Example get_or_create_station_id_finds_spaced :
  get_or_create_station_id offline example_env (py "南新宿") spaced_station_world
  = (Ok (Some 1%positive), spaced_station_world).
Proof. vm_compute. reflexivity. Qed.

(** C3: a run of the pipeline does not try the space-separated form of a
    station name.  [get_suumo_data] resolves a station with
    [airtable_get_or_create_by_name], one exact lookup and then a create,
    and never calls [get_or_create_station_id]: with Minami Shinjuku
    already in the Train Stations table, the stand-alone resolver returns
    that record, while the run adds a second record, Minami-Shinjuku, and
    links the listing to it. *)
Theorem pipeline_skips_spaced_station_name :
  get_or_create_station_id offline example_env (py "南新宿") spaced_station_world
    = (Ok (Some 1%positive), spaced_station_world) /\
  map Name
      (rows (base (snd (get_suumo_data offline example_env example_url
                          one_station_page spaced_station_world)))
            (py "tblStations"))
    = [py "Minami Shinjuku"; py "Minami-Shinjuku"] /\
  exists d,
    fst (get_suumo_data offline example_env example_url one_station_page
           spaced_station_world) = Ok d /\
    dict_get d (py "Access One: Train Station") = Some (VRefs [2%positive]).
Proof.
  split; [vm_compute; reflexivity|].
  split; [vm_compute; reflexivity|].
  eexists. split; vm_compute; reflexivity.
Qed.

(* ===================================================================== *)
(** ** The address split *)
(* ===================================================================== *)

Lemma starts_with_ku (c : Z) (r : str) :
  starts_with (py "区") (c :: r) = (21306 =? c).
Proof. change (py "区") with [21306]. simpl. apply andb_true_r. Qed.

Lemma ward_scan_some (t w r : str) :
  ward_scan t = Some (w, r) ->
  exists r', t = w ++ 21306 :: r' /\ r = take_while not_newline r' /\
             ~ In 10 w /\ ~ In 21306 w.
Proof.
  revert w r. induction t as [|c t IH]; intros w r H; [discriminate|].
  cbn [ward_scan] in H. rewrite starts_with_ku in H.
  destruct (Z.eqb_spec 21306 c) as [Hc|Hc].
  - inversion H; subst. exists t. repeat split; auto.
  - destruct (Z.eqb_spec c 10) as [Hn|Hn]; [discriminate|].
    destruct (ward_scan t) as [[w0 r0]|] eqn:E; [|discriminate].
    inversion H; subst.
    destruct (IH w0 r eq_refl) as (r' & Ht & Hr & Hnl & Hku).
    exists r'. subst t. repeat split; auto.
    + intros [Hin|Hin]; [congruence | auto].
    + intros [Hin|Hin]; [congruence | auto].
Qed.

Lemma ward_scan_none (t : str) :
  ward_scan t = None ->
  forall w r', ~ In 10 w -> t <> w ++ 21306 :: r'.
Proof.
  induction t as [|c t IH]; intros H w r' Hnl Heq.
  - destruct w; discriminate.
  - cbn [ward_scan] in H. rewrite starts_with_ku in H.
    destruct (Z.eqb_spec 21306 c) as [Hc|Hc]; [discriminate|].
    destruct w as [|x w]; simpl in Heq; inversion Heq; subst; [congruence|].
    destruct (Z.eqb_spec x 10) as [Hn|Hn].
    + apply Hnl. left. exact Hn.
    + destruct (ward_scan (w ++ 21306 :: r')) as [[w0 r0]|] eqn:E; [discriminate|].
      apply (IH eq_refl w r'); [|reflexivity].
      intros Hin. apply Hnl. right. exact Hin.
Qed.

(** What the ward pattern matches: the shortest non-empty prefix without a
    newline that is followed by 区, and the rest of that line. *)
Lemma match_ward_some (t wd r : str) :
  match_ward t = Some (wd, r) ->
  exists r', t = wd ++ py "区" ++ r' /\ r = take_while not_newline r' /\
             wd <> [] /\ ~ In 10 wd /\ ~ In 21306 (tl wd).
Proof.
  change (py "区") with [21306].
  destruct t as [|c t]; [discriminate|]. cbn [match_ward].
  destruct (Z.eqb_spec c 10) as [Hn|Hn]; [discriminate|].
  destruct (ward_scan t) as [[w0 r0]|] eqn:E; [|discriminate].
  intros H. inversion H; subst.
  destruct (ward_scan_some _ _ _ E) as (r' & Ht & Hr & Hnl & Hku).
  exists r'. subst t. repeat split; auto.
  - discriminate.
  - intros [Hin|Hin]; [congruence | auto].
Qed.

Lemma match_ward_none (t : str) :
  match_ward t = None ->
  forall wd r', wd <> [] -> ~ In 10 wd -> t <> wd ++ py "区" ++ r'.
Proof.
  change (py "区") with [21306].
  intros H wd r' Hne Hnl Heq.
  destruct wd as [|x wd]; [congruence|].
  destruct t as [|c t]; [discriminate|].
  simpl in Heq. inversion Heq; subst.
  cbn [match_ward] in H.
  destruct (Z.eqb_spec x 10) as [Hn|Hn].
  - apply Hnl. left. exact Hn.
  - destruct (ward_scan (wd ++ 21306 :: r')) as [[w0 r0]|] eqn:E; [discriminate|].
    apply (ward_scan_none _ E wd r'); [|reflexivity].
    intros Hin. apply Hnl. right. exact Hin.
Qed.

(** The two branches of the address split, for every non-empty address:
    the first 東京都 is removed and the ward pattern is tried on the
    result.  When it matches, the ward is the stripped text before the
    first 区 that follows at least one character, and the street is the
    translation of the stripped rest of the line, with its whitespace
    normalised.  When it does not match, the ward is [None], the street is
    [address_jp] and the translation service is not called. *)
Theorem split_address_spec :
  forall (tstate : Type) (translate : tstate -> str -> option str * tstate)
         (address_jp : str) (w : world tstate),
    address_jp <> [] ->
    let t := replace_first (py "東京都") [] address_jp in
    match match_ward t with
    | Some (wd, r) =>
        (exists r', t = wd ++ py "区" ++ r' /\ r = take_while not_newline r') /\
        wd <> [] /\ ~ In 10 wd /\ ~ In 21306 (tl wd) /\
        exists s w',
          safe_translate translate (strip r) w = (Ok s, w') /\
          split_address_to_area_and_street translate address_jp w
          = (Ok (Some (strip wd), Some (normalize_spaces s)), w')
    | None =>
        (forall wd r', wd <> [] -> ~ In 10 wd -> t <> wd ++ py "区" ++ r') /\
        split_address_to_area_and_street translate address_jp w
        = (Ok (None, Some address_jp), w)
    end.
Proof.
  intros tstate translate address_jp w Hne t.
  unfold split_address_to_area_and_street.
  rewrite (is_empty_false _ Hne). fold t.
  destruct (match_ward t) as [[wd r]|] eqn:E.
  - destruct (match_ward_some _ _ _ E) as (r' & Ht & Hr & Hw & Hnl & Hku).
    split; [exists r'; auto|]. repeat (split; [assumption|]).
    destruct (safe_translate_returns translate (strip r) w) as (s & w' & Hs).
    exists s, w'. split; [exact Hs|].
    unfold bind. rewrite Hs. reflexivity.
  - split; [exact (match_ward_none _ E)|]. reflexivity.
Qed.

Lemma split_address_spec_witness :
  py "東京都世田谷区玉堤２" <> [] /\
  exists s w',
    safe_translate offline (py "玉堤２") fresh_world = (Ok s, w') /\
    split_address_to_area_and_street offline (py "東京都世田谷区玉堤２") fresh_world
    = (Ok (Some (py "世田谷"), Some (normalize_spaces s)), w').
Proof.
  assert (H : py "東京都世田谷区玉堤２" <> []) by (vm_compute; discriminate).
  split; [exact H|].
  pose proof (split_address_spec unit offline (py "東京都世田谷区玉堤２")
                fresh_world H) as S.
  vm_compute in S.
  destruct S as (_ & _ & _ & _ & s & w' & Hs & Hsplit).
  exists s, w'. split; [vm_compute; exact Hs | vm_compute; exact Hsplit].
Defined.

(** C7: on an address without a ward the split does not do what the
    claim, the docstring and the comment on the fallback say.  For
    東京都八王子市 the prefix is removed and the ward pattern fails on
    八王子市, but the street that comes back is the address as it was
    given, with its 東京都 prefix, and the translation service has not been
    called, where the claim has the prefix-stripped text as the street.
    The matching branch, on 東京都世田谷区玉堤２, works on the stripped
    text and translates the street. *)
Theorem split_address_fallback_keeps_prefix :
  replace_first (py "東京都") [] (py "東京都八王子市") = py "八王子市" /\
  match_ward (py "八王子市") = None /\
  split_address_to_area_and_street counting (py "東京都八王子市") (counting_world 0)
    = (Ok (None, Some (py "東京都八王子市")), counting_world 0) /\
  fst (split_address_to_area_and_street counting (py "東京都八王子市")
         (counting_world 0))
    <> Ok (None, Some (py "八王子市")) /\
  split_address_to_area_and_street counting (py "東京都世田谷区玉堤２")
    (counting_world 0)
    = (Ok (Some (py "世田谷"), Some (py "Tamazutsumi 2")), counting_world 1).
Proof.
  repeat split; try (vm_compute; reflexivity).
  vm_compute. discriminate.
Qed.

(* ===================================================================== *)
(** ** The payload of [get_suumo_data] *)
(* ===================================================================== *)

Lemma bind_ok {tstate A B : Type} (c : M tstate A) (k : A -> M tstate B) w b w' :
  bind c k w = (Ok b, w') ->
  exists a w1, c w = (Ok a, w1) /\ k a w1 = (Ok b, w').
Proof.
  unfold bind. destruct (c w) as [[a|e] w1]; intros H; [|discriminate].
  exists a, w1. auto.
Qed.

Lemma lift_ok {tstate A : Type} (r : result A) (w : world tstate) a w' :
  lift r w = (Ok a, w') -> r = Ok a /\ w' = w.
Proof. unfold lift. intros H. inversion H. auto. Qed.

Ltac invert_gather H :=
  unfold gather in H;
  repeat (apply bind_ok in H; destruct H as (? & ? & ? & H);
          repeat match type of H with
                 | (let '(_, _) := ?x in _) _ = _ => destruct x
                 | (match ?x with (_, _) => _ end) _ = _ => destruct x
                 end);
  inversion H; subst; clear H.

Section Pipeline.
Context {tstate : Type}.

Lemma pad_to_two_length {A : Type} (l : list (option A)) :
  (List.length l <= 2)%nat -> List.length (pad_to_two l) = 2%nat.
Proof.
  intros H. destruct l as [|a [|b [|c l]]]; simpl in *; try reflexivity; lia.
Qed.

Variable translate : tstate -> str -> option str * tstate.
Variable env : config.

Lemma stations_loop_length divs : forall items w r w',
  stations_loop translate divs items w = (Ok r, w') ->
  (List.length items < 2)%nat -> (List.length r <= 2)%nat.
Proof.
  induction divs as [|div rest IH]; intros items w r w' H Hi.
  - inversion H; subst. lia.
  - cbn [stations_loop] in H.
    destruct (is_empty (get_text_strip div)); [eauto|].
    apply bind_ok in H. destruct H as (mins & w0 & _ & H).
    match type of H with context [is_empty ?x] => destruct (is_empty x) end; [eauto|].
    apply bind_ok in H. destruct H as (st & w1 & _ & H).
    match type of H with context [(2 <=? ?n)%nat] => destruct (Nat.leb_spec 2 n) as [E|E] end.
    + inversion H; subst. rewrite length_app in *. simpl in *. lia.
    + eapply IH; [exact H|exact E].
Qed.

Lemma extract_stations_length soup w r w' :
  extract_stations_and_minutes translate soup w = (Ok r, w') ->
  (List.length r <= 2)%nat.
Proof.
  unfold extract_stations_and_minutes.
  destruct (th_station soup) as [[divs|]|]; intros H;
    try (inversion H; subst; simpl; lia).
  eapply stations_loop_length; [exact H | simpl; lia].
Qed.

Lemma resolve_stations_length stations : forall ids mins (w : world tstate) ids' mins' w',
  resolve_stations env stations ids mins w = (Ok (ids', mins'), w') ->
  List.length ids' = (List.length ids + List.length stations)%nat /\
  List.length mins' = (List.length mins + List.length stations)%nat.
Proof.
  induction stations as [|[st m] rest IH]; intros ids mins w ids' mins' w' H.
  - inversion H; subst. simpl. lia.
  - cbn [resolve_stations] in H. apply bind_ok in H.
    destruct H as (i & w1 & _ & H). apply IH in H.
    rewrite !length_app in H. simpl in *. lia.
Qed.

Lemma build_payload_ok (l : locals) :
  List.length (station_ids l) = 2%nat ->
  List.length (minutes_list l) = 2%nat ->
  exists s0 s1 m0 m1,
    station_ids l = [s0; s1] /\ minutes_list l = [m0; m1] /\
    build_payload l =
    Ok [ (py "Name", VStr (name l));
       (py "Property Price", VStr (rent l));
       (py "Property Management Fee", VStr (mgmt l));
       (py "Property Layout", link (layout_id l));
       (py "Property Size", VStr (size l));
       (py "Property Locations", link (area_id l));
       (py "Location", VStr (match street_en l with Some s => s | None => [] end));
       (py "Property Deposit", VStr (deposit l));
       (py "Property Key Money", VStr (key_money l));
       (py "Property Cover Image", image_link (cover_img l));
       (py "Property Plan Image", image_link (plan_img l));
       (py "Property Images", VImages (gallery l));
       (py "Access One: Train Station", link s0);
       (py "Access One: Minutes to Walk", minutes_value m0);
       (py "Access Two: Train Station", link s1);
       (py "Access Two: Minutes to Walk", minutes_value m1);
       (py "Property Categories", link (prop_cat_id l));
       (py "Property Type", link (kind_id l));
       (py "Property Price Range", link (pr_id l)) ].
Proof.
  intros Hs Hm. unfold build_payload.
  destruct (station_ids l) as [|s0 [|s1 [|? ?]]]; try discriminate.
  destruct (minutes_list l) as [|m0 [|m1 [|? ?]]]; try discriminate.
  exists s0, s1, m0, m1. repeat split.
Qed.

Lemma gather_slots url soup w l w' :
  gather translate env url soup w = (Ok l, w') ->
  List.length (station_ids l) = 2%nat /\ List.length (minutes_list l) = 2%nat.
Proof.
  unfold gather. intros H.
  repeat (apply bind_ok in H; destruct H as (? & ? & ? & H);
          repeat match type of H with
                 | (let '(_, _) := ?x in _) _ = _ => destruct x
                 | (match ?x with (_, _) => _ end) _ = _ => destruct x
                 end).
  inversion H; subst; clear H. cbn [station_ids minutes_list].
  match goal with
  | He : extract_stations_and_minutes _ _ _ = _,
    Hr : resolve_stations _ _ _ _ _ = _ |- _ =>
      apply extract_stations_length in He;
      apply resolve_stations_length in Hr; simpl in Hr; destruct Hr as [Hi Hm]
  end.
  split; apply pad_to_two_length; lia.
Qed.


Lemma find_total table_id nm (w : world tstate) :
  exists o, airtable_find_by_name table_id nm w = (Ok o, w).
Proof.
  unfold airtable_find_by_name. destruct (is_empty nm); [eauto|].
  destruct (table_all_by_name (base w) table_id nm); eauto.
Qed.


(* ---- the resolutions of a run, one by one ---- *)
Lemma find_same (table_id nm : str) (w w' : world tstate) (o : option rec_id) :
  airtable_find_by_name table_id nm w = (Ok o, w') -> w' = w.
Proof.
  destruct (find_total table_id nm w) as [o' H]. rewrite H.
  intros E. inversion E. reflexivity.
Qed.

Lemma layout_same (nm : str) (w w' : world tstate) (o : option rec_id) :
  get_layout_record_id env nm w = (Ok o, w') -> w' = w.
Proof.
  unfold get_layout_record_id. destruct (is_empty nm); [|apply find_same].
  intros E. inversion E. reflexivity.
Qed.

Lemma category_same (nm : str) (w w' : world tstate) (o : option rec_id) :
  get_property_category_id env nm w = (Ok o, w') -> w' = w.
Proof.
  unfold get_property_category_id. destruct (is_empty nm); [|apply find_same].
  intros E. inversion E. reflexivity.
Qed.

Lemma kind_same (nm : str) (w w' : world tstate) (o : option rec_id) :
  get_property_kind_id env nm w = (Ok o, w') -> w' = w.
Proof.
  unfold get_property_kind_id. destruct (is_empty nm); [|apply find_same].
  intros E. inversion E. reflexivity.
Qed.

Lemma price_range_same (nm : str) (w w' : world tstate) (o : option rec_id) :
  get_price_range_id env nm w = (Ok o, w') -> w' = w.
Proof.
  unfold get_price_range_id. destruct (is_empty nm); [|apply find_same].
  intros E. inversion E. reflexivity.
Qed.

(** The guards of [get_suumo_data] in front of a resolution repeat the
    guard that the resolution starts with. *)
Lemma area_guard (ward : option str) (w : world tstate) :
  match ward with
  | Some w0 => if is_empty w0 then ret None else get_or_create_area_id translate env w0
  | None => ret None
  end w
  = get_or_create_area_id translate env (or_empty ward) w.
Proof. destruct ward as [[|c t]|]; reflexivity. Qed.

Lemma category_guard (soup : page) (w : world tstate) :
  match match extract_property_category_jp soup with
        | Some k => if is_empty k then None else map_property_category_jp_to_en k
        | None => None
        end with
  | Some c => if is_empty c then ret None else get_property_category_id env c
  | None => ret None
  end w
  = get_property_category_id env (or_empty (category_of_page soup)) w.
Proof.
  unfold category_of_page.
  destruct (extract_property_category_jp soup) as [[|c t]|]; try reflexivity.
  cbn [is_empty].
  destruct (map_property_category_jp_to_en (c :: t)) as [[|x y]|]; reflexivity.
Qed.

Lemma kind_guard (url : str) (w : world tstate) :
  match map_property_kind_from_url url with
  | Some k => if is_empty k then ret None else get_property_kind_id env k
  | None => ret None
  end w
  = get_property_kind_id env (or_empty (map_property_kind_from_url url)) w.
Proof. destruct (map_property_kind_from_url url) as [[|c t]|]; reflexivity. Qed.

Lemma resolve_stations_turn (stations : list (str * option Z)) :
  forall acc_i acc_m (w : world tstate) ids' mins' w',
    resolve_stations env stations acc_i acc_m w = (Ok (ids', mins'), w') ->
    exists ids,
      ids' = acc_i ++ map Some ids /\
      mins' = acc_m ++ map snd stations /\
      List.length ids = List.length stations /\
      resolved_in_turn env (map fst stations) w ids w'.
Proof.
  induction stations as [|[nm m] rest IH]; intros acc_i acc_m w ids' mins' w' H.
  - inversion H; subst. exists []. rewrite !app_nil_r. repeat split.
  - cbn [resolve_stations] in H. apply bind_ok in H.
    destruct H as (i & w1 & Hi & H). apply IH in H.
    destruct H as (ids & -> & -> & Hl & Ht). exists (i :: ids).
    rewrite <- !app_assoc. cbn [map app fst snd List.length resolved_in_turn].
    repeat split; [lia|]. exists w1. auto.
Qed.

Lemma pad_slots (ids : list rec_id) :
  (List.length ids <= 2)%nat ->
  pad_to_two (map Some ids) = [nth_error ids 0; nth_error ids 1].
Proof.
  destruct ids as [|a [|b [|c l]]]; cbn; intros H; try reflexivity; lia.
Qed.

Lemma pad_minutes (stations : list (str * option Z)) :
  (List.length stations <= 2)%nat ->
  pad_to_two (map snd stations)
  = [minutes_of_slot stations 0; minutes_of_slot stations 1].
Proof.
  destruct stations as [|[n0 m0] [|[n1 m1] [|c l]]]; cbn; intros H;
    try reflexivity; lia.
Qed.

(** What a run that returns has done: every extraction and every
    resolution in the order of the code, with the worlds in between, and
    the payload that is assembled from their results. *)
Lemma run_trace (url : str) (soup : page) (w w' : world tstate) (d : payload) :
  get_suumo_data translate env url soup w = (Ok d, w') ->
  exists (name rent mgmt layout_jp size : str) (address ward street : option str)
         (stations : list (str * option Z)) (ids : list rec_id)
         (layout area cat kind pr : option rec_id) (w1 w2 w3 w4 : world tstate),
    extract_name translate soup w = (Ok name, w1) /\
    extract_rent_and_fee soup = Ok (rent, mgmt) /\
    extract_layout_and_size soup = Ok (layout_jp, size) /\
    get_layout_record_id env layout_jp w1 = (Ok layout, w1) /\
    extract_address_jp soup = Ok address /\
    split_address_to_area_and_street translate (or_empty address) w1
      = (Ok (ward, street), w2) /\
    get_or_create_area_id translate env (or_empty ward) w2 = (Ok area, w3) /\
    extract_stations_and_minutes translate soup w3 = (Ok stations, w4) /\
    (List.length stations <= 2)%nat /\
    resolved_in_turn env (map fst stations) w4 ids w' /\
    get_property_category_id env (or_empty (category_of_page soup)) w'
      = (Ok cat, w') /\
    get_property_kind_id env (or_empty (map_property_kind_from_url url)) w'
      = (Ok kind, w') /\
    get_price_range_id env
      (price_range_label (int_or_zero (replace (py ",") [] rent))) w'
      = (Ok pr, w') /\
    exists deposit key_money,
      deposit_loop (note_list_spans soup) (py "0") (py "0") = Ok (deposit, key_money) /\
      d = [ (py "Name", VStr name);
            (py "Property Price", VStr rent);
            (py "Property Management Fee", VStr mgmt);
            (py "Property Layout", link layout);
            (py "Property Size", VStr size);
            (py "Property Locations", link area);
            (py "Location", VStr (or_empty street));
            (py "Property Deposit", VStr deposit);
            (py "Property Key Money", VStr key_money);
            (py "Property Cover Image", image_link (fst (fst (extract_images soup))));
            (py "Property Plan Image", image_link (snd (fst (extract_images soup))));
            (py "Property Images", VImages (snd (extract_images soup)));
            (py "Access One: Train Station", link (nth_error ids 0));
            (py "Access One: Minutes to Walk", minutes_value (minutes_of_slot stations 0));
            (py "Access Two: Train Station", link (nth_error ids 1));
            (py "Access Two: Minutes to Walk", minutes_value (minutes_of_slot stations 1));
            (py "Property Categories", link cat);
            (py "Property Type", link kind);
            (py "Property Price Range", link pr) ].
Proof.
  intros H. unfold get_suumo_data in H. apply bind_ok in H.
  destruct H as (l & wl & Hg & Hb). apply lift_ok in Hb. destruct Hb as [Hb ->].
  unfold gather in Hg.
  apply bind_ok in Hg. destruct Hg as (nm & w1 & Hname & Hg).
  apply bind_ok in Hg. destruct Hg as ([rt mg] & wa & Hrent & Hg).
  apply lift_ok in Hrent. destruct Hrent as [Hrent ->].
  apply bind_ok in Hg. destruct Hg as ([layout_jp sz] & wa & Hsize & Hg).
  apply lift_ok in Hsize. destruct Hsize as [Hsize ->].
  apply bind_ok in Hg. destruct Hg as (layout & wa & Hlayout & Hg).
  pose proof (layout_same _ _ _ _ Hlayout). subst wa.
  apply bind_ok in Hg. destruct Hg as (address & wa & Haddr & Hg).
  apply lift_ok in Haddr. destruct Haddr as [Haddr ->].
  apply bind_ok in Hg. destruct Hg as ([ward street] & w2 & Hsplit & Hg).
  apply bind_ok in Hg. destruct Hg as (area & w3 & Harea & Hg).
  rewrite area_guard in Harea.
  apply bind_ok in Hg. destruct Hg as ([dep km] & wa & Hdep & Hg).
  apply lift_ok in Hdep. destruct Hdep as [Hdep ->].
  destruct (extract_images soup) as [[cover plan] gal] eqn:Eimg.
  apply bind_ok in Hg. destruct Hg as (stations & w4 & Hst & Hg).
  apply bind_ok in Hg. destruct Hg as ([ids' mins'] & w5 & Hres & Hg).
  apply bind_ok in Hg. destruct Hg as (cat & wa & Hcat & Hg).
  rewrite category_guard in Hcat.
  pose proof (category_same _ _ _ _ Hcat). subst wa.
  apply bind_ok in Hg. destruct Hg as (kind & wa & Hkind & Hg).
  rewrite kind_guard in Hkind.
  pose proof (kind_same _ _ _ _ Hkind). subst wa.
  apply bind_ok in Hg. destruct Hg as (pr & wa & Hpr & Hg).
  pose proof (price_range_same _ _ _ _ Hpr). subst wa.
  inversion Hg; subst l w5; clear Hg.
  pose proof (extract_stations_length _ _ _ _ Hst) as Hlen.
  apply resolve_stations_turn in Hres.
  destruct Hres as (ids & -> & -> & Hl & Hturn). cbn [app] in Hb.
  unfold build_payload in Hb.
  cbn [station_ids minutes_list name rent mgmt layout_id size area_id street_en
       deposit key_money cover_img plan_img gallery prop_cat_id kind_id pr_id] in Hb.
  rewrite (pad_slots ids) in Hb by lia.
  rewrite (pad_minutes stations Hlen) in Hb.
  cbn [index nth_error rbind] in Hb. inversion Hb; subst d; clear Hb.
  exists nm, rt, mg, layout_jp, sz, address, ward, street, stations, ids,
    layout, area, cat, kind, pr, w1, w2, w3, w4.
  repeat (split; [assumption|]).
  exists dep, km. split; [assumption|]. reflexivity.
Qed.

End Pipeline.


Lemma has_link_intro (d : payload) (key : str) (x : option rec_id) :
  dict_get d key = Some (link x) -> has_link d key x.
Proof.
  intros H. exists (link x). split; [exact H|]. destruct x; reflexivity.
Qed.

(** C4: in every payload that a run builds, each link field is the list
    with the resolved identifier alone when the resolution gave one and the
    empty list when it gave none; it is never [None].  The resolutions are
    those of the run, each in the world it ran in: the layout of the page
    looked up by [get_layout_record_id], the ward of its address by
    [get_or_create_area_id], its stations one after the other by
    [airtable_get_or_create_by_name] on the Train Stations table (Access
    One holds the first, Access Two the second), its category by
    [get_property_category_id], the kind of the URL by
    [get_property_kind_id] and the band of the rent by
    [get_price_range_id]. *)
Theorem link_fields_single_or_empty :
  forall (tstate : Type) (translate : tstate -> str -> option str * tstate)
         (env : config) (url : str) (soup : page) (w w' : world tstate)
         (d : payload),
    get_suumo_data translate env url soup w = (Ok d, w') ->
    exists (name rent mgmt layout_jp size : str) (address ward street : option str)
           (stations : list (str * option Z)) (ids : list rec_id)
           (layout area cat kind pr : option rec_id) (w1 w2 w3 w4 : world tstate),
      extract_name translate soup w = (Ok name, w1) /\
      extract_rent_and_fee soup = Ok (rent, mgmt) /\
      extract_layout_and_size soup = Ok (layout_jp, size) /\
      get_layout_record_id env layout_jp w1 = (Ok layout, w1) /\
      extract_address_jp soup = Ok address /\
      split_address_to_area_and_street translate (or_empty address) w1
        = (Ok (ward, street), w2) /\
      get_or_create_area_id translate env (or_empty ward) w2 = (Ok area, w3) /\
      extract_stations_and_minutes translate soup w3 = (Ok stations, w4) /\
      resolved_in_turn env (map fst stations) w4 ids w' /\
      get_property_category_id env (or_empty (category_of_page soup)) w'
        = (Ok cat, w') /\
      get_property_kind_id env (or_empty (map_property_kind_from_url url)) w'
        = (Ok kind, w') /\
      get_price_range_id env
        (price_range_label (int_or_zero (replace (py ",") [] rent))) w'
        = (Ok pr, w') /\
      has_link d (py "Property Layout") layout /\
      has_link d (py "Property Locations") area /\
      has_link d (py "Access One: Train Station") (nth_error ids 0) /\
      has_link d (py "Access Two: Train Station") (nth_error ids 1) /\
      has_link d (py "Property Categories") cat /\
      has_link d (py "Property Type") kind /\
      has_link d (py "Property Price Range") pr.
Proof.
  intros tstate translate env url soup w w' d H.
  destruct (run_trace translate env url soup w w' d H)
    as (name & rent & mgmt & layout_jp & size & address & ward & street
        & stations & ids & layout & area & cat & kind & pr & w1 & w2 & w3 & w4
        & H1 & H2 & H3 & H4 & H5 & H6 & H7 & H8 & _ & H9 & H10 & H11 & H12
        & deposit & key_money & _ & ->).
  exists name, rent, mgmt, layout_jp, size, address, ward, street, stations, ids,
    layout, area, cat, kind, pr, w1, w2, w3, w4.
  repeat (split; [assumption|]).
  repeat split; apply has_link_intro; reflexivity.
Qed.

Lemma link_fields_single_or_empty_witness :
  exists d w',
    get_suumo_data offline example_env example_url full_page fresh_world
      = (Ok d, w') /\
    exists (name rent mgmt layout_jp size : str) (address ward street : option str)
           (stations : list (str * option Z)) (ids : list rec_id)
           (layout area cat kind pr : option rec_id) (w1 w2 w3 w4 : world unit),
      extract_name offline full_page fresh_world = (Ok name, w1) /\
      extract_rent_and_fee full_page = Ok (rent, mgmt) /\
      extract_layout_and_size full_page = Ok (layout_jp, size) /\
      get_layout_record_id example_env layout_jp w1 = (Ok layout, w1) /\
      extract_address_jp full_page = Ok address /\
      split_address_to_area_and_street offline (or_empty address) w1
        = (Ok (ward, street), w2) /\
      get_or_create_area_id offline example_env (or_empty ward) w2 = (Ok area, w3) /\
      extract_stations_and_minutes offline full_page w3 = (Ok stations, w4) /\
      resolved_in_turn example_env (map fst stations) w4 ids w' /\
      get_property_category_id example_env (or_empty (category_of_page full_page)) w'
        = (Ok cat, w') /\
      get_property_kind_id example_env
        (or_empty (map_property_kind_from_url example_url)) w'
        = (Ok kind, w') /\
      get_price_range_id example_env
        (price_range_label (int_or_zero (replace (py ",") [] rent))) w'
        = (Ok pr, w') /\
      has_link d (py "Property Layout") layout /\
      has_link d (py "Property Locations") area /\
      has_link d (py "Access One: Train Station") (nth_error ids 0) /\
      has_link d (py "Access Two: Train Station") (nth_error ids 1) /\
      has_link d (py "Property Categories") cat /\
      has_link d (py "Property Type") kind /\
      has_link d (py "Property Price Range") pr.
Proof.
  destruct (get_suumo_data offline example_env example_url full_page fresh_world)
    as [[d|e] w'] eqn:E.
  - exists d, w'. split; [reflexivity|].
    exact (link_fields_single_or_empty unit offline example_env example_url
             full_page fresh_world w' d E).
  - vm_compute in E. discriminate E.
Defined.

(** The run on the full example page: the area and both stations are
    created and linked, the lookups that find nothing leave empty lists. *)
Example full_page_links :
  match fst (get_suumo_data offline example_env example_url full_page fresh_world) with
  | Ok d =>
      dict_get d (py "Property Locations") = Some (VRefs [1%positive]) /\
      dict_get d (py "Access One: Train Station") = Some (VRefs [2%positive]) /\
      dict_get d (py "Access One: Minutes to Walk") = Some (VInt 5) /\
      dict_get d (py "Access Two: Train Station") = Some (VRefs [3%positive]) /\
      dict_get d (py "Property Layout") = Some (VRefs []) /\
      dict_get d (py "Property Price") = Some (VStr (py "164,000")) /\
      dict_get d (py "Property Size") = Some (VStr (py "26"))
  | Raise _ => False
  end.
Proof. vm_compute. repeat split. Qed.

(* ===================================================================== *)
(** ** Further properties of the scraper *)
(* ===================================================================== *)

(* ---- single-character replace ---- *)
Lemma starts_with_single (c x : Z) (t : str) :
  starts_with [c] (x :: t) = (c =? x).
Proof. simpl. apply andb_true_r. Qed.

Lemma replace_single (c : Z) (new s : str) :
  replace [c] new s = flat_map (fun x => if c =? x then new else [x]) s.
Proof.
  unfold replace. induction s as [|x t IH]; [reflexivity|].
  cbn [replace_from flat_map]. rewrite starts_with_single.
  destruct (c =? x); cbn [List.length Nat.pred]; rewrite IH; reflexivity.
Qed.

Lemma remove_commas_filter (s : str) :
  replace (py ",") [] s = filter (fun x => negb (44 =? x)) s.
Proof.
  change (py ",") with [44]. rewrite replace_single.
  induction s as [|x t IH]; [reflexivity|].
  cbn [flat_map filter]. destruct (44 =? x); cbn [negb app]; rewrite IH; reflexivity.
Qed.

Lemma contains_single (c : Z) (s : str) :
  contains [c] s = existsb (Z.eqb c) s.
Proof.
  induction s as [|x t IH]; [reflexivity|].
  cbn [contains existsb]. rewrite starts_with_single, IH. reflexivity.
Qed.

(* ---- decimal digits ---- *)

Lemma digit_value_ascii (c : Z) :
  ascii_digit c = true -> digit_value c = Some (c - 48).
Proof.
  unfold ascii_digit, digit_value, decimal_zeros. intros H.
  apply andb_prop in H. destruct H as [H1 H2].
  apply Z.leb_le in H1. apply Z.leb_le in H2.
  cbn [find]. replace (48 <=? c) with true by (symmetry; apply Z.leb_le; lia).
  replace (c <? 48 + 10) with true by (symmetry; apply Z.ltb_lt; lia).
  reflexivity.
Qed.

Lemma is_digit_ascii (c : Z) : ascii_digit c = true -> is_digit c = true.
Proof. intros H. unfold is_digit. rewrite (digit_value_ascii c H). reflexivity. Qed.


Lemma int_of_digits_fold (s : str) : int_of_digits s = fold_left int_step s 0.
Proof. reflexivity. Qed.

Lemma digits_from_fold (fuel : nat) : forall n acc,
  0 <= n < 2 ^ Z.of_nat fuel ->
  fold_left int_step (digits_from fuel n acc) 0 = fold_left int_step acc n.
Proof.
  induction fuel as [|f IH]; intros n acc Hn.
  - simpl in Hn. replace n with 0 by lia. reflexivity.
  - cbn [digits_from]. 
    pose proof (Z.div_mod n 10 ltac:(lia)) as Hq.
    pose proof (Z.mod_pos_bound n 10 ltac:(lia)) as Hr.
    destruct (Z.ltb_spec n 10) as [Hlt|Hge].
    + cbn [fold_left]. unfold int_step at 2.
      rewrite digit_value_ascii.
      * rewrite Z.mod_small by lia. f_equal. lia.
      * unfold ascii_digit. rewrite Z.mod_small by lia.
        apply andb_true_intro. split; [apply Z.leb_le|apply Z.leb_le]; lia.
    + rewrite IH.
      * cbn [fold_left]. unfold int_step at 2. rewrite digit_value_ascii.
        -- f_equal. lia.
        -- unfold ascii_digit. apply andb_true_intro.
           split; [apply Z.leb_le|apply Z.leb_le]; lia.
      * rewrite Nat2Z.inj_succ, Z.pow_succ_r in Hn by lia.
        split; [apply Z.div_pos; lia|].
        apply Z.div_lt_upper_bound; lia.
Qed.

Lemma digits_from_ascii (fuel : nat) : forall n acc,
  0 <= n -> Forall (fun c => ascii_digit c = true) acc ->
  Forall (fun c => ascii_digit c = true) (digits_from fuel n acc).
Proof.
  induction fuel as [|f IH]; intros n acc Hn Hacc; [exact Hacc|].
  cbn [digits_from].
  pose proof (Z.mod_pos_bound n 10 ltac:(lia)) as Hr.
  assert (Hd : ascii_digit (48 + n mod 10) = true).
  { unfold ascii_digit. apply andb_true_intro.
    split; [apply Z.leb_le|apply Z.leb_le]; lia. }
  destruct (n <? 10).
  - constructor; assumption.
  - apply IH; [apply Z.div_pos; lia | constructor; assumption].
Qed.

Lemma digits_from_nonempty (fuel : nat) : forall n acc,
  digits_from (S fuel) n acc <> [].
Proof.
  induction fuel as [|f IH]; intros n acc.
  - cbn [digits_from]. destruct (n <? 10); discriminate.
  - cbn [digits_from] in *. destruct (n <? 10); [discriminate|].
    specialize (IH (n / 10) ((48 + n mod 10) :: acc)).
    exact IH.
Qed.


Lemma fuel_enough (n : Z) : 0 <= n -> 0 <= n < 2 ^ Z.of_nat (S (Z.to_nat (Z.log2 n))).
Proof.
  intros Hn. split; [exact Hn|].
  rewrite Nat2Z.inj_succ, Z2Nat.id by apply Z.log2_nonneg.
  destruct (Z.eq_dec n 0) as [->|Hz]; [reflexivity|].
  apply Z.log2_spec. lia.
Qed.

Lemma int_of_digits_digits (n : Z) : 0 <= n -> int_of_digits (digits n) = n.
Proof.
  intros Hn. rewrite int_of_digits_fold. unfold digits.
  rewrite digits_from_fold by (apply fuel_enough; exact Hn). reflexivity.
Qed.

Lemma digits_ascii (n : Z) : 0 <= n -> Forall (fun c => ascii_digit c = true) (digits n).
Proof. intros Hn. apply digits_from_ascii; [exact Hn | constructor]. Qed.

Lemma digits_nonempty (n : Z) : digits n <> [].
Proof. apply digits_from_nonempty. Qed.

(* ---- thousands separators ---- *)

Lemma ascii_digit_no_comma (c : Z) : ascii_digit c = true -> no_comma c = true.
Proof.
  unfold ascii_digit, no_comma. intros H. apply andb_prop in H.
  destruct H as [H1 _]. apply Z.leb_le in H1.
  destruct (Z.eqb_spec 44 c); [lia | reflexivity].
Qed.

Lemma filter_commas_rev (l : str) : forall k,
  Forall (fun c => ascii_digit c = true) l ->
  filter no_comma (commas_rev k l) = l.
Proof.
  induction l as [|c t IH]; intros k H; [reflexivity|].
  inversion H as [|? ? Hc Ht]; subst.
  pose proof (ascii_digit_no_comma c Hc) as Hn.
  destruct k as [|[|[|[|k]]]]; cbn [commas_rev filter];
    try (change (no_comma 44) with false; cbn [filter]);
    rewrite Hn, IH by exact Ht; reflexivity.
Qed.

Lemma filter_rev_eq {A : Type} (f : A -> bool) (l : list A) :
  filter f (rev l) = rev (filter f l).
Proof.
  induction l as [|a l IH]; [reflexivity|].
  cbn [rev filter]. rewrite filter_app, IH. cbn [filter].
  destruct (f a); [reflexivity | rewrite app_nil_r; reflexivity].
Qed.

Lemma format_commas_nonneg (n : Z) :
  0 <= n -> format_commas n = rev (commas_rev 0 (rev (digits n))).
Proof.
  intros Hn. unfold format_commas.
  destruct (Z.ltb_spec n 0); [lia | reflexivity].
Qed.

Lemma remove_commas_format (n : Z) :
  0 <= n -> replace (py ",") [] (format_commas n) = digits n.
Proof.
  intros Hn. rewrite remove_commas_filter, format_commas_nonneg by exact Hn.
  change (fun x => negb (44 =? x)) with no_comma.
  rewrite filter_rev_eq, filter_commas_rev, rev_involutive; [reflexivity|].
  apply Forall_rev. apply digits_ascii. exact Hn.
Qed.

Lemma format_commas_nonempty (n : Z) : 0 <= n -> is_empty (format_commas n) = false.
Proof.
  intros Hn. pose proof (remove_commas_format n Hn) as H.
  destruct (format_commas n); [|reflexivity].
  exfalso. apply (digits_nonempty n). symmetry. exact H.
Qed.

Lemma forallb_is_digit_digits (n : Z) : 0 <= n -> forallb is_digit (digits n) = true.
Proof.
  intros Hn. apply forallb_forall. intros c Hc.
  apply is_digit_ascii.
  pose proof (digits_ascii n Hn) as H. rewrite Forall_forall in H. auto.
Qed.

Lemma take_while_all (p : Z -> bool) (s : str) :
  forallb p s = true -> take_while p s = s.
Proof.
  induction s as [|c t IH]; [reflexivity|]. cbn [forallb take_while].
  intros H. apply andb_prop in H. destruct H as [Hc Ht].
  rewrite Hc, IH by exact Ht. reflexivity.
Qed.

Lemma search_digits (n : Z) :
  0 <= n -> search_class is_digit (digits n) = Some (digits n).
Proof.
  intros Hn. unfold search_class.
  pose proof (forallb_is_digit_digits n Hn) as Hall.
  pose proof (digits_nonempty n) as Hne.
  destruct (digits n) as [|c t] eqn:E; [congruence|].
  cbn [forallb] in Hall. apply andb_prop in Hall. destruct Hall as [Hc Ht].
  cbn [drop_while]. rewrite Hc. cbn [negb].
  rewrite take_while_all by (cbn [forallb]; rewrite Hc, Ht; reflexivity).
  reflexivity.
Qed.

Lemma no_man_in_digits (n : Z) :
  0 <= n -> contains (py "万") (digits n) = false.
Proof.
  intros Hn. change (py "万") with [19975]. rewrite contains_single.
  pose proof (digits_ascii n Hn) as H.
  induction H as [|c t Hc _ IH]; [reflexivity|].
  cbn [existsb]. rewrite IH, orb_false_r.
  unfold ascii_digit in Hc. apply andb_prop in Hc. destruct Hc as [_ H2].
  apply Z.leb_le in H2. apply Z.eqb_neq. lia.
Qed.


(* ---- floats are non-negative ---- *)

Lemma round_half_even_nonneg (n d : Z) :
  0 <= n -> 0 < d -> 0 <= PyFloat.round_half_even n d.
Proof.
  intros Hn Hd. unfold PyFloat.round_half_even.
  assert (0 <= n / d) by (apply Z.div_pos; lia).
  destruct (2 * (n mod d) <? d); [lia|].
  destruct (2 * (n mod d) =? d); [destruct (Z.even (n / d)); lia | lia].
Qed.

Lemma scaled_pos (n d k : Z) :
  0 <= n -> 0 < d -> 0 <= fst (PyFloat.scaled n d k) /\ 0 < snd (PyFloat.scaled n d k).
Proof.
  intros Hn Hd. unfold PyFloat.scaled.
  destruct (Z.leb_spec 0 k); cbn [fst snd].
  - split; [lia|]. apply Z.mul_pos_pos; [lia|]. apply Z.pow_pos_nonneg; lia.
  - split; [|lia]. apply Z.mul_nonneg_nonneg; [lia|]. apply Z.pow_nonneg. lia.
Qed.

Lemma of_ratio_nonneg (n d : Z) : 0 <= n -> 0 < d -> fnonneg (PyFloat.of_ratio n d).
Proof.
  intros Hn Hd. unfold PyFloat.of_ratio.
  destruct (n =? 0); [simpl; lia|].
  destruct (PyFloat.scaled n d (Z.log2 n - Z.log2 d)) as [n1 d1].
  match goal with |- context [PyFloat.scaled n d ?e] =>
    pose proof (scaled_pos n d e Hn Hd) as Hs;
    destruct (PyFloat.scaled n d e) as [n2 d2] end.
  cbn [fst snd] in Hs. destruct Hs as [H1 H2].
  match goal with |- context [if ?b then PyFloat.Inf else _] => destruct b end;
    [exact I|].
  simpl. apply round_half_even_nonneg; assumption.
Qed.

Lemma int_of_digits_nonneg (s : str) : 0 <= int_of_digits s.
Proof.
  rewrite int_of_digits_fold.
  assert (H : forall a, 0 <= a -> 0 <= fold_left int_step s a).
  { induction s as [|c t IH]; intros a Ha; [exact Ha|].
    cbn [fold_left]. apply IH. unfold int_step, digit_value.
    destruct (find _ decimal_zeros) as [z|] eqn:E; [|exact Ha].
    apply find_some in E. destruct E as [_ E].
    apply andb_prop in E. destruct E as [E1 _]. apply Z.leb_le in E1. lia. }
  apply H. lia.
Qed.

Lemma digit_value_range (c d : Z) : digit_value c = Some d -> 0 <= d <= 9.
Proof.
  unfold digit_value. destruct (find _ decimal_zeros) as [z|] eqn:E; [|discriminate].
  intros H. inversion H; subst. apply find_some in E. destruct E as [_ E].
  apply andb_prop in E. destruct E as [E1 E2].
  apply Z.leb_le in E1. apply Z.ltb_lt in E2. lia.
Qed.

Lemma int_step_below (a c : Z) : 0 <= a -> int_step a c + 1 <= 10 * (a + 1).
Proof.
  intros Ha. unfold int_step. destruct (digit_value c) as [d|] eqn:E; [|lia].
  apply digit_value_range in E. lia.
Qed.

Lemma int_step_nonneg (a c : Z) : 0 <= a -> 0 <= int_step a c.
Proof.
  intros Ha. unfold int_step. destruct (digit_value c) as [d|] eqn:E; [|lia].
  apply digit_value_range in E. lia.
Qed.

Lemma int_of_digits_below (s : str) : int_of_digits s < 10 ^ Z.of_nat (List.length s).
Proof.
  rewrite int_of_digits_fold.
  assert (H : forall a, 0 <= a ->
            fold_left int_step s a + 1 <= (a + 1) * 10 ^ Z.of_nat (List.length s)).
  { induction s as [|c t IH]; intros a Ha.
    - cbn. lia.
    - cbn [fold_left List.length]. rewrite Nat2Z.inj_succ, Z.pow_succ_r by lia.
      pose proof (IH (int_step a c) (int_step_nonneg a c Ha)) as H1.
      pose proof (int_step_below a c Ha) as H2.
      assert (0 < 10 ^ Z.of_nat (List.length t)) by (apply Z.pow_pos_nonneg; lia).
      nia. }
  specialize (H 0 ltac:(lia)). lia.
Qed.

Lemma digits_from_length (fuel : nat) : forall (n : Z) (acc : str) (k : nat),
  0 <= n < 10 ^ Z.of_nat k -> (1 <= k)%nat ->
  (List.length (digits_from fuel n acc) <= k + List.length acc)%nat.
Proof.
  induction fuel as [|f IH]; intros n acc k Hn Hk; [cbn; lia|].
  cbn [digits_from]. destruct (Z.ltb_spec n 10) as [Hlt|Hge].
  - cbn [List.length]. lia.
  - destruct k as [|[|k]]; [lia | cbn in Hn; lia |].
    specialize (IH (n / 10) ((48 + n mod 10) :: acc) (S k)).
    cbn [List.length] in IH.
    assert (Hq : 0 <= n / 10 < 10 ^ Z.of_nat (S k)).
    { split; [apply Z.div_pos; lia|].
      apply Z.div_lt_upper_bound; [lia|].
      rewrite (Nat2Z.inj_succ (S k)), Z.pow_succ_r in Hn by lia. lia. }
    specialize (IH Hq ltac:(lia)). lia.
Qed.

Lemma digits_length (n : Z) (k : nat) :
  0 <= n < 10 ^ Z.of_nat k -> (1 <= k)%nat -> (List.length (digits n) <= k)%nat.
Proof.
  intros Hn Hk. unfold digits.
  pose proof (digits_from_length (S (Z.to_nat (Z.log2 n))) n [] k Hn Hk) as H.
  cbn [List.length] in H. lia.
Qed.

Lemma int_of_str_digits (n : Z) :
  0 <= n < int_cap -> int_of_str (digits n) = Ok n.
Proof.
  intros Hn. unfold int_of_str.
  assert (Hl : (List.length (digits n) <= int_max_str_digits)%nat).
  { apply digits_length; [exact Hn | unfold int_max_str_digits; lia]. }
  destruct (Nat.ltb_spec int_max_str_digits (List.length (digits n))); [lia|].
  rewrite (int_of_digits_digits n (proj1 Hn)). reflexivity.
Qed.

Lemma int_of_str_value (s : str) (v : Z) :
  int_of_str s = Ok v -> v = int_of_digits s /\ 0 <= v < int_cap.
Proof.
  unfold int_of_str.
  destruct (Nat.ltb_spec int_max_str_digits (List.length s)) as [H|H]; [discriminate|].
  intros E. inversion E; subst. split; [reflexivity|].
  split; [apply int_of_digits_nonneg|].
  pose proof (int_of_digits_below s) as Hb.
  assert (10 ^ Z.of_nat (List.length s) <= int_cap).
  { unfold int_cap. apply Z.pow_le_mono_r; lia. }
  lia.
Qed.

Lemma int_of_str_raises (s : str) (e : exn) :
    int_of_str s = Raise e ->
    e = ValueError /\ (int_max_str_digits < List.length s)%nat.
Proof.
  unfold int_of_str.
  destruct (Nat.ltb_spec int_max_str_digits (List.length s)) as [H|H]; [|discriminate].
  intros E. inversion E. auto.
Qed.

Lemma int_or_zero_digits (n : Z) : 0 <= n < int_cap -> int_or_zero (digits n) = n.
Proof.
  intros Hn. unfold int_or_zero.
  pose proof (forallb_is_digit_digits n (proj1 Hn)) as Hall.
  pose proof (digits_ascii n (proj1 Hn)) as Hd.
  pose proof (int_of_str_digits n Hn) as Hi.
  destruct (digits n) as [|c t] eqn:E; [exfalso; exact (digits_nonempty n E)|].
  apply Forall_inv in Hd.
  unfold ascii_digit in Hd. apply andb_prop in Hd. destruct Hd as [H1 _].
  apply Z.leb_le in H1.
  replace (c =? 45) with false by (symmetry; apply Z.eqb_neq; lia).
  cbn [andb]. rewrite Hall, Hi. reflexivity.
Qed.

Lemma of_str_nonneg (s : str) (f : PyFloat.float) :
  PyFloat.of_str s = Ok f -> fnonneg f.
Proof.
  unfold PyFloat.of_str.
  destruct (match drop_while is_digit s with
            | [] => Some []
            | c :: r => if (c =? 46) && forallb is_digit r then Some r else None
            end) as [fp|]; [|discriminate].
  destruct (is_empty (take_while is_digit s) && is_empty fp); [discriminate|].
  intros H. inversion H; subst.
  apply of_ratio_nonneg; [apply int_of_digits_nonneg|].
  apply Z.pow_pos_nonneg; lia.
Qed.

Lemma of_str_raises (s : str) (e : exn) :
  PyFloat.of_str s = Raise e -> e = ValueError.
Proof.
  unfold PyFloat.of_str.
  destruct (match drop_while is_digit s with
            | [] => Some []
            | c :: r => if (c =? 46) && forallb is_digit r then Some r else None
            end) as [fp|]; [|congruence].
  destruct (is_empty (take_while is_digit s) && is_empty fp); congruence.
Qed.

Lemma mul_int_nonneg (x : PyFloat.float) (k : Z) :
  0 <= k -> fnonneg x -> fnonneg (PyFloat.mul_int x k).
Proof.
  intros Hk Hx. destruct x as [m e|]; [|exact I]. simpl in Hx.
  unfold PyFloat.mul_int. destruct (Z.leb_spec 0 e).
  - apply of_ratio_nonneg; [|lia].
    apply Z.mul_nonneg_nonneg; [apply Z.mul_nonneg_nonneg; lia|].
    apply Z.pow_nonneg. lia.
  - apply of_ratio_nonneg; [apply Z.mul_nonneg_nonneg; lia|].
    apply Z.pow_pos_nonneg; lia.
Qed.

Lemma to_int_nonneg (x : PyFloat.float) (v : Z) :
  fnonneg x -> PyFloat.to_int x = Ok v -> 0 <= v.
Proof.
  destruct x as [m e|]; [|discriminate]. simpl. intros Hm H.
  inversion H; subst. destruct (Z.leb_spec 0 e).
  - apply Z.mul_nonneg_nonneg; [lia|]. apply Z.pow_nonneg. lia.
  - apply Z.div_pos; [lia|]. apply Z.pow_pos_nonneg; lia.
Qed.

Lemma to_int_raises (x : PyFloat.float) (e : exn) :
  PyFloat.to_int x = Raise e -> e = OverflowError.
Proof. destruct x; simpl; congruence. Qed.

(* ---- floats stay within the format ---- *)
Lemma of_ratio_unfold (N D : Z) :
  PyFloat.of_ratio N D =
  if N =? 0 then PyFloat.Finite 0 0
  else
    let lg := Z.log2 N - Z.log2 D in
    let ex := if fst (PyFloat.scaled N D lg) <? snd (PyFloat.scaled N D lg)
              then lg - 1 else lg in
    let e := Z.max (ex - 52) (-1074) in
    let m := PyFloat.round_half_even (fst (PyFloat.scaled N D e))
                                     (snd (PyFloat.scaled N D e)) in
    if (971 <? e) || ((e =? 971) && (m =? 2 ^ 53)) then PyFloat.Inf
    else PyFloat.Finite m e.
Proof.
  unfold PyFloat.of_ratio. destruct (N =? 0); [reflexivity|].
  destruct (PyFloat.scaled N D (Z.log2 N - Z.log2 D)) as [n1 d1]. cbn [fst snd].
  cbv zeta.
  destruct (PyFloat.scaled N D _) as [n2 d2]. reflexivity.
Qed.

Section Scaled.
Variables n d : Z.
Hypothesis Hn : 0 < n.
Hypothesis Hd : 0 < d.

(** [below x]: the ratio [n / d] is less than [2 ^ x]. *)
Let below (x : Z) : Prop :=
  fst (PyFloat.scaled n d x) < snd (PyFloat.scaled n d x).

Lemma scaled_shift (k j : Z) :
  0 <= j ->
  fst (PyFloat.scaled n d k) < snd (PyFloat.scaled n d k) * 2 ^ j <->
  fst (PyFloat.scaled n d (k + j)) < snd (PyFloat.scaled n d (k + j)).
Proof.
  intros Hj. unfold PyFloat.scaled.
  assert (Hpj : 0 < 2 ^ j) by (apply Z.pow_pos_nonneg; lia).
  destruct (Z.leb_spec 0 k) as [Hk|Hk]; destruct (Z.leb_spec 0 (k + j)) as [Hkj|Hkj];
    cbn [fst snd]; try lia.
  - rewrite Z.pow_add_r by lia. rewrite Z.mul_assoc. reflexivity.
  - replace j with ((k + j) + (- k)) at 1 by lia.
    rewrite Z.pow_add_r by lia.
    assert (0 < 2 ^ (- k)) by (apply Z.pow_pos_nonneg; lia).
    split; intros H0; nia.
  - replace (- k) with (- (k + j) + j) by lia.
    rewrite Z.pow_add_r by lia.
    split; intros H0; nia.
Qed.

Lemma below_mono (x y : Z) : x <= y -> below x -> below y.
Proof.
  intros Hxy Hx. unfold below in *.
  replace y with (x + (y - x)) by lia.
  apply scaled_shift; [lia|].
  assert (1 <= 2 ^ (y - x)).
  { assert (0 < 2 ^ (y - x)) by (apply Z.pow_pos_nonneg; lia). lia. }
  assert (0 < snd (PyFloat.scaled n d x)).
  { apply scaled_pos; lia. }
  nia.
Qed.

Lemma below_log2 : below (Z.log2 n - Z.log2 d + 1).
Proof.
  unfold below, PyFloat.scaled.
  pose proof (Z.log2_spec n Hn) as [_ Ha].
  pose proof (Z.log2_spec d Hd) as [Hb _].
  pose proof (Z.log2_nonneg n) as Ha0. pose proof (Z.log2_nonneg d) as Hb0.
  set (a := Z.log2 n) in *. set (b := Z.log2 d) in *.
  destruct (Z.leb_spec 0 (a - b + 1)); cbn [fst snd].
  - assert (E : 2 ^ Z.succ a = 2 ^ b * 2 ^ (a - b + 1)).
    { rewrite <- Z.pow_add_r by lia. f_equal. lia. }
    assert (0 < 2 ^ (a - b + 1)) by (apply Z.pow_pos_nonneg; lia).
    nia.
  - assert (E : 2 ^ b = 2 ^ Z.succ a * 2 ^ (- (a - b + 1))).
    { rewrite <- Z.pow_add_r by lia. f_equal. lia. }
    assert (0 < 2 ^ (- (a - b + 1))) by (apply Z.pow_pos_nonneg; lia).
    nia.
Qed.

Lemma round_half_even_below (n2 d2 b : Z) :
  0 <= n2 -> 0 < d2 -> n2 < d2 * b -> PyFloat.round_half_even n2 d2 <= b.
Proof.
  intros H0 H1 H2. unfold PyFloat.round_half_even.
  assert (n2 / d2 < b) by (apply Z.div_lt_upper_bound; lia).
  destruct (_ <? _); [lia|]. destruct (_ =? _); [destruct (Z.even _)|]; lia.
Qed.

Lemma of_ratio_bounded :
  match PyFloat.of_ratio n d with
  | PyFloat.Finite m e => 0 <= m <= 2 ^ 53 /\ e <= 971
  | PyFloat.Inf => True
  end.
Proof.
  rewrite of_ratio_unfold.
  destruct (Z.eqb_spec n 0); [lia|]. cbv zeta.
  set (lg := Z.log2 n - Z.log2 d).
  set (ex := if fst (PyFloat.scaled n d lg) <? snd (PyFloat.scaled n d lg)
             then lg - 1 else lg).
  set (e := Z.max (ex - 52) (-1074)).
  assert (Hex : below (ex + 1)).
  { unfold ex. destruct (Z.ltb_spec (fst (PyFloat.scaled n d lg))
                                    (snd (PyFloat.scaled n d lg))) as [H|H].
    - replace (lg - 1 + 1) with lg by lia. exact H.
    - apply below_log2. }
  assert (He : below (e + 53)).
  { apply (below_mono (ex + 1)); [unfold e; lia | exact Hex]. }
  apply scaled_shift in He; [|lia].
  pose proof (scaled_pos n d e ltac:(lia) Hd) as [Hf Hs].
  destruct (Z.ltb_spec 971 e); cbn [orb]; [exact I|].
  match goal with |- context [if ?b then PyFloat.Inf else _] => destruct b end;
    [exact I|].
  split; [|lia]. split.
  - apply round_half_even_nonneg; assumption.
  - apply round_half_even_below; assumption.
Qed.

End Scaled.

(** A float within the bounds of the format. *)
Lemma mul_int_bounded (x : PyFloat.float) (k : Z) :
  0 < k -> fnonneg x ->
  match PyFloat.mul_int x k with
  | PyFloat.Finite m e => 0 <= m <= 2 ^ 53 /\ e <= 971
  | PyFloat.Inf => True
  end.
Proof.
  intros Hk Hx. destruct x as [m e|]; [|exact I]. simpl in Hx.
  unfold PyFloat.mul_int.
  destruct (Z.eq_dec m 0) as [->|Hm].
  - destruct (0 <=? e); cbn; lia.
  - destruct (Z.leb_spec 0 e).
    + apply of_ratio_bounded; [|lia].
      apply Z.mul_pos_pos; [nia|]. apply Z.pow_pos_nonneg; lia.
    + apply of_ratio_bounded; [nia|]. apply Z.pow_pos_nonneg; lia.
Qed.

Lemma to_int_below (x : PyFloat.float) (v : Z) :
  match x with
  | PyFloat.Finite m e => 0 <= m <= 2 ^ 53 /\ e <= 971
  | PyFloat.Inf => True
  end ->
  PyFloat.to_int x = Ok v -> v <= 2 ^ 1024.
Proof.
  destruct x as [m e|]; [|discriminate]. intros [Hm He] H.
  cbn [PyFloat.to_int] in H. inversion H; subst; clear H.
  destruct (Z.leb_spec 0 e).
  - assert (2 ^ e <= 2 ^ 971) by (apply Z.pow_le_mono_r; lia).
    assert (0 < 2 ^ e) by (apply Z.pow_pos_nonneg; lia).
    change (2 ^ 1024) with (2 ^ 53 * 2 ^ 971). nia.
  - assert (0 < 2 ^ (- e)) by (apply Z.pow_pos_nonneg; lia).
    assert (m / 2 ^ (- e) <= m) by (apply Z.div_le_upper_bound; nia).
    assert (2 ^ 53 <= 2 ^ 1024) by (apply Z.pow_le_mono_r; lia).
    lia.
Qed.

Lemma float_range_within_cap : 2 ^ 1024 < int_cap.
Proof. vm_compute. reflexivity. Qed.

Lemma round_below (x : PyFloat.float) (v : Z) :
  match x with
  | PyFloat.Finite m e => 0 <= m <= 2 ^ 53 /\ e <= 971
  | PyFloat.Inf => True
  end ->
  PyFloat.round x = Ok v -> 0 <= v <= 2 ^ 1024.
Proof.
  destruct x as [m e|]; [|discriminate]. intros [Hm He] H.
  cbn [PyFloat.round] in H. inversion H; subst; clear H.
  destruct (Z.leb_spec 0 e).
  - assert (2 ^ e <= 2 ^ 971) by (apply Z.pow_le_mono_r; lia).
    assert (0 < 2 ^ e) by (apply Z.pow_pos_nonneg; lia).
    change (2 ^ 1024) with (2 ^ 53 * 2 ^ 971). nia.
  - assert (0 < 2 ^ (- e)) by (apply Z.pow_pos_nonneg; lia).
    assert (2 ^ 53 + 1 <= 2 ^ 1024) by (vm_compute; discriminate).
    split; [apply round_half_even_nonneg; lia|].
    assert (PyFloat.round_half_even m (2 ^ (- e)) <= m + 1).
    { apply round_half_even_below; [lia | lia | nia]. }
    lia.
Qed.

Lemma of_str_bounded (s : str) (f : PyFloat.float) :
  PyFloat.of_str s = Ok f ->
  match f with
  | PyFloat.Finite m e => 0 <= m <= 2 ^ 53 /\ e <= 971
  | PyFloat.Inf => True
  end.
Proof.
  unfold PyFloat.of_str.
  destruct (match drop_while is_digit s with
            | [] => Some []
            | c :: r => if (c =? 46) && forallb is_digit r then Some r else None
            end) as [fp|]; [|discriminate].
  destruct (is_empty (take_while is_digit s) && is_empty fp); [discriminate|].
  intros H. inversion H; subst; clear H.
  pose proof (int_of_digits_nonneg (take_while is_digit s ++ fp)) as Hn.
  assert (Hd : 0 < 10 ^ Z.of_nat (List.length fp)) by (apply Z.pow_pos_nonneg; lia).
  destruct (Z.eq_dec (int_of_digits (take_while is_digit s ++ fp)) 0) as [->|Hz].
  - cbn. lia.
  - apply of_ratio_bounded; lia.
Qed.

(** The integers that the program prints stay within the cap of the
    interpreter on the digits of a printed integer: the floor size is a
    rounded float. *)
Lemma size_within_cap (soup : page) (layout size : str) :
  extract_layout_and_size soup = Ok (layout, size) ->
  size = py "N/A" \/ exists n, 0 <= n < int_cap /\ size = str_of_int n.
Proof.
  unfold extract_layout_and_size.
  destruct (th_size soup) as [[td|]|]; cbn [rbind];
    try (intros H; inversion H; left; reflexivity).
  destruct (is_empty _); cbn [rbind];
    [intros H; inversion H; left; reflexivity|].
  destruct (PyFloat.of_str _) as [f|] eqn:Ef; cbn [rbind]; [|discriminate].
  destruct (PyFloat.round f) as [n|] eqn:En; cbn [rbind]; [|discriminate].
  intros H. inversion H; subst. right. exists n. split; [|reflexivity].
  pose proof (round_below f n (of_str_bounded _ _ Ef) En).
  pose proof float_range_within_cap. lia.
Qed.

(* ---- what parse_price returns ---- *)
Lemma parse_price_value (text r : str) :
  parse_price text = Ok r -> exists n, 0 <= n < int_cap /\ r = format_commas n.
Proof.
  assert (H0 : 0 <= 0 < int_cap) by (split; [lia | vm_compute; reflexivity]).
  unfold parse_price.
  destruct (is_empty text); [intros H; inversion H; exists 0; split; [exact H0|reflexivity]|].
  destruct (contains (py "万") (replace (py ",") [] text)).
  - destruct (search_class _ _) as [m|];
      [|intros H; inversion H; exists 0; split; [exact H0|reflexivity]].
    destruct (PyFloat.of_str m) as [f|e] eqn:Ef; [|discriminate].
    cbn [rbind].
    destruct (PyFloat.to_int (PyFloat.mul_int f 10000)) as [v|e] eqn:Ev; [|discriminate].
    cbn [rbind]. intros H. inversion H; subst. exists v. split; [|reflexivity].
    pose proof (of_str_nonneg _ _ Ef) as Hf.
    split.
    + eapply to_int_nonneg; [|exact Ev]. apply mul_int_nonneg; [lia | exact Hf].
    + pose proof (to_int_below _ _ (mul_int_bounded f 10000 ltac:(lia) Hf) Ev).
      pose proof float_range_within_cap. lia.
  - destruct (search_class is_digit _) as [m|].
    + destruct (int_of_str m) as [v|e] eqn:Ev; cbn [rbind]; [|discriminate].
      intros H. inversion H; subst.
      exists v. split; [exact (proj2 (int_of_str_value m v Ev)) | reflexivity].
    + intros H. inversion H. exists 0. split; [exact H0 | reflexivity].
Qed.

Lemma parse_price_of_format (n : Z) :
  0 <= n < int_cap -> parse_price (format_commas n) = Ok (format_commas n).
Proof.
  intros Hn. pose proof (proj1 Hn) as Hn0. unfold parse_price.
  rewrite (format_commas_nonempty n Hn0), (remove_commas_format n Hn0).
  rewrite (no_man_in_digits n Hn0), (search_digits n Hn0).
  rewrite (int_of_str_digits n Hn). reflexivity.
Qed.

(** X1: a price that [parse_price] returns is read back unchanged:
    parsing a result again gives the same result. *)
Theorem parse_price_fixed_on_results (text r : str) :
  parse_price text = Ok r -> parse_price r = Ok r.
Proof.
  intros H. destruct (parse_price_value text r H) as (n & Hn & ->).
  apply parse_price_of_format. exact Hn.
Qed.

(** X2: every result of [parse_price] is a non-negative integer printed
    with thousands separators, and [int] of the result without its commas
    gives that integer back: the [except] branch that sets [rent_int] to 0
    in [get_suumo_data] is never taken for a rent that [parse_price]
    returned. *)
Theorem rent_int_never_falls_back (text r : str) :
  parse_price text = Ok r ->
  exists n, 0 <= n /\ r = format_commas n /\
            int_or_zero (replace (py ",") [] r) = n.
Proof.
  intros H. destruct (parse_price_value text r H) as (n & Hn & ->).
  exists n. split; [exact (proj1 Hn)|]. split; [reflexivity|].
  rewrite (remove_commas_format n (proj1 Hn)). apply int_or_zero_digits. exact Hn.
Qed.

(* ---- commas, and when parse_price raises ---- *)
Lemma filter_idem {A : Type} (f : A -> bool) (l : list A) :
  filter f (filter f l) = filter f l.
Proof. apply forallb_filter_id. apply forallb_filter. Qed.

(** X3: commas do not matter to [parse_price]: a text and the same text
    without its commas give the same result, or raise the same error. *)
Theorem parse_price_ignores_commas (text : str) :
  parse_price (replace (py ",") [] text) = parse_price text.
Proof.
  unfold parse_price. rewrite !remove_commas_filter, filter_idem.
  destruct text as [|c t0]; [reflexivity|].
  cbn [is_empty].
  destruct (filter (fun x => negb (44 =? x)) (c :: t0)) as [|x t1]; reflexivity.
Qed.

Lemma drop_while_all (p : Z -> bool) (s : str) :
  forallb p s = true -> drop_while p s = [].
Proof.
  induction s as [|c t IH]; [reflexivity|]. cbn [forallb drop_while].
  intros H. apply andb_prop in H. destruct H as [Hc Ht].
  rewrite Hc. apply IH. exact Ht.
Qed.

Lemma take_while_incl (p : Z -> bool) (s : str) (c : Z) :
  In c (take_while p s) -> In c s /\ p c = true.
Proof.
  induction s as [|x t IH]; [intros []|]. cbn [take_while].
  destruct (p x) eqn:E; [|intros []].
  intros [->|H]; [split; [left; reflexivity | exact E]|].
  destruct (IH H). split; [right|]; assumption.
Qed.

Lemma drop_while_incl (p : Z -> bool) (s : str) (c : Z) :
  In c (drop_while p s) -> In c s.
Proof.
  induction s as [|x t IH]; [intros []|]. cbn [drop_while].
  destruct (p x); [intros H; right; auto | auto].
Qed.

Lemma search_class_some (cls : Z -> bool) (t m : str) :
  search_class cls t = Some m ->
  m <> [] /\ forall c, In c m -> In c t /\ cls c = true.
Proof.
  unfold search_class.
  destruct (take_while cls (drop_while (fun c => negb (cls c)) t)) as [|x r] eqn:E;
    [discriminate|].
  intros H. inversion H; subst. split; [discriminate|].
  intros c Hc. rewrite <- E in Hc. apply take_while_incl in Hc.
  destruct Hc as [Hin Hp]. split; [|exact Hp].
  eapply drop_while_incl. exact Hin.
Qed.

Lemma of_str_digits_only (m : str) :
  m <> [] -> forallb is_digit m = true -> exists f, PyFloat.of_str m = Ok f.
Proof.
  intros Hne Hall. unfold PyFloat.of_str.
  rewrite (take_while_all _ _ Hall), (drop_while_all _ _ Hall).
  destruct m; [congruence|]. cbn [is_empty andb]. eauto.
Qed.

Lemma take_while_filter_length (p : Z -> bool) (l : str) :
  (List.length (take_while p l) <= List.length (filter p l))%nat.
Proof.
  induction l as [|c t IH]; [cbn; lia|]. cbn [take_while filter].
  destruct (p c); cbn [List.length]; lia.
Qed.

Lemma drop_while_filter_length (p q : Z -> bool) (l : str) :
  (List.length (filter p (drop_while q l)) <= List.length (filter p l))%nat.
Proof.
  induction l as [|c t IH]; [cbn; lia|]. cbn [drop_while].
  destruct (q c); [|lia]. cbn [filter]. destruct (p c); cbn [List.length]; lia.
Qed.

Lemma filter_filter_length (p q : Z -> bool) (l : str) :
  (List.length (filter p (filter q l)) <= List.length (filter p l))%nat.
Proof.
  induction l as [|c t IH]; [cbn; lia|]. cbn [filter].
  destruct (q c); cbn [filter]; destruct (p c); cbn [List.length]; lia.
Qed.

Lemma search_class_length (cls : Z -> bool) (t m : str) :
  search_class cls t = Some m ->
  (List.length m <= List.length (filter cls t))%nat.
Proof.
  unfold search_class.
  destruct (take_while cls (drop_while (fun c => negb (cls c)) t)) as [|x r] eqn:E;
    [discriminate|].
  intros H. inversion H; subst. rewrite <- E.
  pose proof (take_while_filter_length cls (drop_while (fun c => negb (cls c)) t)).
  pose proof (drop_while_filter_length cls (fun c => negb (cls c)) t).
  lia.
Qed.

(** X4: [parse_price] raises only [ValueError] or [OverflowError].  On a
    text that holds the 万 marker a [ValueError] needs a dot in the text.
    On a text without 万 the only error is the [ValueError] of [int] on a
    run of more digits than it accepts, so the text holds more than 4300
    digits. *)
Theorem parse_price_raises_only (text : str) (e : exn) :
  parse_price text = Raise e ->
  (e = ValueError \/ e = OverflowError) /\
  if contains (py "万") text
  then e = ValueError -> contains (py ".") text = true
  else e = ValueError /\
       (int_max_str_digits < List.length (filter is_digit text))%nat.
Proof.
  unfold parse_price.
  destruct (is_empty text); [discriminate|].
  rewrite remove_commas_filter.
  change (py "万") with [19975]. change (py ".") with [46].
  rewrite !contains_single.
  assert (Hman : existsb (Z.eqb 19975) (filter (fun x => negb (44 =? x)) text)
                 = existsb (Z.eqb 19975) text).
  { clear. induction text as [|c t IH]; [reflexivity|]. cbn [filter existsb].
    destruct (Z.eqb_spec 44 c) as [<-|Hc]; cbn [negb existsb]; rewrite IH; reflexivity. }
  rewrite Hman.
  destruct (existsb (Z.eqb 19975) text) eqn:Em.
  - destruct (search_class _ _) as [m|] eqn:Es; [|discriminate].
    destruct (search_class_some _ _ _ Es) as [Hne Hm].
    destruct (PyFloat.of_str m) as [f|e0] eqn:Ef; cbn [rbind].
    + destruct (PyFloat.to_int (PyFloat.mul_int f 10000)) as [v|e1] eqn:Ev;
        cbn [rbind]; [discriminate|].
      intros H. inversion H; subst.
      rewrite (to_int_raises _ _ Ev).
      split; [right; reflexivity | discriminate].
    + intros H. inversion H; subst.
      rewrite (of_str_raises _ _ Ef).
      split; [left; reflexivity|]. intros _.
      destruct (forallb is_digit m) eqn:Hall.
      * destruct (of_str_digits_only m Hne Hall) as [f Hf]. congruence.
      * apply existsb_exists.
        assert (Hex : exists c, In c m /\ is_digit c = false).
        { clear -Hall. induction m as [|c t IH]; [discriminate|].
          cbn [forallb] in Hall. destruct (is_digit c) eqn:Ec.
          - destruct (IH Hall) as (x & Hx & Hx'). exists x. split; [right|]; auto.
          - exists c. split; [left; reflexivity | exact Ec]. }
        destruct Hex as (c & Hc & Hd). destruct (Hm c Hc) as [Hin Hcls].
        rewrite Hd in Hcls. cbn [orb] in Hcls. apply Z.eqb_eq in Hcls. subst c.
        exists 46. split; [|reflexivity].
        apply filter_In in Hin. tauto.
  - destruct (search_class is_digit _) as [m|] eqn:Es; [|discriminate].
    destruct (int_of_str m) as [v|e0] eqn:Ev; cbn [rbind]; [discriminate|].
    intros H. inversion H; subst.
    destruct (int_of_str_raises m e Ev) as [-> Hlen].
    split; [left; reflexivity|]. split; [reflexivity|].
    pose proof (search_class_length _ _ _ Es).
    pose proof (filter_filter_length is_digit (fun x => negb (44 =? x)) text).
    lia.
Qed.

(* ---- walking minutes ---- *)
Lemma space_not_digit (c : Z) : is_space c = true -> is_digit c = false.
Proof.
  unfold is_space, whitespace. cbn [existsb].
  repeat match goal with
         | |- context [c =? ?k] => destruct (Z.eqb_spec c k); [subst; intros _; vm_compute; reflexivity|]
         end.
  discriminate.
Qed.

Lemma ascii_digit_not_space (c : Z) : ascii_digit c = true -> is_space c = false.
Proof.
  intros H. destruct (is_space c) eqn:E; [|reflexivity].
  apply space_not_digit in E. rewrite (is_digit_ascii c H) in E. discriminate.
Qed.

Lemma drop_while_app_all (p : Z -> bool) (a b : str) :
  forallb p a = true -> drop_while p (a ++ b) = drop_while p b.
Proof.
  induction a as [|c t IH]; [reflexivity|]. cbn [forallb app drop_while].
  intros H. apply andb_prop in H. destruct H as [Hc Ht]. rewrite Hc. auto.
Qed.

Lemma take_while_app_stop (p : Z -> bool) (a b : str) :
  forallb p a = true ->
  match b with [] => True | x :: _ => p x = false end ->
  take_while p (a ++ b) = a.
Proof.
  induction a as [|c t IH]; cbn [forallb app take_while]; intros H Hb.
  - destruct b as [|x r]; [reflexivity|]. cbn [take_while]. rewrite Hb. reflexivity.
  - apply andb_prop in H. destruct H as [Hc Ht]. rewrite Hc, IH; auto.
Qed.

Lemma drop_while_stop (p : Z -> bool) (l : str) :
  match l with [] => True | x :: _ => p x = false end -> drop_while p l = l.
Proof. destruct l as [|x r]; [reflexivity|]. cbn [drop_while]. intros ->. reflexivity. Qed.

Lemma str_of_int_nonneg (n : Z) : 0 <= n -> str_of_int n = digits n.
Proof. intros H. unfold str_of_int. destruct (Z.ltb_spec n 0); [lia | reflexivity]. Qed.

Lemma match_walk_at_none (s : str) :
  starts_with [27497] s = false -> starts_with [24466; 27497] s = false ->
  match_walk_at s = None.
Proof.
  intros H1 H2. unfold match_walk_at.
  change (py "歩") with [27497]. change (py "徒歩") with [24466; 27497].
  rewrite H1, H2. reflexivity.
Qed.

Section Walk.
Variables (ws1 ws2 post : str) (n : Z).
Hypothesis Hn : 0 <= n.
Hypothesis Hws1 : forallb is_space ws1 = true.
Hypothesis Hws2 : forallb is_space ws2 = true.

Let tail := ws1 ++ digits n ++ ws2 ++ 20998 :: post.

Lemma head_of_rest_not_digit :
  match ws2 ++ 20998 :: post with [] => True | x :: _ => is_digit x = false end.
Proof.
  destruct ws2 as [|x r]; [vm_compute; reflexivity|].
  cbn [app]. cbn [forallb] in Hws2. apply andb_prop in Hws2.
  apply space_not_digit. tauto.
Qed.

Lemma head_of_digits_not_space :
  match digits n ++ ws2 ++ 20998 :: post with
  | [] => True | x :: _ => is_space x = false end.
Proof.
  pose proof (digits_ascii n Hn) as Hd. pose proof (digits_nonempty n) as Hne.
  destruct (digits n) as [|x r]; [congruence|]. cbn [app].
  apply ascii_digit_not_space. apply Forall_inv in Hd. exact Hd.
Qed.

Lemma walk_tail :
  let r1 := drop_while is_space tail in
  take_while is_digit r1 = digits n /\
  drop_while is_space (drop_while is_digit r1) = 20998 :: post.
Proof.
  unfold tail. cbn zeta.
  rewrite (drop_while_app_all is_space ws1 _ Hws1).
  rewrite (drop_while_stop is_space _ head_of_digits_not_space).
  split.
  - apply take_while_app_stop;
      [apply forallb_is_digit_digits; exact Hn | exact head_of_rest_not_digit].
  - rewrite (drop_while_app_all is_digit (digits n))
      by (apply forallb_is_digit_digits; exact Hn).
    rewrite (drop_while_stop is_digit _ head_of_rest_not_digit).
    rewrite (drop_while_app_all is_space ws2 _ Hws2). reflexivity.
Qed.

Lemma match_walk_at_walk :
  match_walk_at (27497 :: tail) = Some (digits n, post).
Proof.
  destruct walk_tail as [Ht Hd]. unfold match_walk_at.
  change (py "歩") with [27497]. change (py "徒歩") with [24466; 27497].
  change (py "分") with [20998].
  cbn [starts_with skipn]. rewrite Z.eqb_refl. cbn [andb].
  rewrite Ht, Hd.
  pose proof (digits_nonempty n) as Hne.
  destruct (digits n) as [|x r]; [congruence|].
  rewrite Z.eqb_refl. reflexivity.
Qed.

Lemma match_walk_at_to_walk :
  match_walk_at (24466 :: 27497 :: tail) = Some (digits n, post).
Proof.
  destruct walk_tail as [Ht Hd]. unfold match_walk_at.
  change (py "歩") with [27497]. change (py "徒歩") with [24466; 27497].
  change (py "分") with [20998].
  cbn [starts_with skipn]. rewrite !Z.eqb_refl.
  change (27497 =? 24466) with false. cbn [andb].
  rewrite Ht, Hd.
  pose proof (digits_nonempty n) as Hne.
  destruct (digits n) as [|x r]; [congruence|].
  rewrite Z.eqb_refl. reflexivity.
Qed.

Lemma search_walk_first (pre : str) :
  existsb (Z.eqb 27497) pre = false ->
  search_walk (pre ++ 27497 :: tail) = Some (digits n).
Proof.
  assert (Hhere : forall s, match_walk_at s = Some (digits n, post) ->
                            search_walk s = Some (digits n)).
  { intros s Hs. destruct s; cbn [search_walk]; rewrite Hs; reflexivity. }
  induction pre as [|c p IH]; intros Hpre.
  - apply Hhere. exact match_walk_at_walk.
  - cbn [existsb] in Hpre. apply orb_false_elim in Hpre. destruct Hpre as [Hc Hp].
    destruct p as [|x p'].
    + destruct (Z.eqb_spec 24466 c) as [<-|Hne].
      * apply Hhere. exact match_walk_at_to_walk.
      * cbn [app search_walk].
        rewrite match_walk_at_none; [exact (IH Hp)| |].
        -- cbn [starts_with]. rewrite Hc. reflexivity.
        -- cbn [starts_with]. apply Z.eqb_neq in Hne. rewrite Hne. reflexivity.
    + cbn [existsb] in Hp. pose proof Hp as Hp0.
      apply orb_false_elim in Hp. destruct Hp as [Hx _].
      cbn [app search_walk].
      rewrite match_walk_at_none; [exact (IH Hp0)| |].
      * cbn [starts_with]. rewrite Hc. reflexivity.
      * cbn [starts_with]. rewrite Hx. rewrite andb_false_r. reflexivity.
Qed.

End Walk.

(** X5: the first 歩 of a fragment decides the walking minutes: when it
    is followed by optional whitespace, the decimal digits of [n],
    optional whitespace and 分, [parse_minutes] returns [n], whatever
    comes before (without 歩) and after, as long as [n] is written with
    no more digits than [int] accepts.  This covers both 歩n分 and
    徒歩n分. *)
Theorem parse_minutes_first_walk (pre ws1 ws2 post : str) (n : Z) :
  0 <= n < int_cap ->
  existsb (Z.eqb 27497) pre = false ->
  forallb is_space ws1 = true ->
  forallb is_space ws2 = true ->
  parse_minutes (pre ++ py "歩" ++ ws1 ++ str_of_int n ++ ws2 ++ py "分" ++ post)
  = Ok (Some n).
Proof.
  intros Hn Hpre H1 H2. unfold parse_minutes.
  change (py "歩") with [27497]. change (py "分") with [20998].
  rewrite (str_of_int_nonneg n (proj1 Hn)). cbn [app].
  rewrite (search_walk_first ws1 ws2 post n (proj1 Hn) H1 H2 pre Hpre).
  rewrite (int_of_str_digits n Hn). reflexivity.
Qed.


Lemma is_space_32 : is_space 32 = true.
Proof. reflexivity. Qed.

Lemma tidy_collapse (s : str) :
  tidy true (collapse_spaces true s) = true /\
  tidy false (collapse_spaces false s) = true.
Proof.
  induction s as [|c t [IH1 IH2]]; [split; reflexivity|].
  cbn [collapse_spaces]. destruct (is_space c) eqn:E.
  - split; [exact IH1|]. cbn [tidy]. rewrite is_space_32, IH1. reflexivity.
  - split; cbn [tidy]; rewrite E; exact IH2.
Qed.

Lemma collapse_tidy (s : str) : forall b,
  tidy b s = true -> collapse_spaces b s = s.
Proof.
  induction s as [|c t IH]; intros b H; [reflexivity|].
  cbn [tidy] in H. cbn [collapse_spaces]. destruct (is_space c) eqn:E.
  - apply andb_prop in H. destruct H as [H Ht].
    apply andb_prop in H. destruct H as [Hc Hb].
    apply Z.eqb_eq in Hc. subst c.
    destruct b; [discriminate|]. rewrite (IH true Ht). reflexivity.
  - rewrite (IH false H). reflexivity.
Qed.

Lemma tidy_weaken (s : str) : tidy true s = true -> tidy false s = true.
Proof.
  destruct s as [|c t]; [reflexivity|]. cbn [tidy].
  destruct (is_space c); [|auto]. rewrite andb_false_r. discriminate.
Qed.

Lemma tidy_lstrip (s : str) : forall b,
  tidy b s = true -> tidy true (lstrip s) = true.
Proof.
  unfold lstrip. induction s as [|c t IH]; intros b H; [reflexivity|].
  cbn [tidy] in H. cbn [drop_while]. destruct (is_space c) eqn:E.
  - apply andb_prop in H. destruct H as [_ Ht]. exact (IH true Ht).
  - cbn [tidy]. rewrite E. exact H.
Qed.

(** [rstrip] read from the left. *)
Lemma rstrip_cons (c : Z) (t : str) :
  rstrip (c :: t) =
  if is_empty (rstrip t) && is_space c then [] else c :: rstrip t.
Proof.
  unfold rstrip. cbn [rev].
  destruct (forallb is_space (rev t)) eqn:Eall.
  - rewrite (drop_while_app_all is_space (rev t) [c] Eall).
    rewrite (drop_while_all is_space (rev t) Eall). cbn [rev is_empty andb drop_while].
    destruct (is_space c); reflexivity.
  - assert (H : drop_while is_space (rev t ++ [c]) = drop_while is_space (rev t) ++ [c]
                /\ drop_while is_space (rev t) <> []).
    { clear -Eall. induction (rev t) as [|x r IH]; [discriminate|].
      cbn [forallb] in Eall. cbn [app drop_while].
      destruct (is_space x); [apply IH; exact Eall|].
      split; [reflexivity | discriminate]. }
    destruct H as [H1 H2]. rewrite H1, rev_app_distr. cbn [rev app].
    destruct (rev (drop_while is_space (rev t))) eqn:Er.
    + exfalso. apply H2. apply (f_equal (@rev Z)) in Er.
      rewrite rev_involutive in Er. exact Er.
    + reflexivity.
Qed.

Lemma tidy_rstrip (s : str) : forall b,
  tidy b s = true -> tidy b (rstrip s) = true.
Proof.
  induction s as [|c t IH]; intros b H; [reflexivity|].
  rewrite rstrip_cons. cbn [tidy] in H.
  destruct (is_empty (rstrip t) && is_space c); [reflexivity|].
  cbn [tidy]. destruct (is_space c).
  - apply andb_prop in H. destruct H as [H Ht]. rewrite H, (IH true Ht). reflexivity.
  - exact (IH false H).
Qed.

Lemma lstrip_fixed (s : str) :
  match s with [] => True | x :: _ => is_space x = false end -> lstrip s = s.
Proof. apply drop_while_stop. Qed.

Lemma lstrip_head (s : str) :
  match lstrip s with [] => True | x :: _ => is_space x = false end.
Proof.
  unfold lstrip. induction s as [|c t IH]; [exact I|].
  cbn [drop_while]. destruct (is_space c) eqn:E; [exact IH | exact E].
Qed.

Lemma rstrip_head (s : str) :
  match s with [] => True | x :: _ => is_space x = false end ->
  match rstrip s with [] => True | x :: _ => is_space x = false end.
Proof.
  destruct s as [|c t]; [intros _; exact I|]. intros Hc.
  rewrite rstrip_cons, Hc, andb_false_r. exact Hc.
Qed.

Lemma rstrip_idem (s : str) : rstrip (rstrip s) = rstrip s.
Proof.
  unfold rstrip. rewrite rev_involutive.
  f_equal. apply drop_while_stop.
  induction (rev s) as [|c t IH]; [exact I|].
  cbn [drop_while]. destruct (is_space c) eqn:E; [exact IH | exact E].
Qed.

Lemma strip_idem (s : str) : strip (strip s) = strip s.
Proof.
  unfold strip.
  rewrite (lstrip_fixed (rstrip (lstrip s)))
    by (apply rstrip_head; apply lstrip_head).
  apply rstrip_idem.
Qed.

Lemma tidy_normalize (s : str) : tidy false (normalize_spaces s) = true.
Proof.
  unfold normalize_spaces, strip.
  apply tidy_rstrip. apply tidy_weaken.
  apply (tidy_lstrip _ false). apply tidy_collapse.
Qed.

Lemma tidy_only_spaces (s : str) : forall b c,
  tidy b s = true -> In c s -> is_space c = true -> c = 32.
Proof.
  induction s as [|x t IH]; intros b c H Hin Hc; [destruct Hin|].
  cbn [tidy] in H. destruct Hin as [->|Hin].
  - rewrite Hc in H. apply andb_prop in H. destruct H as [H _].
    apply andb_prop in H. destruct H as [H _]. apply Z.eqb_eq. exact H.
  - destruct (is_space x).
    + apply andb_prop in H. destruct H as [_ Ht]. exact (IH true c Ht Hin Hc).
    + exact (IH false c H Hin Hc).
Qed.

Lemma tidy_no_double (s : str) : forall b,
  tidy b s = true -> contains [32; 32] s = false.
Proof.
  induction s as [|x t IH]; intros b H; [reflexivity|].
  cbn [contains]. cbn [tidy] in H.
  assert (Ht : exists b', tidy b' t = true).
  { destruct (is_space x); [|eauto]. apply andb_prop in H. destruct H; eauto. }
  destruct Ht as [b' Ht]. rewrite (IH b' Ht), orb_false_r.
  cbn [starts_with]. destruct (Z.eqb_spec 32 x) as [<-|Hx]; [|reflexivity].
  rewrite is_space_32 in H. apply andb_prop in H. destruct H as [_ H].
  destruct t as [|y t']; [reflexivity|]. cbn [starts_with tidy] in *.
  destruct (Z.eqb_spec 32 y) as [<-|Hy]; [|reflexivity].
  rewrite is_space_32 in H. cbn in H. discriminate.
Qed.

(** X6: [normalize_spaces] is idempotent, and its result has no leading or
    trailing whitespace, no two spaces in a row, and no whitespace
    character other than the space. *)
Theorem normalize_spaces_normal_form (s : str) :
  normalize_spaces (normalize_spaces s) = normalize_spaces s /\
  strip (normalize_spaces s) = normalize_spaces s /\
  contains (py "  ") (normalize_spaces s) = false /\
  (forall c, In c (normalize_spaces s) -> is_space c = true -> c = 32).
Proof.
  pose proof (tidy_normalize s) as Ht.
  assert (Hs : strip (normalize_spaces s) = normalize_spaces s)
    by (unfold normalize_spaces; apply strip_idem).
  split; [|split; [exact Hs | split]].
  - unfold normalize_spaces at 1. rewrite (collapse_tidy _ false Ht). exact Hs.
  - change (py "  ") with [32; 32]. exact (tidy_no_double _ false Ht).
  - intros c. exact (tidy_only_spaces _ false c Ht).
Qed.

(* ---- station names carry no whitespace ---- *)
Lemma replace_from_incl (old : str) (s : str) : forall k c,
  In c (replace_from old [] k s) -> In c s.
Proof.
  induction s as [|x t IH]; intros k c H; [exact H|].
  cbn [replace_from] in H. destruct k as [|k].
  - destruct (starts_with old (x :: t)).
    + right. exact (IH _ c H).
    + destruct H as [->|H]; [left; reflexivity | right; exact (IH _ c H)].
  - right. exact (IH _ c H).
Qed.

Lemma special_some (table : list (Z * str)) (c : Z) (l : str) :
  special table c = Some l -> In (c, l) table.
Proof.
  unfold special. destruct (find _ table) as [[k v]|] eqn:E; [|discriminate].
  intros H. inversion H; subst. apply find_some in E. destruct E as [Hin Hk].
  cbn [fst] in Hk. apply Z.eqb_eq in Hk. subst k. exact Hin.
Qed.

Lemma run_delta_spec (runs : list (Z * Z * Z * Z)) (c : Z) :
  run_delta runs c = 0 \/
  exists r, In r runs /\ run_hits r c = true /\ run_delta runs c = snd r.
Proof.
  unfold run_delta. destruct (find _ runs) as [[[[a b] st] d]|] eqn:E; [|left; reflexivity].
  right. apply find_some in E. destruct E as [Hin Hh].
  exists (a, b, st, d). auto.
Qed.

(** No special mapping writes a whitespace character, and no run maps a
    code point to one. *)
Lemma special_spaceless :
  forallb (fun e => forallb (fun c => negb (is_space c)) (snd e))
          (lower_special ++ title_special) = true.
Proof. vm_compute. reflexivity. Qed.

Lemma runs_avoid_space :
  forallb (fun r => forallb (fun ws => negb (run_hits r (ws - snd r))) whitespace)
          (lower_runs ++ title_runs) = true.
Proof. vm_compute. reflexivity. Qed.

Lemma run_delta_space (runs : list (Z * Z * Z * Z)) (c : Z) :
  incl runs (lower_runs ++ title_runs) ->
  is_space (c + run_delta runs c) = true -> c + run_delta runs c = c.
Proof.
  intros Hincl Hsp. destruct (run_delta_spec runs c) as [->|(r & Hr & Hh & Hd)]; [lia|].
  exfalso. rewrite Hd in Hsp.
  pose proof runs_avoid_space as Hav. rewrite forallb_forall in Hav.
  specialize (Hav r (Hincl r Hr)). rewrite forallb_forall in Hav.
  unfold is_space in Hsp. apply existsb_exists in Hsp.
  destruct Hsp as (ws & Hws & Heq). apply Z.eqb_eq in Heq.
  specialize (Hav ws Hws). rewrite <- Heq in Hav.
  replace (c + snd r - snd r) with c in Hav by lia.
  rewrite Hh in Hav. discriminate.
Qed.

Lemma special_space (table : list (Z * str)) (c y : Z) (l : str) :
  incl table (lower_special ++ title_special) ->
  special table c = Some l -> In y l -> is_space y = false.
Proof.
  intros Hincl Hs Hy. apply special_some in Hs.
  pose proof special_spaceless as Hsp. rewrite forallb_forall in Hsp.
  specialize (Hsp (c, l) (Hincl _ Hs)). cbn [snd] in Hsp.
  rewrite forallb_forall in Hsp. specialize (Hsp y Hy).
  apply negb_true_iff in Hsp. exact Hsp.
Qed.

Lemma to_title_full_space (x y : Z) :
  In y (to_title_full x) -> is_space y = true -> y = x.
Proof.
  unfold to_title_full. destruct (special title_special x) as [l|] eqn:E.
  - intros Hy Hsp.
    rewrite (special_space title_special x y l) in Hsp;
      [discriminate | apply incl_appr, incl_refl | exact E | exact Hy].
  - intros [<-|[]] Hsp.
    apply run_delta_space; [apply incl_appr, incl_refl | exact Hsp].
Qed.

Lemma lower_at_space (before after : str) (x y : Z) :
  In y (lower_at before x after) -> is_space y = true -> y = x.
Proof.
  unfold lower_at. destruct (x =? 931).
  - destruct (final_sigma before after); intros [<-|[]]; discriminate.
  - unfold to_lower_full. destruct (special lower_special x) as [l|] eqn:E.
    + intros Hy Hsp.
      rewrite (special_space lower_special x y l) in Hsp;
        [discriminate | apply incl_appl, incl_refl | exact E | exact Hy].
    + intros [<-|[]] Hsp.
      apply run_delta_space; [apply incl_appl, incl_refl | exact Hsp].
Qed.

Lemma title_from_space (s : str) : forall before b c,
  In c (title_from before b s) -> is_space c = true -> In c s.
Proof.
  induction s as [|x t IH]; intros before b c H Hc; [exact H|].
  cbn [title_from] in H. apply in_app_or in H. destruct H as [H|H].
  - left. symmetry. destruct b.
    + exact (lower_at_space _ _ _ _ H Hc).
    + exact (to_title_full_space _ _ H Hc).
  - right. exact (IH _ _ c H Hc).
Qed.

Lemma normalize_station_en_spaceless (s : str) : spaceless (normalize_station_en s).
Proof.
  intros c. unfold normalize_station_en.
  change (py " ") with [32]. change (py "-") with [45].
  rewrite replace_single. intros H.
  apply in_flat_map in H. destruct H as (x & Hx & Hc).
  destruct (is_space c) eqn:E; [exfalso | reflexivity].
  destruct (Z.eqb_spec 32 x) as [<-|Hne].
  - destruct Hc as [<-|[]]. discriminate E.
  - destruct Hc as [<-|[]].
    unfold replace in Hx. apply replace_from_incl in Hx.
    apply (title_from_space _ [] false x Hx) in E as Hin.
    apply Hne. symmetry.
    exact (tidy_only_spaces _ false x (tidy_normalize s) Hin E).
Qed.

(** X7: a name returned by [normalize_station_en] holds no whitespace
    character at all. *)
Theorem normalize_station_en_no_whitespace (s : str) :
  forallb (fun c => negb (is_space c)) (normalize_station_en s) = true.
Proof.
  apply forallb_forall. intros c Hc.
  rewrite (normalize_station_en_spaceless s c Hc). reflexivity.
Qed.

(* ---- padding is ignored by strip ---- *)
Lemma rstrip_app_spaces (a w : str) :
  forallb is_space w = true -> rstrip (a ++ w) = rstrip a.
Proof.
  intros Hw. unfold rstrip. rewrite rev_app_distr.
  rewrite drop_while_app_all; [reflexivity|].
  rewrite forallb_forall in *. intros x Hx. apply Hw. apply in_rev. exact Hx.
Qed.

Lemma strip_padding (w1 s w2 : str) :
  forallb is_space w1 = true -> forallb is_space w2 = true ->
  strip (w1 ++ s ++ w2) = strip s.
Proof.
  intros H1 H2. unfold strip, lstrip.
  rewrite (drop_while_app_all is_space w1 _ H1).
  destruct (forallb is_space s) eqn:Es.
  - rewrite (drop_while_app_all is_space s _ Es).
    rewrite (drop_while_all is_space w2 H2), (drop_while_all is_space s Es).
    reflexivity.
  - assert (H : drop_while is_space (s ++ w2) = drop_while is_space s ++ w2).
    { clear -Es. induction s as [|x t IH]; [discriminate|].
      cbn [forallb] in Es. cbn [app drop_while].
      destruct (is_space x); [apply IH; exact Es | reflexivity]. }
    rewrite H. apply rstrip_app_spaces. exact H2.
Qed.

(** X8: whitespace around the building type does not change the category
    it is mapped to. *)
Theorem category_ignores_padding (w1 jp w2 : str) :
  forallb is_space w1 = true -> forallb is_space w2 = true ->
  map_property_category_jp_to_en (w1 ++ jp ++ w2) = map_property_category_jp_to_en jp.
Proof.
  intros H1 H2. unfold map_property_category_jp_to_en.
  rewrite (strip_padding w1 jp w2 H1 H2). reflexivity.
Qed.


Lemma str_eqb_neq (a b : str) : a <> b -> str_eqb a b = false.
Proof.
  intros H. destruct (str_eqb a b) eqn:E; [|reflexivity].
  apply str_eqb_eq in E. contradiction.
Qed.

Lemma filter_first {A : Type} (f : A -> bool) (l : list A) :
  match filter f l with
  | [] => Forall (fun x => f x = false) l
  | r :: _ => exists pre post,
      l = pre ++ r :: post /\ f r = true /\ Forall (fun x => f x = false) pre
  end.
Proof.
  induction l as [|a l IH]; [constructor|].
  cbn [filter]. destruct (f a) eqn:E.
  - exists [], l. repeat split; [exact E | constructor].
  - destruct (filter f l) as [|r rest].
    + constructor; assumption.
    + destruct IH as (pre & post & -> & Hr & Hpre).
      exists (a :: pre), post. repeat split; [exact Hr | constructor; assumption].
Qed.

Section Store.
Context {tstate : Type}.
Variable translate : tstate -> str -> option str * tstate.
Variable env : config.

Lemma find_result (table_id nm : str) (w : world tstate) :
  airtable_find_by_name table_id nm w =
  (Ok (if is_empty nm then None
       else match table_all_by_name (base w) table_id nm with
            | r :: _ => Some (id r)
            | [] => None
            end), w).
Proof.
  unfold airtable_find_by_name. destruct (is_empty nm); [reflexivity|].
  destruct (table_all_by_name (base w) table_id nm); reflexivity.
Qed.

(** X9: [airtable_find_by_name] leaves the world as it is and never raises.
    It returns the identifier of the first row of the table whose Name is
    the given name, and [None] exactly when the name is empty or no row
    has that Name. *)
Theorem find_by_name_first_row (table_id nm : str) (w : world tstate) :
  exists o,
    airtable_find_by_name table_id nm w = (Ok o, w) /\
    match o with
    | Some i =>
        nm <> [] /\
        exists pre r post,
          rows (base w) table_id = pre ++ r :: post /\
          id r = i /\ Name r = nm /\
          Forall (fun x => Name x <> nm) pre
    | None =>
        nm = [] \/ Forall (fun x => Name x <> nm) (rows (base w) table_id)
    end.
Proof.
  rewrite find_result. eexists. split; [reflexivity|].
  destruct nm as [|c t]; [left; reflexivity|]. cbn [is_empty].
  unfold table_all_by_name.
  pose proof (filter_first (fun r => str_eqb (Name r) (c :: t))
                (rows (base w) table_id)) as H.
  destruct (filter _ _) as [|r rest].
  - right. eapply Forall_impl; [|exact H]. cbv beta. intros x Hx Heq.
    rewrite Heq, str_eqb_refl in Hx. discriminate.
  - destruct H as (pre & post & Hl & Hr & Hpre). split; [discriminate|].
    exists pre, r, post. repeat split; [exact Hl | apply str_eqb_eq; exact Hr |].
    eapply Forall_impl; [|exact Hpre]. cbv beta. intros x Hx Heq.
    rewrite Heq, str_eqb_refl in Hx. discriminate.
Qed.

(** X10: the lookups never write: [airtable_find_by_name],
    [get_layout_record_id], [get_property_category_id],
    [get_property_kind_id] and [get_price_range_id] return without raising
    and leave the world, store included, exactly as it was. *)
Theorem lookups_never_write (table_id nm : str) (w : world tstate) :
  (exists o, airtable_find_by_name table_id nm w = (Ok o, w)) /\
  (exists o, get_layout_record_id env nm w = (Ok o, w)) /\
  (exists o, get_property_category_id env nm w = (Ok o, w)) /\
  (exists o, get_property_kind_id env nm w = (Ok o, w)) /\
  (exists o, get_price_range_id env nm w = (Ok o, w)).
Proof.
  split; [rewrite find_result; eauto|].
  unfold get_layout_record_id, get_property_category_id, get_property_kind_id,
    get_price_range_id.
  destruct (is_empty nm); unfold ret; rewrite ?find_result; eauto 10.
Qed.

Lemma create_rows (table_id nm : str) (st : store) :
  rows (snd (table_create st table_id nm)) table_id
  = rows st table_id ++ [ {| id := next_id st; Name := nm |} ] /\
  (forall t, t <> table_id -> rows (snd (table_create st table_id nm)) t = rows st t) /\
  next_id (snd (table_create st table_id nm)) = Pos.succ (next_id st).
Proof.
  unfold table_create. cbn [snd rows next_id]. rewrite str_eqb_refl.
  split; [reflexivity|]. split; [|reflexivity].
  intros t Ht. rewrite (str_eqb_neq _ _ Ht). reflexivity.
Qed.

Lemma get_or_create_result (table_id nm : str) (w : world tstate) :
  airtable_get_or_create_by_name table_id nm w =
  match (if is_empty nm then None
         else match table_all_by_name (base w) table_id nm with
              | r :: _ => Some (id r)
              | [] => None
              end) with
  | Some i => (Ok i, w)
  | None => (Ok (next_id (base w)),
             {| service := service w;
                base := snd (table_create (base w) table_id nm) |})
  end.
Proof.
  unfold airtable_get_or_create_by_name, bind. rewrite find_result.
  destruct (if is_empty nm then None else _); reflexivity.
Qed.

(** X11: with the empty name, get-or-create is not idempotent: the lookup
    gives [None] for an empty name, so every call creates one more row with
    an empty Name and returns a new identifier. *)
Theorem get_or_create_empty_name_duplicates (table_id : str) (w : world tstate) :
  exists w1 w2,
    airtable_get_or_create_by_name table_id [] w = (Ok (next_id (base w)), w1) /\
    airtable_find_by_name table_id [] w1 = (Ok None, w1) /\
    airtable_get_or_create_by_name table_id [] w1
      = (Ok (Pos.succ (next_id (base w))), w2) /\
    rows (base w2) table_id
      = rows (base w) table_id
        ++ [ {| id := next_id (base w); Name := [] |};
             {| id := Pos.succ (next_id (base w)); Name := [] |} ].
Proof.
  set (st1 := snd (table_create (base w) table_id [])).
  set (st2 := snd (table_create st1 table_id [])).
  exists {| service := service w; base := st1 |},
         {| service := service w; base := st2 |}.
  rewrite !get_or_create_result, find_result. cbn [is_empty base service].
  destruct (create_rows table_id [] (base w)) as (H1 & _ & H3).
  destruct (create_rows table_id [] st1) as (H1' & _ & _).
  fold st1 in H1, H3. fold st2 in H1'.
  split; [reflexivity|]. split; [reflexivity|].
  split; [rewrite H3; reflexivity|].
  rewrite H1', H1, H3, <- app_assoc. reflexivity.
Qed.

Lemma get_or_create_effect (table_id nm : str) (w : world tstate) :
  exists i w',
    airtable_get_or_create_by_name table_id nm w = (Ok i, w') /\
    service w' = service w /\
    (exists r, In r (rows (base w') table_id) /\ id r = i /\ Name r = nm) /\
    (rows (base w') table_id = rows (base w) table_id \/
     rows (base w') table_id
       = rows (base w) table_id ++ [ {| id := i; Name := nm |} ]) /\
    (forall t, t <> table_id -> rows (base w') t = rows (base w) t).
Proof.
  rewrite get_or_create_result.
  destruct (is_empty nm) eqn:En.
  - eexists _, _. split; [reflexivity|]. cbn [service base].
    destruct (create_rows table_id nm (base w)) as (H1 & H2 & _).
    split; [reflexivity|]. split; [|split; [right; exact H1 | exact H2]].
    eexists. rewrite H1. split; [apply in_or_app; right; left; reflexivity|].
    split; reflexivity.
  - unfold table_all_by_name.
    pose proof (filter_first (fun r => str_eqb (Name r) nm)
                  (rows (base w) table_id)) as H.
    destruct (filter _ _) as [|r rest].
    + eexists _, _. split; [reflexivity|]. cbn [service base].
      destruct (create_rows table_id nm (base w)) as (H1 & H2 & _).
      split; [reflexivity|]. split; [|split; [right; exact H1 | exact H2]].
      eexists. rewrite H1. split; [apply in_or_app; right; left; reflexivity|].
      split; reflexivity.
    + destruct H as (pre & post & Hl & Hr & _).
      exists (id r), w. split; [reflexivity|]. split; [reflexivity|].
      split; [|split; [left; reflexivity | reflexivity]].
      exists r. rewrite Hl. split; [apply in_or_app; right; left; reflexivity|].
      split; [reflexivity | apply str_eqb_eq; exact Hr].
Qed.

End Store.


Section Frames.
Context {tstate : Type}.
Variable translate : tstate -> str -> option str * tstate.
Variable env : config.
Variable tables : list str.

Lemma run_frame_same (w w' : world tstate) :
  base w' = base w -> run_frame tables w w'.
Proof.
  intros H. split; intros t; rewrite H; [exists []; symmetry; apply app_nil_r | reflexivity].
Qed.

Lemma run_frame_trans (w1 w2 w3 : world tstate) :
  run_frame tables w1 w2 -> run_frame tables w2 w3 -> run_frame tables w1 w3.
Proof.
  intros [E1 U1] [E2 U2]. split; intros t.
  - destruct (E1 t) as [a1 H1]. destruct (E2 t) as [a2 H2].
    exists (a1 ++ a2). rewrite H2, H1, app_assoc. reflexivity.
  - intros Ht. rewrite (U2 t Ht). apply U1. exact Ht.
Qed.

Lemma frames_ret {A : Type} (a : A) : frames tables (ret (tstate := tstate) a).
Proof. intros w r w' H. inversion H; subst. apply run_frame_same. reflexivity. Qed.

Lemma frames_lift {A : Type} (x : result A) : frames tables (lift (tstate := tstate) x).
Proof. intros w r w' H. inversion H; subst. apply run_frame_same. reflexivity. Qed.

Lemma frames_bind {A B : Type} (c : M tstate A) (k : A -> M tstate B) :
  frames tables c -> (forall a, frames tables (k a)) -> frames tables (bind c k).
Proof.
  intros Hc Hk w r w' H. unfold bind in H.
  destruct (c w) as [[a|e] w1] eqn:E.
  - eapply run_frame_trans; [exact (Hc _ _ _ E) | exact (Hk a _ _ _ H)].
  - inversion H; subst. exact (Hc _ _ _ E).
Qed.

Lemma frames_safe_translate (text : str) : frames tables (safe_translate translate text).
Proof.
  intros w r w' H. apply run_frame_same. unfold safe_translate in H.
  destruct (is_empty text); [inversion H; reflexivity|].
  destruct (translate (service w) text) as [[x|] s']; inversion H; reflexivity.
Qed.

Lemma frames_find (table_id nm : str) :
  frames tables (airtable_find_by_name (tstate := tstate) table_id nm).
Proof.
  intros w r w' H. rewrite find_result in H. inversion H; subst.
  apply run_frame_same. reflexivity.
Qed.

Lemma frames_get_or_create (table_id nm : str) :
  In table_id tables ->
  frames tables (airtable_get_or_create_by_name (tstate := tstate) table_id nm).
Proof.
  intros Hin w r w' H.
  destruct (get_or_create_effect table_id nm w)
    as (i & w1 & Hr & _ & _ & Hrows & Hother).
  rewrite Hr in H. inversion H; subst. split; intros t.
  - destruct (list_eq_dec Z.eq_dec t table_id) as [->|Hne].
    + destruct Hrows as [->| ->]; [exists []; symmetry; apply app_nil_r | eauto].
    + rewrite (Hother t Hne). exists []. symmetry. apply app_nil_r.
  - intros Ht. apply Hother. intros ->. contradiction.
Qed.

End Frames.

(** X12: [airtable_get_or_create_by_name] never raises and does not call
    the translation service; the identifier it returns is the one of a row
    of the table that has the given Name; every row that was in the store
    is still there, and no other table has changed. *)
Theorem get_or_create_postcondition :
  forall (tstate : Type) (table_id nm : str) (w : world tstate),
  exists i w',
    airtable_get_or_create_by_name table_id nm w = (Ok i, w') /\
    service w' = service w /\
    (exists r, In r (rows (base w') table_id) /\ id r = i /\ Name r = nm) /\
    store_extends (base w) (base w') /\
    untouched_outside [table_id] (base w) (base w').
Proof.
  intros tstate table_id nm w.
  destruct (get_or_create_effect table_id nm w) as (i & w' & Hr & Hs & Hin & _).
  exists i, w'. split; [exact Hr|]. split; [exact Hs|]. split; [exact Hin|].
  apply (frames_get_or_create [table_id] table_id nm (or_introl eq_refl) w (Ok i) w' Hr).
Qed.

Ltac frames_tac :=
  repeat first
    [ apply frames_ret
    | apply frames_lift
    | apply frames_safe_translate
    | apply frames_find
    | apply frames_get_or_create; cbn [In]; tauto
    | apply frames_bind; [ | intros ? ]
    | match goal with
      | |- frames _ (match ?x with _ => _ end) => destruct x
      end ].

Section Frames2.
Context {tstate : Type}.
Variable translate : tstate -> str -> option str * tstate.
Variable env : config.

Lemma frames_stations_loop (divs : list element) : forall items,
  frames [STATIONS_TABLE_ID env; AREAS_TABLE_ID env] (stations_loop translate divs items).
Proof.
  induction divs as [|div rest IH]; intros items; cbn [stations_loop].
  - apply frames_ret.
  - destruct (is_empty (get_text_strip div)); [apply IH|].
    apply frames_bind; [apply frames_lift|]. intros mins.
    match goal with |- context [is_empty ?x] => destruct (is_empty x) end; [apply IH|].
    apply frames_bind; [frames_tac|]. intros st.
    match goal with |- context [(2 <=? ?n)%nat] => destruct (2 <=? n)%nat end;
      [apply frames_ret | apply IH].
Qed.

Lemma frames_resolve_stations (stations : list (str * option Z)) : forall ids mins,
  frames [STATIONS_TABLE_ID env; AREAS_TABLE_ID env] (resolve_stations (tstate := tstate) env stations ids mins).
Proof.
  induction stations as [|[st m] rest IH]; intros ids mins; cbn [resolve_stations].
  - apply frames_ret.
  - apply frames_bind; [|intros i; apply IH].
    apply frames_get_or_create. left. reflexivity.
Qed.

Lemma frames_gather (url : str) (soup : page) :
  frames [STATIONS_TABLE_ID env; AREAS_TABLE_ID env] (gather translate env url soup).
Proof.
  unfold gather, extract_name, get_layout_record_id, split_address_to_area_and_street,
    get_or_create_area_id, extract_stations_and_minutes, get_property_category_id,
    get_property_kind_id, get_price_range_id.
  frames_tac; try apply frames_stations_loop; try apply frames_resolve_stations.
Qed.

Lemma frames_get_suumo_data (url : str) (soup : page) :
  frames [STATIONS_TABLE_ID env; AREAS_TABLE_ID env] (get_suumo_data translate env url soup).
Proof.
  unfold get_suumo_data. apply frames_bind; [apply frames_gather|].
  intros l. apply frames_lift.
Qed.

End Frames2.

(** X19: whether a run of [get_suumo_data] returns or raises, every row
    that was in the store is still there afterwards, and only the Train
    Stations table and the Property Locations table can have new rows:
    layouts, categories, kinds and price ranges are never written. *)
Theorem run_writes_two_tables_only :
  forall (tstate : Type) (translate : tstate -> str -> option str * tstate)
         (env : config) (url : str) (soup : page) (w : world tstate),
    store_extends (base w) (base (snd (get_suumo_data translate env url soup w))) /\
    untouched_outside [STATIONS_TABLE_ID env; AREAS_TABLE_ID env]
      (base w) (base (snd (get_suumo_data translate env url soup w))).
Proof.
  intros tstate translate env url soup w.
  destruct (get_suumo_data translate env url soup w) as [r w'] eqn:E.
  exact (frames_get_suumo_data translate env url soup w r w' E).
Qed.


Lemma station_alias_spaceless (k a : str) :
  dict_get STATION_ALIASES k = Some a -> spaceless a.
Proof.
  unfold STATION_ALIASES. cbn [dict_get].
  repeat (match goal with
          | |- context [str_eqb ?x k] => destruct (str_eqb x k)
          end;
          [ intros H; inversion H; subst; intros c Hc; vm_compute in Hc;
            repeat (destruct Hc as [<-|Hc]; [reflexivity|]); destruct Hc | ]).
  discriminate.
Qed.

(* ---- how many digits a text holds ---- *)
Lemma skipn_filter_length (p : Z -> bool) (k : nat) : forall l : str,
  (List.length (filter p (skipn k l)) <= List.length (filter p l))%nat.
Proof.
  induction k as [|k IH]; intros l; [cbn; lia|].
  destruct l as [|c t]; [cbn; lia|]. cbn [skipn filter].
  specialize (IH t). destruct (p c); cbn [List.length]; lia.
Qed.

Lemma match_walk_at_length (s ds r : str) :
  match_walk_at s = Some (ds, r) ->
  (List.length ds <= List.length (filter is_digit s))%nat.
Proof.
  unfold match_walk_at.
  assert (H : forall r0, (List.length (filter is_digit r0)
                          <= List.length (filter is_digit s))%nat ->
     match take_while is_digit (drop_while is_space r0),
           drop_while is_space (drop_while is_digit (drop_while is_space r0)) with
     | _ :: _, c :: r3 =>
         if starts_with (py "分") [c]
         then Some (take_while is_digit (drop_while is_space r0), r3) else None
     | _, _ => None
     end = Some (ds, r) ->
     (List.length ds <= List.length (filter is_digit s))%nat).
  { intros r0 Hr0.
    pose proof (take_while_filter_length is_digit (drop_while is_space r0)) as H1.
    pose proof (drop_while_filter_length is_digit is_space r0) as H2.
    set (r1 := drop_while is_space r0) in *.
    destruct (take_while is_digit r1) as [|d0 dt]; [discriminate|].
    destruct (drop_while is_space (drop_while is_digit r1)) as [|c r3]; [discriminate|].
    destruct (starts_with (py "分") [c]); [|discriminate].
    intros E. inversion E; subst. lia. }
  destruct (starts_with (py "歩") s).
  - apply H. apply skipn_filter_length.
  - destruct (starts_with (py "徒歩") s); [|discriminate].
    apply H. apply skipn_filter_length.
Qed.

Lemma search_walk_length (s : str) : forall ds,
  search_walk s = Some ds ->
  (List.length ds <= List.length (filter is_digit s))%nat.
Proof.
  induction s as [|c t IH]; intros ds; cbn [search_walk].
  - destruct (match_walk_at []) as [[d r]|] eqn:E; [|discriminate].
    intros H. inversion H; subst. exact (match_walk_at_length _ _ _ E).
  - destruct (match_walk_at (c :: t)) as [[d r]|] eqn:E.
    + intros H. inversion H; subst. exact (match_walk_at_length _ _ _ E).
    + intros H. specialize (IH ds H). cbn [filter].
      destruct (is_digit c); cbn [List.length]; lia.
Qed.

Lemma parse_minutes_raises (s : str) (e : exn) :
  parse_minutes s = Raise e ->
  e = ValueError /\ (int_max_str_digits < List.length (filter is_digit s))%nat.
Proof.
  unfold parse_minutes. destruct (search_walk s) as [ds|] eqn:E; [|discriminate].
  destruct (int_of_str ds) as [v|e0] eqn:Ev; cbn [rbind]; [discriminate|].
  intros H. inversion H; subst.
  destruct (int_of_str_raises ds e Ev) as [-> Hl]. split; [reflexivity|].
  pose proof (search_walk_length s ds E). lia.
Qed.

Lemma collapse_filter_digits (s : str) : forall b,
  filter is_digit (collapse_spaces b s) = filter is_digit s.
Proof.
  induction s as [|c t IH]; intros b; [reflexivity|].
  cbn [collapse_spaces]. destruct (is_space c) eqn:E.
  - cbn [filter]. rewrite (space_not_digit c E).
    destruct b; [apply IH|]. cbn [filter].
    change (is_digit 32) with false. apply IH.
  - cbn [filter]. rewrite IH. reflexivity.
Qed.

Lemma strip_filter_length (p : Z -> bool) (s : str) :
  (List.length (filter p (strip s)) <= List.length (filter p s))%nat.
Proof.
  unfold strip, rstrip, lstrip.
  rewrite filter_rev_eq, length_rev.
  pose proof (drop_while_filter_length p is_space (rev (drop_while is_space s))) as H1.
  rewrite (filter_rev_eq p (drop_while is_space s)), length_rev in H1.
  pose proof (drop_while_filter_length p is_space s). lia.
Qed.

Lemma normalize_spaces_digits (s : str) :
  (List.length (filter is_digit (normalize_spaces s))
   <= List.length (filter is_digit s))%nat.
Proof.
  unfold normalize_spaces.
  pose proof (strip_filter_length is_digit (collapse_spaces false s)) as H.
  rewrite collapse_filter_digits in H. exact H.
Qed.

Lemma after_last_digits (sep : Z) (s : str) :
  (List.length (filter is_digit (after_last sep s))
   <= List.length (filter is_digit s))%nat.
Proof.
  induction s as [|c t IH]; [cbn; lia|]. cbn [after_last].
  assert (H : (List.length (filter is_digit (after_last sep t))
               <= List.length (filter is_digit (c :: t)))%nat).
  { cbn [filter]. destruct (is_digit c); cbn [List.length]; lia. }
  destruct (c =? sep); [exact H|].
  destruct (existsb (Z.eqb sep) t); [exact H | lia].
Qed.

Section Extract.
Context {tstate : Type}.
Variable translate : tstate -> str -> option str * tstate.
Variable env : config.

Lemma safe_translate_base (text : str) (w : world tstate) :
  exists s w', safe_translate translate text w = (Ok s, w') /\ base w' = base w.
Proof.
  unfold safe_translate. destruct (is_empty text); [eauto|].
  destruct (translate (service w) text) as [[x|] s']; eauto.
Qed.

Lemma station_name_step (st_clean : str) (w : world tstate) :
  exists nm w',
    match dict_get STATION_ALIASES st_clean with
    | Some alias => ret alias
    | None => bind (safe_translate translate st_clean)
                   (fun en => ret (normalize_station_en en))
    end w = (Ok nm, w') /\ base w' = base w /\ spaceless nm.
Proof.
  destruct (dict_get STATION_ALIASES st_clean) as [a|] eqn:E.
  - exists a, w. repeat split. eapply station_alias_spaceless. exact E.
  - destruct (safe_translate_base st_clean w) as (s & w' & Hs & Hb).
    exists (normalize_station_en s), w'. unfold bind. rewrite Hs.
    repeat split; [exact Hb|]. apply normalize_station_en_spaceless.
Qed.

(** One round of the loop over the access lines. *)
Lemma stations_loop_step (div : element) (rest : list element)
    (items : list (str * option Z)) (w : world tstate) :
  stations_loop translate (div :: rest) items w =
  let raw := get_text_strip div in
  let st_part :=
    normalize_spaces (if contains (py "/") raw then after_last 47 raw else raw) in
  let st_clean := strip (replace (py "駅") [] (sub_walk 0 st_part)) in
  if is_empty raw then stations_loop translate rest items w
  else
    match parse_minutes st_part with
    | Raise e => (Raise e, w)
    | Ok minutes =>
        if is_empty st_clean then stations_loop translate rest items w
        else
          match match dict_get STATION_ALIASES st_clean with
                | Some alias => ret alias
                | None => bind (safe_translate translate st_clean)
                               (fun en => ret (normalize_station_en en))
                end w with
          | (Ok nm, w1) =>
              if (2 <=? List.length (items ++ [(nm, minutes)]))%nat
              then (Ok (items ++ [(nm, minutes)]), w1)
              else stations_loop translate rest (items ++ [(nm, minutes)]) w1
          | (Raise e, w1) => (Raise e, w1)
          end
    end.
Proof.
  cbn [stations_loop]. cbv zeta.
  destruct (is_empty (get_text_strip div)); [reflexivity|].
  unfold bind at 1, lift at 1.
  destruct (parse_minutes _) as [mins|e]; [|reflexivity].
  match goal with |- context [is_empty ?x] => destruct (is_empty x) end; [reflexivity|].
  unfold bind at 1.
  match goal with |- context [match ?c w with _ => _ end] => destruct (c w) as [[nm|e] w1] end;
    [|reflexivity].
  match goal with |- context [(2 <=? ?n)%nat] => destruct (2 <=? n)%nat end; reflexivity.
Qed.

Lemma stations_loop_total (divs : list element) : forall items (w : world tstate),
  exists w',
    base w' = base w /\
    ((exists r,
        stations_loop translate divs items w = (Ok r, w') /\
        ((List.length items < 2)%nat -> (List.length r <= 2)%nat) /\
        (Forall (fun p => spaceless (fst p)) items ->
         Forall (fun p => spaceless (fst p)) r))
     \/
     (stations_loop translate divs items w = (Raise ValueError, w') /\
      exists div, In div divs /\ many_digits (get_text_strip div))).
Proof.
  induction divs as [|div rest IH]; intros items w.
  - exists w. split; [reflexivity|]. left. exists items. repeat split; auto. lia.
  - assert (Hskip : exists w', base w' = base w /\
      ((exists r, stations_loop translate rest items w = (Ok r, w') /\
          ((List.length items < 2)%nat -> (List.length r <= 2)%nat) /\
          (Forall (fun p => spaceless (fst p)) items ->
           Forall (fun p => spaceless (fst p)) r))
       \/ (stations_loop translate rest items w = (Raise ValueError, w') /\
           exists d, In d (div :: rest) /\ many_digits (get_text_strip d)))).
    { destruct (IH items w) as (w' & Hb & [H|(H & d & Hd & Hm)]);
        exists w'; (split; [exact Hb|]); [left; exact H|].
      right. split; [exact H|]. exists d. split; [right; exact Hd | exact Hm]. }
    rewrite stations_loop_step. cbv zeta.
    destruct (is_empty (get_text_strip div)); [exact Hskip|].
    match goal with |- context [parse_minutes ?x] =>
      destruct (parse_minutes x) as [mins|e] eqn:Em end.
    + match goal with |- context [is_empty ?x] => destruct (is_empty x) eqn:Ec end;
        [exact Hskip|]. clear Hskip.
      match goal with |- context [dict_get STATION_ALIASES ?x] =>
        destruct (station_name_step x w) as (nm & w1 & Hn & Hb & Hsp) end.
      rewrite Hn.
      match goal with |- context [(2 <=? ?n)%nat] =>
        destruct (Nat.leb_spec 2 n) as [E|E] end.
      * exists w1. split; [exact Hb|]. left. eexists. split; [reflexivity|].
        rewrite length_app in *. cbn [List.length] in *. split; [lia|].
        intros HF. apply Forall_app. split; [exact HF|].
        constructor; [exact Hsp|constructor].
      * match goal with |- context [stations_loop translate rest ?it w1] =>
          destruct (IH it w1) as (w' & Hb' & H) end.
        exists w'. split; [congruence|].
        destruct H as [(r & Hr & Hlen & HF)|(H & d & Hd & Hm)].
        -- left. exists r. split; [exact Hr|].
           split; [intros _; apply Hlen; exact E|].
           intros HF0. apply HF. apply Forall_app. split; [exact HF0|].
           constructor; [exact Hsp|constructor].
        -- right. split; [exact H|]. exists d. split; [right; exact Hd | exact Hm].
    + destruct (parse_minutes_raises _ _ Em) as [-> Hlen].
      exists w. split; [reflexivity|]. right. split; [reflexivity|].
      exists div. split; [left; reflexivity|]. unfold many_digits.
      match type of Hlen with context [normalize_spaces ?x] =>
        pose proof (normalize_spaces_digits x) as H1 end.
      destruct (contains (py "/") (get_text_strip div)).
      * pose proof (after_last_digits 47 (get_text_strip div)). lia.
      * lia.
Qed.

(** X14: [extract_stations_and_minutes] leaves the store alone.  It
    returns at most two stations, each under a name free of whitespace,
    unless an access line holds more digits than [int] accepts: the only
    error it raises is the [ValueError] of [int] on the walking minutes,
    and then some access line holds more than 4300 digits. *)
Theorem extract_stations_up_to_two (soup : page) (w : world tstate) :
  exists w',
    base w' = base w /\
    ((exists r,
        extract_stations_and_minutes translate soup w = (Ok r, w') /\
        (List.length r <= 2)%nat /\
        Forall (fun p => spaceless (fst p)) r)
     \/
     (extract_stations_and_minutes translate soup w = (Raise ValueError, w') /\
      exists divs div,
        th_station soup = Some (Some divs) /\ In div divs /\
        many_digits (get_text_strip div))).
Proof.
  unfold extract_stations_and_minutes.
  destruct (th_station soup) as [[divs|]|];
    try (exists w; split; [reflexivity|]; left; exists [];
         repeat split; [cbn; lia | constructor]).
  destruct (stations_loop_total divs [] w) as (w' & Hb & H).
  exists w'. split; [exact Hb|].
  destruct H as [(r & Hr & Hlen & HF)|(Hr & div & Hd & Hm)].
  - left. exists r. split; [exact Hr|].
    split; [apply Hlen; cbn; lia | apply HF; constructor].
  - right. split; [exact Hr|]. exists divs, div. auto.
Qed.

(** X13: [get_or_create_station_id] never raises; it returns [None]
    exactly for the empty name; it changes no table other than Train
    Stations, and there it adds nothing or one row at the end, whose
    identifier it returns and whose Name holds no whitespace. *)
Theorem station_id_adds_at_most_one_row (station : str) (w : world tstate) :
  exists o w',
    get_or_create_station_id translate env station w = (Ok o, w') /\
    (o = None <-> station = []) /\
    (forall t, t <> STATIONS_TABLE_ID env -> rows (base w') t = rows (base w) t) /\
    (rows (base w') (STATIONS_TABLE_ID env) = rows (base w) (STATIONS_TABLE_ID env) \/
     exists i nm,
       o = Some i /\ spaceless nm /\
       rows (base w') (STATIONS_TABLE_ID env)
       = rows (base w) (STATIONS_TABLE_ID env) ++ [ {| id := i; Name := nm |} ]).
Proof.
  unfold get_or_create_station_id.
  destruct station as [|c0 t0]; [exists None, w; repeat split; auto|].
  cbn [is_empty].
  destruct (station_name_step (c0 :: t0) w) as (nm & w1 & Hn & Hb & Hsp).
  unfold bind at 1. rewrite Hn.
  unfold bind at 1. rewrite find_result.
  match goal with |- context [match ?x with Some _ => ret _ | None => _ end w1] =>
    destruct x as [i|] end.
  - exists (Some i), w1. unfold ret. split; [reflexivity|].
    split; [split; discriminate|]. split; [intros; rewrite Hb; reflexivity|].
    left. rewrite Hb. reflexivity.
  - unfold bind at 1. rewrite find_result.
    match goal with |- context [match ?x with Some _ => ret _ | None => _ end w1] =>
    destruct x as [i|] end.
    + exists (Some i), w1. unfold ret. split; [reflexivity|].
      split; [split; discriminate|]. split; [intros; rewrite Hb; reflexivity|].
      left. rewrite Hb. reflexivity.
    + destruct (get_or_create_effect (STATIONS_TABLE_ID env) nm w1)
        as (i & w2 & Hr & _ & _ & Hrows & Hother).
      unfold bind. rewrite Hr. exists (Some i), w2. unfold ret.
      split; [reflexivity|]. split; [split; discriminate|].
      split; [intros t Ht; rewrite (Hother t Ht), Hb; reflexivity|].
      destruct Hrows as [H|H]; [left; rewrite H, Hb; reflexivity|].
      right. exists i, nm. rewrite H, Hb. repeat split. exact Hsp.
Qed.

End Extract.


Lemma img_url_some (i : img) (u : str) :
  img_url i = Some u ->
  starts_with (py "http") u = true /\ u <> [] /\
  (data_src i = Some u \/ src i = Some u).
Proof.
  unfold img_url.
  assert (H : forall s : option str,
             match s with
             | Some u0 => if negb (is_empty u0) && starts_with (py "http") u0
                          then Some u0 else None
             | None => None
             end = Some u ->
             starts_with (py "http") u = true /\ u <> [] /\ s = Some u).
  { intros [u0|]; [|discriminate].
    destruct (negb (is_empty u0) && starts_with (py "http") u0) eqn:E; [|discriminate].
    intros H. inversion H; subst. apply andb_prop in E. destruct E as [E1 E2].
    split; [exact E2|]. split; [|reflexivity]. destruct u; [discriminate|discriminate]. }
  destruct (data_src i) as [d|]; [destruct (is_empty d)|]; intros Hu.
  - apply (H (src i)) in Hu. tauto.
  - apply (H (Some d)) in Hu. tauto.
  - apply (H (src i)) in Hu. tauto.
Qed.

(** X15: [extract_images] loses and repeats nothing: cover, plan and
    gallery, in this order, are the accepted URLs of the page in page
    order; there is no plan without a cover and no gallery without a
    plan; every accepted URL starts with http and is the data-src or the
    src of an image of the gallery. *)
Theorem extract_images_partition (soup : page) :
  let '(cover, plan, gallery) := extract_images soup in
  opt_list cover ++ opt_list plan ++ gallery = accepted_urls soup /\
  (cover = None -> plan = None) /\
  (plan = None -> gallery = []) /\
  Forall (fun u => starts_with (py "http") u = true /\
                   exists i, In i (gallery_imgs soup) /\
                             (data_src i = Some u \/ src i = Some u))
         (accepted_urls soup).
Proof.
  unfold extract_images. fold (accepted_urls soup).
  split; [|split; [|split]].
  - destruct (accepted_urls soup) as [|a [|b l]]; reflexivity.
  - destruct (accepted_urls soup) as [|a [|b l]]; cbn; congruence.
  - destruct (accepted_urls soup) as [|a [|b l]]; cbn; congruence.
  - apply Forall_forall. intros u Hu. unfold accepted_urls in Hu.
    apply in_flat_map in Hu. destruct Hu as (i & Hi & Hu).
    destruct (img_url i) as [u0|] eqn:E; [|destruct Hu].
    destruct Hu as [<-|[]]. apply img_url_some in E.
    split; [tauto|]. exists i. tauto.
Qed.

Lemma find_address_skip (pre rest : list (option element * option element)) :
  Forall unlabelled_row pre -> find_address (pre ++ rest) = find_address rest.
Proof.
  induction 1 as [|[th td] pre Hrow _ IH]; [reflexivity|].
  cbn [app find_address]. unfold unlabelled_row in Hrow. cbn [fst] in Hrow.
  destruct th as [h|]; [rewrite Hrow|]; exact IH.
Qed.

(** X16: [extract_address_jp] is decided by the first row whose header
    mentions 所在地: the result is the stripped text of its data cell, and
    an [AttributeError] when that row has no data cell, whatever the later
    rows hold; without such a row the result is [None]. *)
Theorem address_from_first_labelled_row (soup : page)
    (pre : list (option element * option element)) :
  Forall unlabelled_row pre ->
  (view_table_rows soup = pre -> extract_address_jp soup = Ok None) /\
  (forall th td post,
     view_table_rows soup = pre ++ (Some th, td) :: post ->
     contains (py "所在地") (get_text_strip th) = true ->
     extract_address_jp soup =
     match td with
     | Some d => Ok (Some (get_text_strip d))
     | None => Raise AttributeError
     end).
Proof.
  intros Hpre. unfold extract_address_jp. split.
  - intros ->. rewrite <- (app_nil_r pre), find_address_skip by exact Hpre.
    reflexivity.
  - intros th td post -> Hth. rewrite find_address_skip by exact Hpre.
    cbn [find_address]. rewrite Hth. reflexivity.
Qed.

Lemma find_mgmt_skip (pre rest : list element) :
  Forall not_fee_span pre -> find_mgmt (pre ++ rest) = find_mgmt rest.
Proof.
  induction 1 as [|sp pre Hsp _ IH]; [reflexivity|].
  cbn [app find_mgmt]. unfold not_fee_span in Hsp. rewrite Hsp. exact IH.
Qed.

(** X17: in [extract_rent_and_fee] the management fee comes from the
    first span that mentions 管理費 or 共益費, later spans are not looked
    at; without such a span the fee is 0. *)
Theorem management_fee_from_first_fee_span (soup : page) (pre : list element) :
  Forall not_fee_span pre ->
  (note_info_spans soup = pre ->
   forall rent, extract_rent_and_fee soup = Ok rent -> snd rent = py "0") /\
  (forall sp post rent,
     note_info_spans soup = pre ++ sp :: post ->
     ~ not_fee_span sp ->
     extract_rent_and_fee soup = Ok rent ->
     parse_price (get_text_strip sp) = Ok (snd rent)).
Proof.
  intros Hpre. unfold extract_rent_and_fee. split.
  - intros -> rent. rewrite <- (app_nil_r pre), find_mgmt_skip by exact Hpre.
    cbn [find_mgmt].
    destruct (match rent_emphasis soup with
              | Some t => parse_price (get_text_strip t) | None => Ok (py "0") end);
      cbn [rbind]; intros H; inversion H; reflexivity.
  - intros sp post rent -> Hsp. rewrite find_mgmt_skip by exact Hpre.
    cbn [find_mgmt]. unfold not_fee_span in Hsp.
    destruct (contains (py "管理費") (get_text sp) || contains (py "共益費") (get_text sp));
      [|exfalso; apply Hsp; reflexivity].
    destruct (match rent_emphasis soup with
              | Some t => parse_price (get_text_strip t) | None => Ok (py "0") end);
      cbn [rbind]; [|discriminate].
    destruct (parse_price (get_text_strip sp)); cbn [rbind]; [|discriminate].
    intros H; inversion H; reflexivity.
Qed.

Section Layout.
Context {tstate : Type}.
Variable env : config.

(** X18: whitespace around the layout name does not change what
    [get_layout_record_id] returns. *)
Theorem layout_lookup_ignores_padding (w1 s w2 : str) (w : world tstate) :
  forallb is_space w1 = true -> forallb is_space w2 = true ->
  get_layout_record_id env (w1 ++ s ++ w2) w = get_layout_record_id env s w.
Proof.
  intros H1 H2. unfold get_layout_record_id.
  rewrite (strip_padding w1 s w2 H1 H2).
  destruct s as [|c t].
  - rewrite app_nil_l.
    assert (Hs : strip [] = []) by reflexivity. rewrite Hs.
    change (str_eqb [] (py "ワンルーム")) with false. cbv iota.
    destruct (is_empty (w1 ++ w2)); [reflexivity|].
    rewrite find_result. reflexivity.
  - cbn [is_empty].
    destruct (w1 ++ (c :: t) ++ w2) as [|x r] eqn:E; [|reflexivity].
    destruct w1; discriminate.
Qed.
End Layout.


Section Run.
Context {tstate : Type}.
Variable translate : tstate -> str -> option str * tstate.
Variable env : config.

Lemma run_ok (url : str) (soup : page) (w w' : world tstate) (d : payload) :
  get_suumo_data translate env url soup w = (Ok d, w') ->
  exists l, gather translate env url soup w = (Ok l, w') /\ build_payload l = Ok d.
Proof.
  intros H. unfold get_suumo_data in H. apply bind_ok in H.
  destruct H as (l & w1 & Hg & Hb). apply lift_ok in Hb. destruct Hb as [Hb ->].
  exists l. auto.
Qed.

Lemma payload_of_locals (l : locals) (d : payload) :
  build_payload l = Ok d ->
  dict_get d (py "Property Price") = Some (VStr (rent l)) /\
  dict_get d (py "Property Categories") = Some (link (prop_cat_id l)) /\
  dict_get d (py "Property Type") = Some (link (kind_id l)) /\
  dict_get d (py "Property Price Range") = Some (link (pr_id l)).
Proof.
  unfold build_payload.
  destruct (index (station_ids l) 0); cbn [rbind]; [|discriminate].
  destruct (index (minutes_list l) 0); cbn [rbind]; [|discriminate].
  destruct (index (station_ids l) 1); cbn [rbind]; [|discriminate].
  destruct (index (minutes_list l) 1); cbn [rbind]; [|discriminate].
  intros H. inversion H; subst. repeat split.
Qed.

(** X20: when the building type of the page is neither マンション nor
    一戸建て, a payload that the run returns has an empty Property
    Categories list. *)
Theorem unknown_category_gives_empty_list
    (url : str) (soup : page) (w w' : world tstate) (d : payload) :
  (forall k, extract_property_category_jp soup = Some k ->
             strip k <> py "マンション" /\ strip k <> py "一戸建て") ->
  get_suumo_data translate env url soup w = (Ok d, w') ->
  dict_get d (py "Property Categories") = Some (VRefs []).
Proof.
  intros Hk H. destruct (run_ok _ _ _ _ _ H) as (l & Hg & Hb).
  destruct (payload_of_locals l d Hb) as (_ & Hc & _). rewrite Hc.
  assert (Hen : match extract_property_category_jp soup with
                | Some k => if is_empty k then None else map_property_category_jp_to_en k
                | None => None
                end = None).
  { destruct (extract_property_category_jp soup) as [k|]; [|reflexivity].
    destruct (is_empty k); [reflexivity|].
    destruct (Hk k eq_refl) as [H1 H2]. unfold map_property_category_jp_to_en.
    rewrite (str_eqb_neq _ _ H1), (str_eqb_neq _ _ H2). reflexivity. }
  invert_gather Hg. cbn [prop_cat_id].
  match goal with
  | Hp : match match extract_property_category_jp soup with _ => _ end with _ => _ end _ = _ |- _ =>
      rewrite Hen in Hp; inversion Hp; subst
  end.
  reflexivity.
Qed.

(** X21: when the URL holds none of chintai, /ms/chuko/ and
    /ms/shinchiku/, a payload that the run returns has an empty Property
    Type list. *)
Theorem url_without_kind_gives_empty_list
    (url : str) (soup : page) (w w' : world tstate) (d : payload) :
  contains (py "chintai") url = false ->
  contains (py "/ms/chuko/") url = false ->
  contains (py "/ms/shinchiku/") url = false ->
  get_suumo_data translate env url soup w = (Ok d, w') ->
  dict_get d (py "Property Type") = Some (VRefs []).
Proof.
  intros H1 H2 H3 H. destruct (run_ok _ _ _ _ _ H) as (l & Hg & Hb).
  destruct (payload_of_locals l d Hb) as (_ & _ & Hc & _). rewrite Hc.
  assert (Hkind : map_property_kind_from_url url = None).
  { unfold map_property_kind_from_url. rewrite H1, H2, H3. reflexivity. }
  invert_gather Hg. cbn [kind_id].
  match goal with
  | Hp : match map_property_kind_from_url url with _ => _ end _ = _ |- _ =>
      rewrite Hkind in Hp; inversion Hp; subst
  end.
  reflexivity.
Qed.

Lemma rent_value (soup : page) (rent mgmt : str) :
  extract_rent_and_fee soup = Ok (rent, mgmt) ->
  exists n, 0 <= n /\ rent = format_commas n /\
            int_or_zero (replace (py ",") [] rent) = n.
Proof.
  unfold extract_rent_and_fee.
  destruct (rent_emphasis soup) as [tag|].
  - destruct (parse_price (get_text_strip tag)) as [r|] eqn:E; cbn [rbind]; [|discriminate].
    destruct (find_mgmt (note_info_spans soup)); cbn [rbind]; [|discriminate].
    intros H. inversion H; subst.
    destruct (parse_price_value _ _ E) as (n & Hn & ->).
    exists n. split; [exact (proj1 Hn)|]. split; [reflexivity|].
    rewrite (remove_commas_format n (proj1 Hn)). apply int_or_zero_digits. exact Hn.
  - cbn [rbind]. destruct (find_mgmt (note_info_spans soup)); cbn [rbind]; [|discriminate].
    intros H. inversion H; subst. exists 0. split; [lia|]. split; reflexivity.
Qed.

Lemma price_range_label_nonempty (n : Z) : is_empty (price_range_label n) = false.
Proof.
  unfold price_range_label.
  repeat match goal with |- context [if ?b then _ else _] => destruct b end;
    reflexivity.
Qed.

(** X22: in a payload that the run returns, Property Price is a
    non-negative integer printed with thousands separators, and Property
    Price Range is the link to what the Price Ranges table holds, after
    the run, under the label of the band of that integer. *)
Theorem price_range_follows_price
    (url : str) (soup : page) (w w' : world tstate) (d : payload) :
  get_suumo_data translate env url soup w = (Ok d, w') ->
  exists n pr,
    0 <= n /\
    dict_get d (py "Property Price") = Some (VStr (format_commas n)) /\
    airtable_find_by_name (PRICE_RANGE_TABLE_ID env) (price_range_label n) w'
      = (Ok pr, w') /\
    dict_get d (py "Property Price Range") = Some (link pr).
Proof.
  intros H. destruct (run_ok _ _ _ _ _ H) as (l & Hg & Hb).
  destruct (payload_of_locals l d Hb) as (Hp & _ & _ & Hr). rewrite Hp, Hr.
  invert_gather Hg. cbn [rent pr_id].
  match goal with
  | Hl : lift (extract_rent_and_fee soup) _ = _ |- _ =>
      apply lift_ok in Hl; destruct Hl as [Hl _];
      destruct (rent_value _ _ _ Hl) as (n & Hn & -> & Hi)
  end.
  match goal with
  | Hq : get_price_range_id env _ _ = _ |- _ =>
      unfold get_price_range_id in Hq; rewrite Hi in Hq;
      rewrite price_range_label_nonempty in Hq;
      pose proof Hq as Hq'; rewrite find_result in Hq'; inversion Hq'; subst
  end.
  exists n. eexists. split; [exact Hn|]. split; [reflexivity|].
  split; [|reflexivity]. rewrite find_result. reflexivity.
Qed.

End Run.

(* --------------------------------------------------------------------- *)
(** *** Exact amounts and ordered bands *)
(* --------------------------------------------------------------------- *)

Lemma round_half_even_exact (q d : Z) :
  0 < d -> PyFloat.round_half_even (q * d) d = q.
Proof.
  intros Hd. unfold PyFloat.round_half_even.
  rewrite Z.div_mul, Z.mod_mul by lia.
  destruct (Z.ltb_spec (2 * 0) d); [reflexivity | lia].
Qed.

Lemma log2_quotient_bound (N D k : Z) :
  0 < D -> 0 < k < 2 ^ 53 -> N = k * D -> Z.log2 N - Z.log2 D <= 53.
Proof.
  intros HD Hk ->.
  assert (HN : 0 < k * D) by (apply Z.mul_pos_pos; lia).
  pose proof (Z.log2_spec D HD) as [_ HD2].
  assert (Hlt : k * D < 2 ^ (54 + Z.log2 D)).
  { pose proof (Z.log2_nonneg D).
    replace (54 + Z.log2 D) with (53 + Z.succ (Z.log2 D)) by lia.
    rewrite Z.pow_add_r by lia.
    apply Z.mul_lt_mono_nonneg; lia. }
  assert (Z.log2 (k * D) < 54 + Z.log2 D).
  { apply Z.log2_lt_pow2; [exact HN | exact Hlt]. }
  lia.
Qed.

Lemma of_ratio_exact (N D k : Z) :
  0 < D -> 0 <= k < 2 ^ 53 -> N = k * D -> fvalue (PyFloat.of_ratio N D) k.
Proof.
  intros HD Hk HN. rewrite of_ratio_unfold.
  destruct (Z.eqb_spec N 0) as [H0|H0].
  - cbn. assert (k = 0) by nia. lia.
  - assert (Hkpos : 0 < k) by nia.
    pose proof (log2_quotient_bound N D k HD (conj Hkpos (proj2 Hk)) HN) as Hlg.
    cbv zeta.
    set (lg := Z.log2 N - Z.log2 D) in *.
    set (ex := if fst (PyFloat.scaled N D lg) <? snd (PyFloat.scaled N D lg)
               then lg - 1 else lg).
    assert (Hex : ex <= 52).
    { unfold ex. destruct (Z.eq_dec lg 53) as [E|E].
      - rewrite E. unfold PyFloat.scaled.
        replace (0 <=? 53) with true by reflexivity. cbn [fst snd].
        destruct (Z.ltb_spec N (D * 2 ^ 53)); [lia|]. subst N. nia.
      - destruct (_ <? _); lia. }
    set (e := Z.max (ex - 52) (-1074)).
    assert (He : -1074 <= e <= 0) by (unfold e; lia).
    replace (971 <? e) with false by (symmetry; apply Z.ltb_ge; lia).
    replace (e =? 971) with false by (symmetry; apply Z.eqb_neq; lia).
    cbn [orb andb]. unfold fvalue, PyFloat.scaled.
    destruct (Z.leb_spec 0 e) as [Hz|Hneg]; cbn [fst snd].
    + assert (E0 : e = 0) by lia. rewrite E0.
      change (2 ^ 0) with 1. rewrite !Z.mul_1_r. subst N.
      apply round_half_even_exact. exact HD.
    + subst N.
      replace (k * D * 2 ^ (- e)) with ((k * 2 ^ (- e)) * D) by ring.
      apply round_half_even_exact. exact HD.
Qed.

Lemma to_int_exact (x : PyFloat.float) (k : Z) :
  fvalue x k -> PyFloat.to_int x = Ok k.
Proof.
  destruct x as [m e|]; [|intros []]. unfold fvalue, PyFloat.to_int.
  destruct (Z.leb_spec 0 e); intros Hv; [rewrite Hv; reflexivity|].
  subst m. rewrite Z.div_mul; [reflexivity|].
  apply Z.pow_nonzero; lia.
Qed.

Lemma mul_int_exact (x : PyFloat.float) (k c : Z) :
  fvalue x k -> 0 <= k * c < 2 ^ 53 -> fvalue (PyFloat.mul_int x c) (k * c).
Proof.
  destruct x as [m e|]; [|intros []]. unfold fvalue, PyFloat.mul_int.
  destruct (Z.leb_spec 0 e); intros Hv Hb.
  - apply of_ratio_exact; [lia | exact Hb |]. subst k. ring.
  - apply of_ratio_exact; [apply Z.pow_pos_nonneg; lia | exact Hb |].
    subst m. ring.
Qed.

Lemma of_str_digits (n : Z) :
  0 <= n -> PyFloat.of_str (digits n) = Ok (PyFloat.of_ratio n 1).
Proof.
  intros Hn. unfold PyFloat.of_str.
  pose proof (forallb_is_digit_digits n Hn) as Hall.
  rewrite (take_while_all _ _ Hall), (drop_while_all _ _ Hall).
  rewrite (is_empty_false _ (digits_nonempty n)). cbn [andb].
  rewrite app_nil_r, (int_of_digits_digits n Hn). reflexivity.
Qed.

(** X23: a whole number of 万 is converted exactly: for [0 <= n] with
    [n * 10000 < 2^53], the text made of the decimal digits of [n], 万 and
    anything after it gives [n * 10000] printed with thousands
    separators.  The floating-point product is exact on these inputs. *)
Theorem parse_price_whole_man (n : Z) (rest : str) :
  0 <= n -> n * 10000 < 2 ^ 53 ->
  parse_price (str_of_int n ++ py "万" ++ rest) = Ok (format_commas (n * 10000)).
Proof.
  intros Hn Hb. rewrite (str_of_int_nonneg n Hn).
  change (py "万") with [19975]. cbn [app].
  pose proof (digits_nonempty n) as Hne.
  pose proof (digits_ascii n Hn) as Hd.
  pose proof (forallb_is_digit_digits n Hn) as Hall.
  unfold parse_price.
  assert (Hempty : is_empty (digits n ++ 19975 :: rest) = false)
    by (destruct (digits n); [congruence | reflexivity]).
  rewrite Hempty, remove_commas_filter, filter_app.
  assert (Hf : filter (fun x => negb (44 =? x)) (digits n) = digits n).
  { apply forallb_filter_id. apply forallb_forall. intros c Hc.
    rewrite Forall_forall in Hd. exact (ascii_digit_no_comma c (Hd c Hc)). }
  rewrite Hf. cbn [filter]. change (negb (44 =? 19975)) with true. cbv iota.
  set (r' := filter (fun x => negb (44 =? x)) rest).
  change (py "万") with [19975]. rewrite contains_single, existsb_app.
  cbn [existsb]. rewrite Z.eqb_refl, orb_true_l, orb_true_r.
  assert (Hs : search_class (fun c => is_digit c || (c =? 46))
                 (digits n ++ 19975 :: r') = Some (digits n)).
  { unfold search_class.
    assert (Hcls : forallb (fun c => is_digit c || (c =? 46)) (digits n) = true).
    { apply forallb_forall. intros c Hc. rewrite forallb_forall in Hall.
      rewrite (Hall c Hc). reflexivity. }
    rewrite drop_while_stop.
    - rewrite take_while_app_stop; [|exact Hcls | vm_compute; reflexivity].
      destruct (digits n); [congruence | reflexivity].
    - destruct (digits n) as [|c t] eqn:E; [congruence|]. cbn [app].
      cbn [forallb] in Hcls. apply andb_prop in Hcls. destruct Hcls as [Hc _].
      rewrite Hc. reflexivity. }
  rewrite Hs, (of_str_digits n Hn). cbn [rbind].
  assert (Hv : fvalue (PyFloat.of_ratio n 1) n)
    by (apply of_ratio_exact; lia).
  rewrite (to_int_exact _ _ (mul_int_exact _ n 10000 Hv ltac:(lia))).
  reflexivity.
Qed.

(* ---- bands are monotone ---- *)
(** X24: the bands are ordered: an amount that is not smaller never gets
    an earlier label of the list of price-range labels. *)
Theorem price_range_label_monotone (n m : Z) :
  n <= m ->
  exists i j,
    (i <= j < 10)%nat /\
    price_range_label n = nth i price_labels [] /\
    price_range_label m = nth j price_labels [].
Proof.
  intros H. exists (price_band n), (price_band m).
  split; [|split; apply price_range_label_band].
  split; [|apply price_band_lt].
  unfold price_band.
  destruct (Z.leb_spec n 0); destruct (Z.leb_spec m 0); try lia.
  assert (n / 1000 / 100 <= m / 1000 / 100)
    by (apply Z.div_le_mono; [lia|]; apply Z.div_le_mono; lia).
  lia.
Qed.

(* --------------------------------------------------------------------- *)
(** *** Links and rows *)
(* --------------------------------------------------------------------- *)

Lemma store_extends_refl (st : store) : store_extends st st.
Proof. intros t. exists []. symmetry. apply app_nil_r. Qed.

Lemma store_extends_trans (a b c : store) :
  store_extends a b -> store_extends b c -> store_extends a c.
Proof.
  intros H1 H2 t. destruct (H1 t) as [x Hx]. destruct (H2 t) as [y Hy].
  exists (x ++ y). rewrite Hy, Hx, app_assoc. reflexivity.
Qed.

Lemma linked_extends (st st' : store) (table : str) (o : option rec_id) :
  store_extends st st' -> linked st table o -> linked st' table o.
Proof.
  intros He. destruct o as [i|]; [|auto]. intros (r & Hin & Hid).
  destruct (He table) as [added Ha]. exists r. rewrite Ha.
  split; [apply in_or_app; left; exact Hin | exact Hid].
Qed.

Section Links.
Context {tstate : Type}.
Variable translate : tstate -> str -> option str * tstate.
Variable env : config.

Lemma find_linked (table nm : str) (w w' : world tstate) (o : option rec_id) :
  airtable_find_by_name table nm w = (Ok o, w') ->
  w' = w /\ linked (base w) table o.
Proof.
  rewrite find_result. intros H. inversion H; subst. split; [reflexivity|].
  destruct (is_empty nm); [exact I|].
  unfold table_all_by_name.
  pose proof (filter_first (fun r => str_eqb (Name r) nm) (rows (base w') table)) as Hf.
  destruct (filter _ _) as [|r rest]; [exact I|].
  destruct Hf as (pre & post & Hl & _ & _).
  exists r. rewrite Hl. split; [apply in_or_app; right; left; reflexivity | reflexivity].
Qed.

Lemma get_or_create_linked (table nm : str) (w w' : world tstate) (i : rec_id) :
  airtable_get_or_create_by_name table nm w = (Ok i, w') ->
  linked (base w') table (Some i) /\ store_extends (base w) (base w').
Proof.
  intros H.
  destruct (get_or_create_effect table nm w) as (i0 & w0 & Hr & _ & (r & Hin & Hid & _) & _).
  pose proof (proj1 (frames_get_or_create [table] table nm (or_introl eq_refl)
                       w _ _ Hr)) as He.
  rewrite Hr in H. inversion H; subst. split; [exists r; auto | exact He].
Qed.

Lemma resolve_stations_linked (stations : list (str * option Z)) :
  forall ids mins (w w' : world tstate) ids' mins',
    resolve_stations env stations ids mins w = (Ok (ids', mins'), w') ->
    Forall (linked (base w) (STATIONS_TABLE_ID env)) ids ->
    Forall (linked (base w') (STATIONS_TABLE_ID env)) ids' /\
    store_extends (base w) (base w').
Proof.
  induction stations as [|[st m] rest IH]; intros ids mins w w' ids' mins' H Hids;
    cbn [resolve_stations] in H.
  - inversion H; subst. split; [exact Hids | apply store_extends_refl].
  - apply bind_ok in H. destruct H as (i & w1 & Hc & H).
    apply get_or_create_linked in Hc. destruct Hc as [Hl He].
    apply IH in H.
    + destruct H as [HF He']. split; [exact HF|].
      eapply store_extends_trans; eassumption.
    + apply Forall_app. split; [|constructor; [exact Hl | constructor]].
      eapply Forall_impl; [|exact Hids]. intros o. apply linked_extends. exact He.
Qed.

Lemma pad_to_two_linked (st : store) (table : str) (l : list (option rec_id)) :
  Forall (linked st table) l -> Forall (linked st table) (pad_to_two l).
Proof.
  intros H. unfold pad_to_two. cbn [pad_while].
  destruct (List.length l <? 2)%nat; [|exact H].
  destruct (List.length (l ++ [None]) <? 2)%nat;
    repeat (apply Forall_app; split); auto; repeat constructor.
Qed.

Lemma frames_extends {A : Type} (c : M tstate A) (w w' : world tstate) (r : result A) :
  frames [STATIONS_TABLE_ID env; AREAS_TABLE_ID env] c ->
  c w = (r, w') -> store_extends (base w) (base w').
Proof. intros F H. exact (proj1 (F w r w' H)). Qed.

Lemma frames_extract_stations (soup : page) :
  frames [STATIONS_TABLE_ID env; AREAS_TABLE_ID env]
         (extract_stations_and_minutes translate soup).
Proof.
  unfold extract_stations_and_minutes.
  destruct (th_station soup) as [[divs|]|]; frames_tac.
  apply frames_stations_loop.
Qed.

Lemma frames_split_address (address_jp : str) :
  frames [STATIONS_TABLE_ID env; AREAS_TABLE_ID env]
         (split_address_to_area_and_street translate address_jp).
Proof. unfold split_address_to_area_and_street. frames_tac. Qed.

Lemma lookup_linked (table nm : str) (w w' : world tstate) (o : option rec_id) :
  (if is_empty nm then ret None else airtable_find_by_name table nm) w = (Ok o, w') ->
  w' = w /\ linked (base w) table o.
Proof.
  destruct (is_empty nm).
  - intros H. inversion H; subst. split; [reflexivity | exact I].
  - apply find_linked.
Qed.

Lemma ret_none_linked (table : str) (w w' : world tstate) (o : option rec_id) :
  ret None w = (Ok o, w') -> w' = w /\ linked (base w) table o.
Proof. intros H. inversion H; subst. split; [reflexivity | exact I]. Qed.

Lemma area_linked (ward : str) (w w' : world tstate) (o : option rec_id) :
  get_or_create_area_id translate env ward w = (Ok o, w') ->
  linked (base w') (AREAS_TABLE_ID env) o /\ store_extends (base w) (base w').
Proof.
  unfold get_or_create_area_id. destruct (is_empty ward).
  - intros H. inversion H; subst. split; [exact I | apply store_extends_refl].
  - intros H. apply bind_ok in H. destruct H as (en & w1 & Hen & H).
    apply bind_ok in H. destruct H as (i & w2 & Hc & H).
    inversion H; subst.
    apply get_or_create_linked in Hc. destruct Hc as [Hl He].
    split; [exact Hl|].
    eapply store_extends_trans; [|exact He].
    eapply frames_extends; [|exact Hen].
    destruct (dict_get AREA_ALIASES ward); frames_tac.
Qed.

Lemma gather_links
    (url : str) (soup : page) (w w' : world tstate) (d : payload) :
  get_suumo_data translate env url soup w = (Ok d, w') ->
  exists l,
    gather translate env url soup w = (Ok l, w') /\
    build_payload l = Ok d /\
    linked (base w') (LAYOUTS_TABLE_ID env) (layout_id l) /\
    linked (base w') (AREAS_TABLE_ID env) (area_id l) /\
    Forall (linked (base w') (STATIONS_TABLE_ID env)) (station_ids l) /\
    linked (base w') (PROP_TYPES_TABLE_ID env) (prop_cat_id l) /\
    linked (base w') (PROPERTY_KIND_TABLE_ID env) (kind_id l) /\
    linked (base w') (PRICE_RANGE_TABLE_ID env) (pr_id l).
Proof.
  intros H. destruct (run_ok translate env url soup w w' d H) as (l & Hg & Hb).
  exists l. split; [exact Hg|]. split; [exact Hb|].
  clear H Hb. invert_gather Hg.
  cbn [layout_id area_id station_ids prop_cat_id kind_id pr_id].
  repeat match goal with
         | Hl : lift _ _ = (Ok _, _) |- _ =>
             apply lift_ok in Hl; destruct Hl as [_ Hl]; subst
         end.
  (* the lookups leave the world as it is *)
  match goal with
  | Hq : get_price_range_id _ _ _ = _ |- _ =>
      apply lookup_linked in Hq; destruct Hq as [-> Lpr]
  end.
  match goal with
  | Hq : match map_property_kind_from_url url with _ => _ end _ = _ |- _ =>
      assert (Lk : _ = _ /\ linked (base _) (PROPERTY_KIND_TABLE_ID env) _)
        by (destruct (map_property_kind_from_url url) as [k|];
            [destruct (is_empty k); [eapply ret_none_linked | eapply lookup_linked]
            | eapply ret_none_linked]; exact Hq);
      clear Hq; destruct Lk as [-> Lk]
  end.
  match goal with
  | Hq : match match extract_property_category_jp soup with _ => _ end with _ => _ end _ = _ |- _ =>
      assert (Lc : _ = _ /\ linked (base _) (PROP_TYPES_TABLE_ID env) _)
        by (revert Hq;
            match goal with |- match ?x with _ => _ end _ = _ -> _ =>
              destruct x as [c|]; [destruct (is_empty c)|] end;
            intros Hq;
            [eapply ret_none_linked | eapply lookup_linked | eapply ret_none_linked];
            exact Hq);
      clear Hq; destruct Lc as [-> Lc]
  end.
  match goal with
  | Hq : resolve_stations _ _ _ _ _ = _ |- _ =>
      apply resolve_stations_linked in Hq; [|constructor];
      destruct Hq as [Lst Eres]
  end.
  match goal with
  | Hq : extract_stations_and_minutes _ _ _ = _ |- _ =>
      pose proof (frames_extends _ _ _ _ (frames_extract_stations soup) Hq) as Est;
      clear Hq
  end.
  match goal with
  | Hq : match ?ow with Some _ => _ | None => ret None end ?wa = (Ok ?oa, ?wb) |- _ =>
      assert (La : linked (base wb) (AREAS_TABLE_ID env) oa /\
                   store_extends (base wa) (base wb))
        by (destruct ow as [wd|];
            [ destruct (is_empty wd);
              [ inversion Hq; split; [exact I | apply store_extends_refl]
              | apply (area_linked wd); exact Hq ]
            | inversion Hq; split; [exact I | apply store_extends_refl] ]);
      clear Hq; destruct La as [La Earea]
  end.
  match goal with
  | Hq : split_address_to_area_and_street _ _ _ = _ |- _ =>
      pose proof (frames_extends _ _ _ _ (frames_split_address _) Hq) as Esplit;
      clear Hq
  end.
  match goal with
  | Hq : get_layout_record_id _ ?nm ?wa = (Ok ?oa, ?wb) |- _ =>
      assert (Ll : wb = wa /\ linked (base wa) (LAYOUTS_TABLE_ID env) oa)
        by (unfold get_layout_record_id in Hq; destruct (is_empty nm);
            [eapply ret_none_linked | eapply find_linked]; exact Hq);
      clear Hq; destruct Ll as [-> Ll]
  end.
  split; [|split; [|split; [|split; [|split]]]]; try assumption.
  - eapply linked_extends; [|exact Ll].
    repeat (eapply store_extends_trans; [eassumption|]). apply store_extends_refl.
  - eapply linked_extends; [|exact La].
    repeat (eapply store_extends_trans; [eassumption|]). apply store_extends_refl.
  - apply pad_to_two_linked. exact Lst.
Qed.

(** X25: no link of a returned payload dangles: every identifier in a
    link field is the identifier of a row that the table of that field
    holds in the store after the run (layouts, locations, train stations
    for both access fields, categories, kinds, price ranges). *)
Theorem links_point_to_rows
    (url : str) (soup : page) (w w' : world tstate) (d : payload) :
  get_suumo_data translate env url soup w = (Ok d, w') ->
  field_links_to d (py "Property Layout") (base w') (LAYOUTS_TABLE_ID env) /\
  field_links_to d (py "Property Locations") (base w') (AREAS_TABLE_ID env) /\
  field_links_to d (py "Access One: Train Station") (base w') (STATIONS_TABLE_ID env) /\
  field_links_to d (py "Access Two: Train Station") (base w') (STATIONS_TABLE_ID env) /\
  field_links_to d (py "Property Categories") (base w') (PROP_TYPES_TABLE_ID env) /\
  field_links_to d (py "Property Type") (base w') (PROPERTY_KIND_TABLE_ID env) /\
  field_links_to d (py "Property Price Range") (base w') (PRICE_RANGE_TABLE_ID env).
Proof.
  intros H.
  destruct (gather_links url soup w w' d H)
    as (l & Hg & Hb & Ll & La & Lst & Lc & Lk & Lpr).
  destruct (gather_slots translate env url soup w l w' Hg) as [Hs Hm].
  destruct (build_payload_ok l Hs Hm) as (s0 & s1 & m0 & m1 & Es & Em & Hb').
  rewrite Hb' in Hb. inversion Hb; subst d; clear Hb.
  rewrite Es in Lst. inversion Lst as [|? ? L0 Lst']; subst.
  inversion Lst' as [|? ? L1 _]; subst.
  unfold field_links_to.
  repeat split; eexists; (split; [vm_compute; reflexivity | assumption]).
Qed.

End Links.

(* --------------------------------------------------------------------- *)
(** *** Floor size, deposit and access lines *)
(* --------------------------------------------------------------------- *)

Lemma round_exact (x : PyFloat.float) (k : Z) :
  fvalue x k -> PyFloat.round x = Ok k.
Proof.
  destruct x as [m e|]; [|intros []]. unfold fvalue, PyFloat.round.
  destruct (Z.leb_spec 0 e); intros Hv; [rewrite Hv; reflexivity|].
  subst m. rewrite round_half_even_exact; [reflexivity|].
  apply Z.pow_pos_nonneg; lia.
Qed.

Lemma of_str_all_digits (num : str) :
  num <> [] -> forallb is_digit num = true ->
  PyFloat.of_str num = Ok (PyFloat.of_ratio (int_of_digits num) 1).
Proof.
  intros Hne Hall. unfold PyFloat.of_str.
  rewrite (take_while_all _ _ Hall), (drop_while_all _ _ Hall).
  rewrite (is_empty_false _ Hne). cbn [andb].
  rewrite app_nil_r. reflexivity.
Qed.

(** X26: when the floor-size cell holds digits and no dot, the size is the
    number that all its digits spell, those of the unit included, as long as
    it is below [2 ^ 53]: no rounding takes place and nothing is raised. *)
Theorem size_of_whole_number (soup : page) (td : element) :
  th_size soup = Some (Some td) ->
  digits_and_dots (get_text_strip td) <> [] ->
  forallb is_digit (digits_and_dots (get_text_strip td)) = true ->
  int_of_digits (digits_and_dots (get_text_strip td)) < 2 ^ 53 ->
  exists layout,
    extract_layout_and_size soup
    = Ok (layout, str_of_int (int_of_digits (digits_and_dots (get_text_strip td)))).
Proof.
  intros Hth Hne Hall Hb. unfold extract_layout_and_size. rewrite Hth.
  fold (digits_and_dots (get_text_strip td)).
  set (num := digits_and_dots (get_text_strip td)) in *.
  rewrite (is_empty_false _ Hne), (of_str_all_digits num Hne Hall). cbn [rbind].
  rewrite (round_exact _ (int_of_digits num)).
  - cbn [rbind]. eexists. reflexivity.
  - apply of_ratio_exact; [lia | | ring].
    split; [apply int_of_digits_nonneg | exact Hb].
Qed.

Lemma deposit_loop_snoc (spans : list element) : forall (sp : element) (d k : str),
  deposit_loop (spans ++ [sp]) d k =
  rbind (deposit_loop spans d k) (fun dk => deposit_loop [sp] (fst dk) (snd dk)).
Proof.
  induction spans as [|s0 rest IH]; intros sp d k; [reflexivity|].
  cbn [app deposit_loop].
  destruct (contains (py "敷金") (get_text_strip s0)).
  - destruct (parse_price (get_text_strip s0)); cbn [rbind]; [apply IH | reflexivity].
  - destruct (contains (py "礼金") (get_text_strip s0)); [|apply IH].
    destruct (parse_price (get_text_strip s0)); cbn [rbind]; [apply IH | reflexivity].
Qed.

(** X27: the deposit and key-money loop is settled by the last span: one
    that mentions 敷金 sets the deposit, even when it mentions 礼金 too;
    otherwise one that mentions 礼金 sets the key money; any other span
    leaves both as the earlier spans set them.  A price that fails to parse
    fails the loop. *)
Theorem deposit_from_last_span (spans : list element) (sp : element) (d k d' k' : str) :
  deposit_loop spans d k = Ok (d', k') ->
  deposit_loop (spans ++ [sp]) d k =
  if contains (py "敷金") (get_text_strip sp)
  then rbind (parse_price (get_text_strip sp)) (fun x => Ok (x, k'))
  else if contains (py "礼金") (get_text_strip sp)
  then rbind (parse_price (get_text_strip sp)) (fun x => Ok (d', x))
  else Ok (d', k').
Proof.
  intros H. rewrite deposit_loop_snoc, H. cbn [rbind fst snd deposit_loop].
  destruct (contains (py "敷金") (get_text_strip sp)).
  - destruct (parse_price (get_text_strip sp)); reflexivity.
  - destruct (contains (py "礼金") (get_text_strip sp)); [|reflexivity].
    destruct (parse_price (get_text_strip sp)); reflexivity.
Qed.

Lemma plain_name_char_spec (c : Z) :
  plain_name_char c = true ->
  is_space c = false /\ c <> 47 /\ c <> 27497 /\ c <> 24466 /\ c <> 39365.
Proof.
  unfold plain_name_char. intros H.
  repeat (apply andb_prop in H; destruct H as [H ?]).
  repeat match goal with
         | Hx : negb (_ =? _) = true |- _ =>
             apply negb_true_iff in Hx; apply Z.eqb_neq in Hx
         | Hx : negb _ = true |- _ => apply negb_true_iff in Hx
         end.
  auto.
Qed.

Lemma after_last_tail (a tail : str) :
  existsb (Z.eqb 47) tail = false -> after_last 47 (a ++ 47 :: tail) = tail.
Proof.
  intros Ht.
  assert (Hbase : after_last 47 tail = tail).
  { clear a. induction tail as [|c t IH]; [reflexivity|].
    cbn [existsb] in Ht. apply orb_false_elim in Ht. destruct Ht as [Hc Ht].
    cbn [after_last]. rewrite Z.eqb_sym, Hc, Ht. reflexivity. }
  induction a as [|c r IH]; cbn [app after_last].
  - rewrite Z.eqb_refl. exact Hbase.
  - destruct (c =? 47); [exact IH|].
    assert (He : existsb (Z.eqb 47) (r ++ 47 :: tail) = true).
    { rewrite existsb_app. cbn [existsb]. rewrite Z.eqb_refl.
      cbn [orb]. apply orb_true_r. }
    rewrite He. exact IH.
Qed.

Lemma rstrip_fixed (s : str) (c : Z) :
  is_space c = false -> rstrip (s ++ [c]) = s ++ [c].
Proof.
  intros Hc. unfold rstrip. rewrite rev_app_distr. cbn [rev app drop_while].
  rewrite Hc. cbn [rev]. rewrite rev_involutive. reflexivity.
Qed.

Lemma lstrip_app_stop (a b : str) (c : Z) :
  is_space c = false -> lstrip (a ++ c :: b) = lstrip a ++ c :: b.
Proof.
  intros Hc. unfold lstrip. induction a as [|x t IH]; cbn [app drop_while].
  - rewrite Hc. reflexivity.
  - destruct (is_space x); [exact IH | reflexivity].
Qed.

Lemma sub_walk_drop (t : str) : forall k, (List.length t <= k)%nat -> sub_walk k t = [].
Proof.
  induction t as [|c r IH]; intros k Hk; [reflexivity|].
  cbn [List.length] in Hk. destruct k as [|k]; [lia|].
  cbn [sub_walk]. apply IH. lia.
Qed.

Lemma sub_walk_prefix (pre s : str) :
  Forall (fun c => c <> 27497 /\ c <> 24466) pre ->
  sub_walk 0 (pre ++ s) = pre ++ sub_walk 0 s.
Proof.
  induction 1 as [|c p [H1 H2] _ IH]; [reflexivity|].
  cbn [app sub_walk]. rewrite match_walk_at_none.
  - rewrite IH. reflexivity.
  - cbn [starts_with]. apply Z.eqb_neq in H1. rewrite Z.eqb_sym, H1. reflexivity.
  - cbn [starts_with]. apply Z.eqb_neq in H2. rewrite Z.eqb_sym, H2. reflexivity.
Qed.

Lemma existsb_absent (x : Z) (l : str) :
  Forall (fun c => c <> x) l -> existsb (Z.eqb x) l = false.
Proof.
  induction 1 as [|c t Hc _ IH]; [reflexivity|].
  cbn [existsb]. rewrite IH, orb_false_r. apply Z.eqb_neq. congruence.
Qed.

Lemma tidy_app_spaceless (l rest : str) :
  Forall (fun c => is_space c = false) l ->
  tidy false rest = true -> tidy false (l ++ rest) = true.
Proof.
  intros Hl Hr. induction Hl as [|c t Hc _ IH]; [exact Hr|].
  cbn [app tidy]. rewrite Hc. exact IH.
Qed.

Lemma remove_absent (x : Z) (l : str) :
  Forall (fun c => c <> x) l ->
  flat_map (fun c => if x =? c then [] else [c]) l = l.
Proof.
  induction 1 as [|c t Hc _ IH]; [reflexivity|].
  cbn [flat_map]. rewrite IH.
  replace (x =? c) with false by (symmetry; apply Z.eqb_neq; congruence).
  reflexivity.
Qed.

Lemma ascii_digits_not (x : Z) (l : str) :
  x < 48 \/ 57 < x ->
  Forall (fun c => ascii_digit c = true) l -> Forall (fun c => c <> x) l.
Proof.
  intros Hx Hl. eapply Forall_impl; [|exact Hl]. cbv beta. intros c Hc.
  unfold ascii_digit in Hc. apply andb_prop in Hc. destruct Hc as [H1 H2].
  apply Z.leb_le in H1. apply Z.leb_le in H2. lia.
Qed.

Lemma strip_ends (l : str) :
  match l with [] => True | x :: _ => is_space x = false end ->
  (forall pre z, l = pre ++ [z] -> is_space z = false) ->
  strip l = l.
Proof.
  intros Hh Hl. unfold strip. rewrite (lstrip_fixed l Hh).
  destruct l as [|c t]; [reflexivity|].
  destruct (exists_last (l := c :: t) ltac:(discriminate)) as (pre & z & Ez).
  rewrite Ez. apply rstrip_fixed. exact (Hl pre z Ez).
Qed.

Lemma head_app (a b : str) :
  a <> [] ->
  match a with [] => True | x :: _ => is_space x = false end ->
  match a ++ b with [] => True | x :: _ => is_space x = false end.
Proof. destruct a; [congruence | auto]. Qed.

Section Access.
Context {tstate : Type}.
Variable translate : tstate -> str -> option str * tstate.

Variables (line name : str) (n : Z).
Hypothesis Hn : 0 <= n.
Hypothesis Hcap : n < int_cap.
Hypothesis Hname : name <> [].
Hypothesis Hplain : forallb plain_name_char name = true.

Let tail : str := name ++ py "駅 歩" ++ str_of_int n ++ py "分".

Lemma access_name_spec : Forall (fun c => is_space c = false /\ c <> 47 /\ c <> 27497
                                   /\ c <> 24466 /\ c <> 39365) name.
Proof.
  apply Forall_forall. intros c Hc. apply plain_name_char_spec.
  rewrite forallb_forall in Hplain. auto.
Qed.

Lemma access_tail_eq : tail = name ++ 39365 :: 32 :: 27497 :: digits n ++ [20998].
Proof.
  unfold tail. rewrite (str_of_int_nonneg n Hn).
  change (py "駅 歩") with [39365; 32; 27497]. change (py "分") with [20998].
  reflexivity.
Qed.

Lemma access_tail_no_slash : existsb (Z.eqb 47) tail = false.
Proof.
  rewrite access_tail_eq. apply existsb_absent. apply Forall_app. split.
  - eapply Forall_impl; [|exact access_name_spec]. cbv beta. intuition.
  - repeat (constructor; [discriminate|]).
    apply Forall_app. split; [|repeat constructor; discriminate].
    apply ascii_digits_not; [lia | apply digits_ascii; exact Hn].
Qed.

Lemma access_name_head : match name with [] => True | x :: _ => is_space x = false end.
Proof.
  pose proof access_name_spec as Hs. destruct name as [|c t]; [exact I|].
  apply Forall_inv in Hs. tauto.
Qed.

Lemma access_normalize_tail : normalize_spaces tail = tail.
Proof.
  rewrite access_tail_eq. unfold normalize_spaces.
  rewrite (collapse_tidy _ false).
  - apply strip_ends; [apply head_app; [exact Hname | exact access_name_head]|].
    intros pre z Hz.
    replace (name ++ 39365 :: 32 :: 27497 :: digits n ++ [20998])
      with ((name ++ 39365 :: 32 :: 27497 :: digits n) ++ [20998]) in Hz
      by (rewrite <- app_assoc; reflexivity).
    apply app_inj_tail in Hz. destruct Hz as [_ <-]. reflexivity.
  - apply tidy_app_spaceless;
      [eapply Forall_impl; [|exact access_name_spec]; cbv beta; intuition|].
    cbn [tidy].
    change (is_space 39365) with false. change (is_space 32) with true.
    change (is_space 27497) with false. cbv iota. cbn [negb andb Z.eqb Pos.eqb].
    apply tidy_app_spaceless; [|reflexivity].
    eapply Forall_impl; [|exact (digits_ascii n Hn)]. cbv beta.
    intros c Hc. apply ascii_digit_not_space. exact Hc.
Qed.

Lemma access_name_no_walk : existsb (Z.eqb 27497) (name ++ [39365; 32]) = false.
Proof.
  apply existsb_absent. apply Forall_app. split.
  - eapply Forall_impl; [|exact access_name_spec]. cbv beta. intuition.
  - repeat constructor; discriminate.
Qed.

Lemma access_minutes_of_tail : parse_minutes tail = Ok (Some n).
Proof.
  rewrite access_tail_eq. unfold parse_minutes.
  replace (name ++ 39365 :: 32 :: 27497 :: digits n ++ [20998])
    with ((name ++ [39365; 32]) ++ 27497 :: [] ++ digits n ++ [] ++ 20998 :: [])
    by (rewrite <- app_assoc; reflexivity).
  rewrite (search_walk_first [] [] [] n Hn eq_refl eq_refl _ access_name_no_walk).
  rewrite (int_of_str_digits n (conj Hn Hcap)). reflexivity.
Qed.

Lemma access_clean_of_tail :
  strip (replace (py "駅") [] (sub_walk 0 tail)) = name.
Proof.
  rewrite access_tail_eq.
  replace (name ++ 39365 :: 32 :: 27497 :: digits n ++ [20998])
    with ((name ++ [39365; 32]) ++ 27497 :: [] ++ digits n ++ [] ++ 20998 :: [])
    by (rewrite <- app_assoc; reflexivity).
  rewrite sub_walk_prefix.
  - cbn [sub_walk].
    rewrite (match_walk_at_walk [] [] [] n Hn eq_refl eq_refl).
    cbn [drop_while List.length Nat.sub Nat.pred].
    rewrite sub_walk_drop by lia.
    rewrite app_nil_r. change (py "駅") with [39365]. rewrite replace_single.
    rewrite flat_map_app. cbn [flat_map]. rewrite Z.eqb_refl.
    change (39365 =? 32) with false. cbn [app].
    assert (Hf : flat_map (fun x => if 39365 =? x then [] else [x]) name = name).
    { apply remove_absent. eapply Forall_impl; [|exact access_name_spec].
      cbv beta. intuition. }
    rewrite Hf.
    replace (name ++ [32]) with ([] ++ name ++ [32]) by reflexivity.
    rewrite strip_padding by reflexivity.
    apply strip_ends; [exact access_name_head|].
    intros pre z Hz. pose proof access_name_spec as Hs.
    rewrite Forall_forall in Hs. apply (Hs z). rewrite Hz.
    apply in_or_app. right. left. reflexivity.
  - apply Forall_app. split.
    + eapply Forall_impl; [|exact access_name_spec]. cbv beta. intuition.
    + repeat constructor; discriminate.
Qed.

(** X28: an access line of the form [line/NAME駅 歩N分], where NAME is not
    empty and has no whitespace, no slash and none of 歩, 徒 and 駅, and N
    is written with no more digits than [int] accepts, gives exactly one
    station with [N] minutes.  Its name is the curated alias of
    NAME when there is one; otherwise the normalised translation of NAME, or
    the normalised NAME itself when the translation service fails.  The
    store is not touched. *)
Theorem access_line_parsed (soup : page) (w : world tstate) :
  th_station soup
  = Some (Some [[line ++ py "/" ++ name ++ py "駅 歩" ++ str_of_int n ++ py "分"]]) ->
  extract_stations_and_minutes translate soup w
  = match dict_get STATION_ALIASES name with
    | Some alias => (Ok [(alias, Some n)], w)
    | None =>
        match translate (service w) name with
        | (Some en, s') =>
            (Ok [(normalize_station_en en, Some n)],
             {| service := s'; base := base w |})
        | (None, s') =>
            (Ok [(normalize_station_en name, Some n)],
             {| service := s'; base := base w |})
        end
    end.
Proof.
  intros Hth. unfold extract_stations_and_minutes. rewrite Hth. clear Hth.
  change (py "/") with [47]. fold tail. cbn [app].
  assert (Hraw : exists a, get_text_strip [line ++ 47 :: tail] = a ++ 47 :: tail).
  { exists (lstrip line). unfold get_text_strip. cbn [map].
    assert (Hs : strip (line ++ 47 :: tail) = lstrip line ++ 47 :: tail).
    { unfold strip. rewrite (lstrip_app_stop line tail 47 eq_refl).
      rewrite access_tail_eq.
      replace (lstrip line ++ 47 :: name ++ 39365 :: 32 :: 27497 :: digits n ++ [20998])
        with ((lstrip line ++ 47 :: name ++ 39365 :: 32 :: 27497 :: digits n) ++ [20998])
        by (rewrite <- app_assoc; cbn [app]; rewrite <- app_assoc; reflexivity).
      apply rstrip_fixed. reflexivity. }
    rewrite Hs. cbn [filter].
    destruct (lstrip line ++ 47 :: tail) eqn:E; [destruct (lstrip line); discriminate|].
    cbn [is_empty negb List.concat]. rewrite app_nil_r. reflexivity. }
  destruct Hraw as [a Hraw].
  rewrite stations_loop_step. cbv zeta. rewrite Hraw.
  assert (Hne : is_empty (a ++ 47 :: tail) = false) by (destruct a; reflexivity).
  rewrite Hne.
  assert (Hsl : contains (py "/") (a ++ 47 :: tail) = true).
  { change (py "/") with [47]. rewrite contains_single, existsb_app.
    cbn [existsb]. rewrite Z.eqb_refl. cbn [orb]. apply orb_true_r. }
  rewrite Hsl, (after_last_tail a tail access_tail_no_slash), access_normalize_tail.
  rewrite access_minutes_of_tail, access_clean_of_tail, (is_empty_false _ Hname).
  destruct (dict_get STATION_ALIASES name) as [alias|]; [reflexivity|].
  unfold bind, safe_translate. rewrite (is_empty_false _ Hname).
  destruct (translate (service w) name) as [[en|] s']; reflexivity.
Qed.

End Access.

(* ===================================================================== *)
(** ** Instances on the example data *)
(* ===================================================================== *)

Lemma parse_price_fixed_on_results_witness :
  parse_price (py "16.4万円") = Ok (py "164,000") /\
  parse_price (py "164,000") = Ok (py "164,000").
Proof.
  assert (H : parse_price (py "16.4万円") = Ok (py "164,000"))
    by (vm_compute; reflexivity).
  split; [exact H|].
  exact (parse_price_fixed_on_results (py "16.4万円") (py "164,000") H).
Defined.

Lemma rent_int_never_falls_back_witness :
  parse_price (py "16.4万円") = Ok (py "164,000") /\
  exists n, 0 <= n /\ py "164,000" = format_commas n /\
            int_or_zero (replace (py ",") [] (py "164,000")) = n.
Proof.
  assert (H : parse_price (py "16.4万円") = Ok (py "164,000"))
    by (vm_compute; reflexivity).
  split; [exact H|].
  exact (rent_int_never_falls_back (py "16.4万円") (py "164,000") H).
Defined.

Lemma parse_price_raises_only_witness :
  (parse_price (py ".万") = Raise ValueError /\
   (ValueError = ValueError \/ ValueError = OverflowError) /\
   (ValueError = ValueError -> contains (py ".") (py ".万") = true)) /\
  (parse_price long_digit_run = Raise ValueError /\
   (ValueError = ValueError \/ ValueError = OverflowError) /\
   ValueError = ValueError /\
   (int_max_str_digits < List.length (filter is_digit long_digit_run))%nat).
Proof.
  assert (H1 : parse_price (py ".万") = Raise ValueError)
    by (vm_compute; reflexivity).
  assert (H2 : parse_price long_digit_run = Raise ValueError)
    by (vm_compute; reflexivity).
  split; (split; [assumption|]).
  - exact (parse_price_raises_only (py ".万") ValueError H1).
  - exact (parse_price_raises_only long_digit_run ValueError H2).
Defined.

Lemma parse_minutes_first_walk_witness :
  0 <= 12 < int_cap /\
  parse_minutes (py "駅から徒" ++ py "歩" ++ py " " ++ str_of_int 12 ++ [] ++ py "分"
                 ++ py "です") = Ok (Some 12).
Proof.
  assert (H : 0 <= 12 < int_cap) by (split; [lia | vm_compute; reflexivity]).
  split; [exact H|].
  apply (parse_minutes_first_walk (py "駅から徒") (py " ") [] (py "です") 12 H);
    vm_compute; reflexivity.
Defined.

Lemma category_ignores_padding_witness :
  forallb is_space (py " ") = true /\
  map_property_category_jp_to_en (py " " ++ py "マンション" ++ py "　")
  = map_property_category_jp_to_en (py "マンション").
Proof.
  assert (H : forallb is_space (py " ") = true) by (vm_compute; reflexivity).
  split; [exact H|].
  apply (category_ignores_padding (py " ") (py "マンション") (py "　") H).
  vm_compute. reflexivity.
Defined.

Lemma address_from_first_labelled_row_witness :
  Forall unlabelled_row rows_before_address /\
  (* the first labelled row decides, the later one is not looked at *)
  extract_address_jp
    (page_with_rows
       (rows_before_address
        ++ (Some [py "所在地"], Some [py " 東京都世田谷区玉堤２ "])
        :: [(Some [py "所在地"], Some [py "東京都港区"])]))
  = Ok (Some (py "東京都世田谷区玉堤２")) /\
  (* a labelled row without a data cell raises *)
  extract_address_jp
    (page_with_rows
       (rows_before_address
        ++ (Some [py "所在地"], None)
        :: [(Some [py "所在地"], Some [py "東京都港区"])]))
  = Raise AttributeError /\
  (* no labelled row: no address *)
  extract_address_jp (page_with_rows rows_before_address) = Ok None.
Proof.
  assert (H : Forall unlabelled_row rows_before_address).
  { repeat constructor. }
  split; [exact H|]. split; [|split].
  - refine (proj2 (address_from_first_labelled_row
                     (page_with_rows
                        (rows_before_address
                         ++ (Some [py "所在地"], Some [py " 東京都世田谷区玉堤２ "])
                         :: [(Some [py "所在地"], Some [py "東京都港区"])]))
                     rows_before_address H)
              [py "所在地"] (Some [py " 東京都世田谷区玉堤２ "])
              [(Some [py "所在地"], Some [py "東京都港区"])] eq_refl _).
    vm_compute. reflexivity.
  - refine (proj2 (address_from_first_labelled_row
                     (page_with_rows
                        (rows_before_address
                         ++ (Some [py "所在地"], None)
                         :: [(Some [py "所在地"], Some [py "東京都港区"])]))
                     rows_before_address H)
              [py "所在地"] None
              [(Some [py "所在地"], Some [py "東京都港区"])] eq_refl _).
    vm_compute. reflexivity.
  - exact (proj1 (address_from_first_labelled_row
                    (page_with_rows rows_before_address) rows_before_address H)
                 eq_refl).
Defined.

Lemma management_fee_from_first_fee_span_witness :
  Forall not_fee_span [[py "敷金 1万円"]; [py "礼金 -"]] /\
  (* the first fee span decides, the later one is not looked at *)
  extract_rent_and_fee
    (page_with_fee_spans
       ([[py "敷金 1万円"]; [py "礼金 -"]]
        ++ [py "管理費 5,000円"] :: [[py "共益費 3,000円"]]))
  = Ok (py "164,000", py "5,000") /\
  parse_price (get_text_strip [py "管理費 5,000円"]) = Ok (py "5,000") /\
  (* no fee span: the fee is 0 *)
  extract_rent_and_fee (page_with_fee_spans [[py "敷金 1万円"]; [py "礼金 -"]])
  = Ok (py "164,000", py "0").
Proof.
  assert (H : Forall not_fee_span [[py "敷金 1万円"]; [py "礼金 -"]]).
  { repeat constructor. }
  assert (E1 : extract_rent_and_fee
                 (page_with_fee_spans
                    ([[py "敷金 1万円"]; [py "礼金 -"]]
                     ++ [py "管理費 5,000円"] :: [[py "共益費 3,000円"]]))
               = Ok (py "164,000", py "5,000")) by (vm_compute; reflexivity).
  assert (E2 : extract_rent_and_fee
                 (page_with_fee_spans [[py "敷金 1万円"]; [py "礼金 -"]])
               = Ok (py "164,000", py "0")) by (vm_compute; reflexivity).
  split; [exact H|]. split; [exact E1|]. split; [|exact E2].
  refine (proj2 (management_fee_from_first_fee_span
                   (page_with_fee_spans
                      ([[py "敷金 1万円"]; [py "礼金 -"]]
                       ++ [py "管理費 5,000円"] :: [[py "共益費 3,000円"]]))
                   [[py "敷金 1万円"]; [py "礼金 -"]] H)
            [py "管理費 5,000円"] [[py "共益費 3,000円"]]
            (py "164,000", py "5,000") eq_refl _ E1).
  unfold not_fee_span. vm_compute. discriminate.
Defined.

Lemma layout_lookup_ignores_padding_witness :
  forallb is_space (py " ") = true /\
  get_layout_record_id example_env (py " " ++ py "ワンルーム" ++ py " ") fresh_world
  = get_layout_record_id example_env (py "ワンルーム") fresh_world.
Proof.
  assert (H : forallb is_space (py " ") = true) by (vm_compute; reflexivity).
  split; [exact H|].
  exact (layout_lookup_ignores_padding example_env (py " ") (py "ワンルーム") (py " ")
           fresh_world H H).
Defined.

Lemma unknown_category_gives_empty_list_witness :
  exists d w',
    get_suumo_data offline example_env example_url unknown_category_page fresh_world
      = (Ok d, w') /\
    dict_get d (py "Property Categories") = Some (VRefs []).
Proof.
  destruct (get_suumo_data offline example_env example_url unknown_category_page
              fresh_world) as [[d|e] w'] eqn:E.
  - exists d, w'. split; [reflexivity|].
    apply (unknown_category_gives_empty_list offline example_env example_url
             unknown_category_page fresh_world w' d); [|exact E].
    intros k Hk. vm_compute in Hk. inversion Hk; subst.
    split; vm_compute; discriminate.
  - vm_compute in E. discriminate E.
Defined.

Lemma url_without_kind_gives_empty_list_witness :
  exists d w',
    get_suumo_data offline example_env (py "https://suumo.jp/jj/bukken/") full_page
      fresh_world = (Ok d, w') /\
    dict_get d (py "Property Type") = Some (VRefs []).
Proof.
  destruct (get_suumo_data offline example_env (py "https://suumo.jp/jj/bukken/")
              full_page fresh_world) as [[d|e] w'] eqn:E.
  - exists d, w'. split; [reflexivity|].
    apply (url_without_kind_gives_empty_list offline example_env
             (py "https://suumo.jp/jj/bukken/") full_page fresh_world w' d);
      [vm_compute; reflexivity | vm_compute; reflexivity
      | vm_compute; reflexivity | exact E].
  - vm_compute in E. discriminate E.
Defined.

Lemma price_range_follows_price_witness :
  exists d w',
    get_suumo_data offline example_env example_url full_page fresh_world
      = (Ok d, w') /\
    exists n pr,
      0 <= n /\
      dict_get d (py "Property Price") = Some (VStr (format_commas n)) /\
      airtable_find_by_name (PRICE_RANGE_TABLE_ID example_env)
        (price_range_label n) w' = (Ok pr, w') /\
      dict_get d (py "Property Price Range") = Some (link pr).
Proof.
  destruct (get_suumo_data offline example_env example_url full_page fresh_world)
    as [[d|e] w'] eqn:E.
  - exists d, w'. split; [reflexivity|].
    exact (price_range_follows_price offline example_env example_url full_page
             fresh_world w' d E).
  - vm_compute in E. discriminate E.
Defined.

Lemma parse_price_whole_man_witness :
  0 <= 25 /\ parse_price (str_of_int 25 ++ py "万" ++ py "円") = Ok (py "250,000").
Proof.
  assert (H : 0 <= 25) by lia.
  split; [exact H|].
  apply (parse_price_whole_man 25 (py "円") H). vm_compute. reflexivity.
Defined.

Lemma price_range_label_monotone_witness :
  150000 <= 360000 /\
  exists i j,
    (i <= j < 10)%nat /\
    price_range_label 150000 = nth i price_labels [] /\
    price_range_label 360000 = nth j price_labels [].
Proof.
  assert (H : 150000 <= 360000) by lia.
  split; [exact H|]. exact (price_range_label_monotone 150000 360000 H).
Defined.

Lemma links_point_to_rows_witness :
  exists d w',
    get_suumo_data offline example_env example_url full_page fresh_world
      = (Ok d, w') /\
    field_links_to d (py "Property Locations") (base w')
      (AREAS_TABLE_ID example_env) /\
    field_links_to d (py "Access One: Train Station") (base w')
      (STATIONS_TABLE_ID example_env).
Proof.
  destruct (get_suumo_data offline example_env example_url full_page fresh_world)
    as [[d|e] w'] eqn:E.
  - exists d, w'. split; [reflexivity|].
    destruct (links_point_to_rows offline example_env example_url full_page
                fresh_world w' d E) as (_ & Ha & Hs & _).
    split; [exact Ha | exact Hs].
  - vm_compute in E. discriminate E.
Defined.

Lemma size_of_whole_number_witness :
  th_size whole_size_page = Some (Some [py "30m2"]) /\
  exists layout, extract_layout_and_size whole_size_page = Ok (layout, py "302").
Proof.
  assert (H : th_size whole_size_page = Some (Some [py "30m2"])) by reflexivity.
  split; [exact H|].
  apply (size_of_whole_number whole_size_page [py "30m2"] H).
  - vm_compute. discriminate.
  - vm_compute. reflexivity.
  - vm_compute. reflexivity.
Defined.

Lemma deposit_from_last_span_witness :
  deposit_loop [[py "敷金 1万円"]] (py "0") (py "0") = Ok (py "10,000", py "0") /\
  deposit_loop ([[py "敷金 1万円"]] ++ [[py "敷金/礼金 2万円"]]) (py "0") (py "0")
  = Ok (py "20,000", py "0").
Proof.
  assert (H : deposit_loop [[py "敷金 1万円"]] (py "0") (py "0")
              = Ok (py "10,000", py "0")) by (vm_compute; reflexivity).
  split; [exact H|].
  refine (eq_trans (deposit_from_last_span [[py "敷金 1万円"]] [py "敷金/礼金 2万円"]
                      (py "0") (py "0") _ _ H) _).
  vm_compute. reflexivity.
Defined.

Lemma access_line_parsed_witness :
  (* a station with a curated alias: the service is not called *)
  extract_stations_and_minutes counting
    (page_with_access_lines [[py "小田急線/南新宿駅 歩5分"]]) (counting_world 0)
  = (Ok [(py "Minami-Shinjuku", Some 5)], counting_world 0) /\
  (* a station without one: the translation is normalised *)
  extract_stations_and_minutes counting
    (page_with_access_lines [[py " 東急大井町線/等々力駅 歩12分"]]) (counting_world 0)
  = (Ok [(py "Tamazutsumi-2", Some 12)], counting_world 1).
Proof.
  split.
  - refine (eq_trans
      (access_line_parsed counting (py "小田急線") (py "南新宿") 5
         ltac:(lia) ltac:(vm_compute; reflexivity) ltac:(discriminate) eq_refl
         (page_with_access_lines [[py "小田急線/南新宿駅 歩5分"]])
         (counting_world 0) eq_refl) _).
    reflexivity.
  - refine (eq_trans
      (access_line_parsed counting (py " 東急大井町線") (py "等々力") 12
         ltac:(lia) ltac:(vm_compute; reflexivity) ltac:(discriminate) eq_refl
         (page_with_access_lines [[py " 東急大井町線/等々力駅 歩12分"]])
         (counting_world 0) eq_refl) _).
    reflexivity.
Defined.
